(** * CampusCart support desk: ticket lifecycle and escalation

    A shallow embedding of [backend/controllers/supportController.js],
    of [backend/routes/support.js] and of the pure parts of the vendor's
    [RestaurantComplaints] component.  The relational store is a record
    of tables, each table a list of rows in the order the engine returns
    them; every SQL statement of the controller is a function on that
    record; the handlers thread the store, a statement counter and a call
    log through a small state-and-exception monad, so that [try]/[catch]
    and a failing [pool.execute] are part of the model. *)

From Stdlib Require Import List String Ascii ZArith QArith Bool Lia.
From Stdlib Require Import Sorting.Sorted Sorting.Permutation.
Import ListNotations.

Open Scope string_scope.
Open Scope Z_scope.

Arguments String.eqb : simpl never.

(** ** JavaScript values reaching the controller

    A request field is either missing ([None], JavaScript [undefined] or
    [null]) or present.  Text fields carry strings, identifiers carry
    integers.  A character of a string stands for the code unit of the
    same number, so texts range over the code units below 256. *)

Module Js.

(** [!!v] for a text field: the empty string is falsy. *)
Definition truthy_str (v : option string) : bool :=
  match v with
  | Some s => negb (s =? "")%string
  | None => false
  end.

(** [!!v] for a numeric field: zero is falsy. *)
Definition truthy_num (v : option Z) : bool :=
  match v with
  | Some n => negb (n =? 0)
  | None => false
  end.

(** [a || b] on text fields. *)
Definition or_str (a b : option string) : option string :=
  if truthy_str a then a else b.

(** [a || null] on numeric fields. *)
Definition or_null (a : option Z) : option Z :=
  if truthy_num a then a else None.

(** The text bound to a statement for a field already known truthy. *)
Definition text (v : option string) : string :=
  match v with
  | Some s => s
  | None => ""
  end.

(** White space removed by [String.prototype.trim], among the code units
    below 256: tab, line feed, vertical tab, form feed, carriage return,
    space and no-break space. *)
Definition is_ws (c : ascii) : bool :=
  let n := nat_of_ascii c in
  ((n =? 32) || ((9 <=? n) && (n <=? 13)) || (n =? 160))%nat.

Fixpoint trim_start (s : string) : string :=
  match s with
  | EmptyString => EmptyString
  | String c r => if is_ws c then trim_start r else s
  end.

Definition reverse (s : string) : string :=
  string_of_list_ascii (List.rev (list_ascii_of_string s)).

Definition trim (s : string) : string :=
  reverse (trim_start (reverse (trim_start s))).

(** The integer bound to a statement for a field already known truthy. *)
Definition number (v : option Z) : Z :=
  match v with
  | Some n => n
  | None => 0
  end.

(** The names an object literal inherits from [Object.prototype].  For
    such a key [o[k]] is a function or an object even though the literal
    does not list it: the value is truthy, and it is no text. *)
Definition inherited_names : list string :=
  [ "constructor"; "__proto__"; "hasOwnProperty"; "isPrototypeOf";
    "propertyIsEnumerable"; "toLocaleString"; "toString"; "valueOf";
    "__defineGetter__"; "__defineSetter__"; "__lookupGetter__";
    "__lookupSetter__" ].

Definition inherited (k : string) : bool :=
  existsb (String.eqb k) inherited_names.

End Js.

(** ** Rows of the store

    One record per table, with the columns the controller reads or
    writes.  Field prefixes follow the aliases of the queries ([st], [cm],
    [u], [r], [rc]). *)

Record user_row := {
  u_user_id : Z;
  u_full_name : string;
  u_email : string;
  u_user_type : string;
  u_is_active : bool
}.

Record restaurant_row := {
  r_restaurant_id : Z;
  r_restaurant_name : string;
  r_vendor_id : Z
}.

Record order_row := {
  o_order_id : Z;
  o_restaurant_id : option Z
}.

Record ticket_row := {
  st_ticket_id : Z;
  st_user_id : Z;
  st_order_id : option Z;
  st_restaurant_id : option Z;
  st_ticket_type : string;
  st_subject : string;
  st_description : string;
  st_priority : string;
  st_status : string;
  st_assigned_to : option Z;
  st_created_at : Z;
  st_updated_at : Z
}.

Record message_row := {
  cm_message_id : Z;
  cm_ticket_id : Z;
  cm_sender_id : option Z;
  cm_sender_type : string;
  cm_message_text : string;
  cm_is_internal_note : bool;
  cm_is_ai_generated : bool;
  cm_ai_confidence_score : option Q;
  cm_created_at : Z
}.

Record ai_log_row := {
  log_ticket_id : Z;
  log_user_query : string;
  log_ai_response : string;
  log_intent_detected : string;
  log_confidence_score : Q;
  log_escalated_to_human : bool
}.

Record escalation_row := {
  te_ticket_id : Z;
  te_escalated_from : option Z;
  te_escalated_to : Z;
  te_escalation_reason : string;
  te_escalation_level : string
}.

Record complaint_row := {
  rc_ticket_id : Z;
  rc_restaurant_id : Z;
  rc_complaint_type : string;
  rc_complaint_summary : option string;
  rc_created_at : Z
}.

(** The store.  [next_ticket_id] and [next_message_id] are the
    AUTO_INCREMENT counters behind [result.insertId]. *)
Record DB := {
  users : list user_row;
  restaurants : list restaurant_row;
  orders : list order_row;
  support_tickets : list ticket_row;
  chat_messages : list message_row;
  ai_bot_logs : list ai_log_row;
  ticket_escalations : list escalation_row;
  restaurant_complaints : list complaint_row;
  next_ticket_id : Z;
  next_message_id : Z
}.

(** ** Generic query operators *)

Section Relational.
Context {A : Type}.

(** [ORDER BY]: an insertion sort.  The clauses of the source name no
    second key, so the order of rows with equal keys is the engine's;
    this sort keeps them in the order of the table, which is one of the
    orders the engine may produce. *)
Fixpoint insert_by (le : A -> A -> bool) (x : A) (l : list A) : list A :=
  match l with
  | [] => [x]
  | y :: r => if le x y then x :: l else y :: insert_by le x r
  end.

Fixpoint order_by (le : A -> A -> bool) (l : list A) : list A :=
  match l with
  | [] => []
  | x :: r => insert_by le x (order_by le r)
  end.

(** [LIMIT n]. *)
Definition limit (n : nat) (l : list A) : list A := firstn n l.

(** [l LEFT JOIN r ON on]: every left row is kept; it pairs with each
    matching right row, or with NULL when none matches. *)
Definition left_join {B : Type} (on : A -> B -> bool) (l : list A) (r : list B)
  : list (A * option B) :=
  flat_map (fun a =>
              match filter (on a) r with
              | [] => [(a, None)]
              | ms => map (fun b => (a, Some b)) ms
              end) l.

(** [l JOIN r ON on]. *)
Definition inner_join {B : Type} (on : A -> B -> bool) (l : list A) (r : list B)
  : list (A * B) :=
  flat_map (fun a => map (fun b => (a, b)) (filter (on a) r)) l.

End Relational.

(** [x IN (...)] on text. *)
Definition str_in (x : string) (l : list string) : bool :=
  existsb (String.eqb x) l.

(** [col = ?] on a nullable integer column: NULL matches nothing. *)
Definition col_eq (c : option Z) (v : Z) : bool :=
  match c with
  | Some x => x =? v
  | None => false
  end.

Definition is_null {A : Type} (c : option A) : bool :=
  match c with
  | Some _ => false
  | None => true
  end.

(** ** The process around the store

    [aiService.generateResponse] and the database server are outside the
    controller.  The classifier is a function of its two arguments; the
    server decides, for the n-th statement it receives, whether the
    statement fails (and with which message) and what CURRENT_TIMESTAMP
    is.  It also decides what an enumerated column keeps of a text that
    is none of its values, when it accepts the statement at all
    ([db_off_enum]; MySQL keeps the empty text unless it runs in strict
    mode, where it refuses the statement). *)

Record verdict := {
  message : string;
  confidence : Q;
  intent : string;
  needsHuman : bool
}.

Record Env := {
  generateResponse : string -> string -> verdict;
  db_fails : nat -> option string;
  db_now : nat -> Z;
  db_off_enum : string -> string
}.

(** Calls worth observing that leave no row behind. *)
Inductive call :=
| CallClassifier (text category : string)
| CallEscalate (ticketId : Z) (reason : string).

Record state := {
  db : DB;
  tick : nat;
  calls : list call
}.

Inductive result (A : Type) :=
| Ok (a : A)
| Throw (msg : string).
Arguments Ok {A} a.
Arguments Throw {A} msg.

(** A computation returns or throws, and leaves a state either way: a
    statement that ran before the exception is not undone. *)
Definition M (A : Type) : Type := state -> result A * state.

Definition ret {A} (a : A) : M A := fun s => (Ok a, s).

Definition bind {A B} (m : M A) (k : A -> M B) : M B :=
  fun s =>
    match m s with
    | (Ok a, s') => k a s'
    | (Throw e, s') => (Throw e, s')
    end.

Definition try_catch {A} (m : M A) (handler : string -> M A) : M A :=
  fun s =>
    match m s with
    | (Ok a, s') => (Ok a, s')
    | (Throw e, s') => handler e s'
    end.

Notation "x <- m ;; k" := (bind m (fun x => k))
  (at level 61, m at next level, right associativity).
Notation "m ;;; k" := (bind m (fun _ => k))
  (at level 61, right associativity).

(** A statement is a function of the server time and the store. *)
Definition statement (A : Type) : Type := Z -> DB -> A * DB.

Definition query {A} (f : DB -> A) : statement A := fun _ d => (f d, d).

(** [await pool.execute(sql, params)]. *)
Definition execute (E : Env) {A} (q : statement A) : M A :=
  fun s =>
    let n := tick s in
    match db_fails E n with
    | Some e => (Throw e, {| db := db s; tick := S n; calls := calls s |})
    | None =>
        let r := q (db_now E n) (db s) in
        (Ok (fst r), {| db := snd r; tick := S n; calls := calls s |})
    end.

Definition record_call (c : call) : M unit :=
  fun s => (Ok tt, {| db := db s; tick := tick s; calls := calls s ++ [c] |}).

(** [await aiService.generateResponse(text, category)]. *)
Definition classify (E : Env) (text category : string) : M verdict :=
  record_call (CallClassifier text category) ;;;
  ret (generateResponse E text category).

(** ** Statements of the controller *)

Definition set_support_tickets (d : DB) (l : list ticket_row) : DB :=
  {| users := users d; restaurants := restaurants d; orders := orders d;
     support_tickets := l; chat_messages := chat_messages d;
     ai_bot_logs := ai_bot_logs d; ticket_escalations := ticket_escalations d;
     restaurant_complaints := restaurant_complaints d;
     next_ticket_id := next_ticket_id d; next_message_id := next_message_id d |}.

(** Modelled from the spec: the declaration of the priority column is not
    among the sources.  Section 3 of the specification gives priority as
    the enumeration low | medium | high | urgent; an enumerated column
    sorts by the position of the value in its declaration, and a text
    outside the enumeration has position 0. *)
Definition priority_index (p : string) : Z :=
  if (p =? "low")%string then 1
  else if (p =? "medium")%string then 2
  else if (p =? "high")%string then 3
  else if (p =? "urgent")%string then 4
  else 0.

(** Modelled from the spec: the priority column keeps a text of its
    enumeration as it is bound; of any other text it keeps what the
    server makes of it. *)
Definition priority_column (E : Env) (p : string) : string :=
  if priority_index p =? 0 then db_off_enum E p else p.

(** Modelled from the spec: the declaration of [support_tickets] is not
    among the sources.  A ticket is born with status open and no assigned
    agent (section 3 of the specification); both timestamps default to
    CURRENT_TIMESTAMP; the bound priority goes through the enumerated
    column.

    [INSERT INTO support_tickets (user_id, order_id, restaurant_id,
    ticket_type, subject, description, priority) VALUES (?,?,?,?,?,?,?)],
    returning [insertId]. *)
Definition insert_support_ticket (E : Env)
    (userId : Z) (order_id restaurant_id : option Z)
    (ticket_type subject description priority : string) : statement Z :=
  fun now d =>
    let id := next_ticket_id d in
    let row := {| st_ticket_id := id; st_user_id := userId;
                  st_order_id := order_id; st_restaurant_id := restaurant_id;
                  st_ticket_type := ticket_type; st_subject := subject;
                  st_description := description;
                  st_priority := priority_column E priority;
                  st_status := "open"; st_assigned_to := None;
                  st_created_at := now; st_updated_at := now |} in
    (id,
     {| users := users d; restaurants := restaurants d; orders := orders d;
        support_tickets := support_tickets d ++ [row];
        chat_messages := chat_messages d;
        ai_bot_logs := ai_bot_logs d; ticket_escalations := ticket_escalations d;
        restaurant_complaints := restaurant_complaints d;
        next_ticket_id := id + 1; next_message_id := next_message_id d |}).

(** [INSERT INTO chat_messages (...) VALUES (...)], returning [insertId].
    The columns a statement does not list take their defaults: FALSE for
    the two flags, NULL for the confidence score. *)
Definition insert_chat_message
    (ticket_id : Z) (sender_id : option Z) (sender_type text : string)
    (is_internal_note is_ai_generated : bool) (score : option Q) : statement Z :=
  fun now d =>
    let id := next_message_id d in
    let row := {| cm_message_id := id; cm_ticket_id := ticket_id;
                  cm_sender_id := sender_id; cm_sender_type := sender_type;
                  cm_message_text := text;
                  cm_is_internal_note := is_internal_note;
                  cm_is_ai_generated := is_ai_generated;
                  cm_ai_confidence_score := score;
                  cm_created_at := now |} in
    (id,
     {| users := users d; restaurants := restaurants d; orders := orders d;
        support_tickets := support_tickets d;
        chat_messages := chat_messages d ++ [row];
        ai_bot_logs := ai_bot_logs d; ticket_escalations := ticket_escalations d;
        restaurant_complaints := restaurant_complaints d;
        next_ticket_id := next_ticket_id d; next_message_id := id + 1 |}).

(** [INSERT INTO ai_bot_logs (ticket_id, user_query, ai_response,
    intent_detected, confidence_score, escalated_to_human)]. *)
Definition insert_ai_bot_log (ticket_id : Z) (user_query : string) (v : verdict)
  : statement unit :=
  fun _ d =>
    let row := {| log_ticket_id := ticket_id; log_user_query := user_query;
                  log_ai_response := message v;
                  log_intent_detected := intent v;
                  log_confidence_score := confidence v;
                  log_escalated_to_human := needsHuman v |} in
    (tt,
     {| users := users d; restaurants := restaurants d; orders := orders d;
        support_tickets := support_tickets d; chat_messages := chat_messages d;
        ai_bot_logs := ai_bot_logs d ++ [row];
        ticket_escalations := ticket_escalations d;
        restaurant_complaints := restaurant_complaints d;
        next_ticket_id := next_ticket_id d; next_message_id := next_message_id d |}).

(** *** Agent selection

    [SELECT u.user_id, COUNT(st.ticket_id) as active_tickets
     FROM users u
     LEFT JOIN support_tickets st ON u.user_id = st.assigned_to
        AND st.status IN ('assigned', 'in_progress')
     WHERE u.user_type = 'support_agent' AND u.is_active = TRUE
     GROUP BY u.user_id
     ORDER BY active_tickets ASC
     LIMIT 1] *)

Definition agent_on (u : user_row) (st : ticket_row) : bool :=
  col_eq (st_assigned_to st) (u_user_id u)
  && str_in (st_status st) ["assigned"; "in_progress"].

Definition agent_where (row : user_row * option ticket_row) : bool :=
  (u_user_type (fst row) =? "support_agent")%string && u_is_active (fst row).

(** The keys of [GROUP BY], each once, in order of first appearance. *)
Fixpoint distinct (l : list Z) : list Z :=
  match l with
  | [] => []
  | x :: r => x :: filter (fun y => negb (y =? x)) (distinct r)
  end.

(** [COUNT(st.ticket_id)] within the group of [id]: the joined rows of
    that user whose ticket side is not NULL. *)
Definition count_tickets (id : Z) (rows : list (user_row * option ticket_row)) : Z :=
  Z.of_nat (List.length
              (filter (fun row => (u_user_id (fst row) =? id)
                                  && negb (is_null (snd row))) rows)).

Definition group_by_user_id (rows : list (user_row * option ticket_row))
  : list (Z * Z) :=
  map (fun id => (id, count_tickets id rows))
      (distinct (map (fun row => u_user_id (fst row)) rows)).

Definition active_tickets_asc (a b : Z * Z) : bool := snd a <=? snd b.

Definition select_least_loaded_agent : statement (list (Z * Z)) :=
  query (fun d =>
    limit 1
      (order_by active_tickets_asc
         (group_by_user_id
            (filter agent_where
               (left_join agent_on (users d) (support_tickets d)))))).

(** [UPDATE support_tickets SET assigned_to = ?, status = 'assigned',
    updated_at = CURRENT_TIMESTAMP WHERE ticket_id = ?] *)
Definition assign_row (agentId ticketId now : Z) (st : ticket_row) : ticket_row :=
  if st_ticket_id st =? ticketId then
    {| st_ticket_id := st_ticket_id st; st_user_id := st_user_id st;
       st_order_id := st_order_id st; st_restaurant_id := st_restaurant_id st;
       st_ticket_type := st_ticket_type st; st_subject := st_subject st;
       st_description := st_description st; st_priority := st_priority st;
       st_status := "assigned"; st_assigned_to := Some agentId;
       st_created_at := st_created_at st; st_updated_at := now |}
  else st.

Definition update_assign_ticket (agentId ticketId : Z) : statement unit :=
  fun now d =>
    (tt, set_support_tickets d (map (assign_row agentId ticketId now) (support_tickets d))).

(** [INSERT INTO ticket_escalations (ticket_id, escalated_from,
    escalated_to, escalation_reason, escalation_level)
    VALUES (?, NULL, ?, ?, 'agent')] *)
Definition insert_ticket_escalation (ticketId agentId : Z) (reason : string)
  : statement unit :=
  fun _ d =>
    let row := {| te_ticket_id := ticketId; te_escalated_from := None;
                  te_escalated_to := agentId; te_escalation_reason := reason;
                  te_escalation_level := "agent" |} in
    (tt,
     {| users := users d; restaurants := restaurants d; orders := orders d;
        support_tickets := support_tickets d; chat_messages := chat_messages d;
        ai_bot_logs := ai_bot_logs d;
        ticket_escalations := ticket_escalations d ++ [row];
        restaurant_complaints := restaurant_complaints d;
        next_ticket_id := next_ticket_id d; next_message_id := next_message_id d |}).

Definition handoff_notice : string :=
  "A support agent has joined the conversation and will assist you shortly.".

(** ** Escalation *)

(** [escalateToHuman(ticketId, reason)]: every failure inside is caught
    and logged, nothing reaches the caller. *)
Definition escalateToHuman (E : Env) (ticketId : Z) (reason : string) : M unit :=
  record_call (CallEscalate ticketId reason) ;;;
  try_catch
    (agents <- execute E select_least_loaded_agent ;;
     match agents with
     | agent :: _ =>
         let agentId := fst agent in
         execute E (update_assign_ticket agentId ticketId) ;;;
         execute E (insert_chat_message ticketId None "ai_bot" handoff_notice
                      false true None) ;;;
         execute E (insert_ticket_escalation ticketId agentId reason) ;;;
         ret tt
     | [] => ret tt
     end)
    (fun _ => ret tt).

(** ** Requests and responses *)

(** The identity the authentication middleware attaches: the id and the
    role of the caller's row in [users]. *)
Record auth_user := {
  user_id : Z;
  user_type : string
}.

(** [req.user] is what the authentication middleware attached, [None]
    when it attached nothing; the other fields are [req.params],
    [req.body] and [req.query]. *)
Record request := {
  req_user : option auth_user;
  param_ticket_id : Z;
  body_order_id : option Z;
  body_restaurant_id : option Z;
  body_ticket_type : option string;
  body_subject : option string;
  body_description : option string;
  body_priority : option string;
  body_message_text : option string;
  body_is_internal_note : option bool;
  query_status : option string;
  query_priority : option string
}.

Definition message_view : Type := message_row * option user_row.
Definition agent_ticket_view : Type :=
  ticket_row * user_row * option restaurant_row * option user_row.
Definition own_ticket_view : Type :=
  ticket_row * option restaurant_row * option order_row * option user_row.
Definition debug_ticket_view : Type :=
  ticket_row * option user_row * option restaurant_row.
Definition complaint_view : Type := complaint_row * ticket_row * restaurant_row.

Inductive response :=
| TicketCreated (ticket_id : Z) (ai_response : string) (escalated : bool)
                (status : string)
| MessageSent (message_id : Z)
| MessageList (messages : list message_view)
| OwnTicketList (tickets : list own_ticket_view)
| AgentTicketList (tickets : list agent_ticket_view)
| ComplaintList (complaints : list complaint_view)
| DebugView (ticket : debug_ticket_view) (messages : list message_view)
            (restaurant_complaints : list complaint_row)
| Failure (code : Z) (error : string) (details : option string).

(** Reading [req.user.user_id] with no user attached is a TypeError
    (the text is the one current Node releases give it). *)
Definition the_user (req : request) : M auth_user :=
  fun s =>
    match req_user req with
    | Some u => (Ok u, s)
    | None => (Throw "Cannot read properties of undefined (reading 'user_id')", s)
    end.

(** ** Ticket creation *)

(** ['SELECT restaurant_id FROM orders WHERE order_id = ? LIMIT 1'] *)
Definition select_order_restaurant (order_id : Z) : statement (list (option Z)) :=
  query (fun d =>
    limit 1 (map o_restaurant_id
               (filter (fun o => o_order_id o =? order_id) (orders d)))).

(** [INSERT INTO restaurant_complaints (ticket_id, restaurant_id,
    complaint_type, complaint_summary) VALUES (?, ?, ?, ?)] *)
Definition insert_restaurant_complaint
    (ticketId restaurantId : Z) (complaint_type : string)
    (summary : option string) : statement unit :=
  fun now d =>
    let row := {| rc_ticket_id := ticketId; rc_restaurant_id := restaurantId;
                  rc_complaint_type := complaint_type;
                  rc_complaint_summary := summary; rc_created_at := now |} in
    (tt,
     {| users := users d; restaurants := restaurants d; orders := orders d;
        support_tickets := support_tickets d; chat_messages := chat_messages d;
        ai_bot_logs := ai_bot_logs d; ticket_escalations := ticket_escalations d;
        restaurant_complaints := restaurant_complaints d ++ [row];
        next_ticket_id := next_ticket_id d; next_message_id := next_message_id d |}).

(** [priority === 'urgent'] *)
Definition is_urgent (priority : option string) : bool :=
  match priority with
  | Some p => (p =? "urgent")%string
  | None => false
  end.

(** The inner [try] of [createTicket]: the restaurant of the complaint,
    then the complaint itself. *)
Definition projectComplaint (E : Env) (req : request) (ticketId : Z) : M unit :=
  let restaurant_id := body_restaurant_id req in
  let order_id := body_order_id req in
  effectiveRestaurantId <-
    (if negb (Js.truthy_num restaurant_id) && Js.truthy_num order_id then
       try_catch
         (rows <- execute E (select_order_restaurant (Js.number order_id)) ;;
          match rows with
          | r :: _ => ret r
          | [] => ret restaurant_id
          end)
         (fun _ => ret restaurant_id)
     else ret restaurant_id) ;;
  if Js.truthy_num effectiveRestaurantId then
    execute E (insert_restaurant_complaint ticketId (Js.number effectiveRestaurantId)
                 (Js.text (body_ticket_type req))
                 (Js.or_str (body_subject req)
                    (Js.or_str (body_description req) None)))
  else ret tt.

Definition createTicket (E : Env) (req : request) : M response :=
  try_catch
    (u <- the_user req ;;
     let userId := user_id u in
     let ticket_type := body_ticket_type req in
     let subject := body_subject req in
     let description := body_description req in
     let priority := body_priority req in
     if negb (Js.truthy_str ticket_type) || negb (Js.truthy_str subject)
        || negb (Js.truthy_str description)
     then ret (Failure 400 "Missing required fields" None)
     else
       ticketId <- execute E
         (insert_support_ticket E userId
            (Js.or_null (body_order_id req)) (Js.or_null (body_restaurant_id req))
            (Js.text ticket_type) (Js.text subject) (Js.text description)
            (Js.text (Js.or_str priority (Some "medium")))) ;;
       execute E (insert_chat_message ticketId (Some userId) "customer"
                    (Js.text description) false false None) ;;;
       aiResponse <- classify E (Js.text description) (Js.text ticket_type) ;;
       execute E (insert_chat_message ticketId None "ai_bot" (message aiResponse)
                    false true (Some (confidence aiResponse))) ;;;
       execute E (insert_ai_bot_log ticketId (Js.text description) aiResponse) ;;;
       (if needsHuman aiResponse || is_urgent priority then
          escalateToHuman E ticketId
            ("Auto-escalation: "
               ++ (if needsHuman aiResponse then "AI confidence low"
                   else "Urgent priority"))
        else ret tt) ;;;
       try_catch (projectComplaint E req ticketId) (fun _ => ret tt) ;;;
       ret (TicketCreated ticketId (message aiResponse) (needsHuman aiResponse)
              "open"))
    (fun msg => ret (Failure 500 "Failed to create support ticket" (Some msg))).

(** ** Reading a ticket's messages *)

(** ['SELECT ticket_id FROM support_tickets WHERE ticket_id = ? AND
    user_id = ?'] *)
Definition select_owned_ticket (ticket_id userId : Z) : statement (list Z) :=
  query (fun d =>
    map st_ticket_id
        (filter (fun st => (st_ticket_id st =? ticket_id) && (st_user_id st =? userId))
                (support_tickets d))).

Definition sender_on (cm : message_row) (u : user_row) : bool :=
  col_eq (cm_sender_id cm) (u_user_id u).

Definition created_at_asc (a b : message_view) : bool :=
  cm_created_at (fst a) <=? cm_created_at (fst b).

(** [SELECT cm.*, u.full_name as sender_name, u.user_type as sender_role
     FROM chat_messages cm LEFT JOIN users u ON cm.sender_id = u.user_id
     WHERE cm.ticket_id = ?
       AND (cm.is_internal_note = FALSE
            OR ? IN ('support_agent', 'senior_support', 'admin'))
     ORDER BY cm.created_at ASC] *)
Definition select_ticket_messages (ticket_id : Z) (userType : string)
  : statement (list message_view) :=
  query (fun d =>
    order_by created_at_asc
      (filter (fun row =>
                 (cm_ticket_id (fst row) =? ticket_id)
                 && (negb (cm_is_internal_note (fst row))
                     || str_in userType ["support_agent"; "senior_support"; "admin"]))
              (left_join sender_on (chat_messages d) (users d)))).

Definition getTicketMessages (E : Env) (req : request) : M response :=
  try_catch
    (let ticket_id := param_ticket_id req in
     u <- the_user req ;;
     let userId := user_id u in
     let userType := user_type u in
     denied <-
       (if (userType =? "student")%string then
          tickets <- execute E (select_owned_ticket ticket_id userId) ;;
          ret (Nat.eqb (List.length tickets) 0)
        else ret false) ;;
     if denied then ret (Failure 403 "Access denied" None)
     else
       messages <- execute E (select_ticket_messages ticket_id userType) ;;
       ret (MessageList messages))
    (fun _ => ret (Failure 500 "Failed to get messages" None)).

(** ** The debug read *)

(** [SELECT st.*, u.full_name as customer_name, r.restaurant_name
     FROM support_tickets st
     LEFT JOIN users u ON st.user_id = u.user_id
     LEFT JOIN restaurants r ON st.restaurant_id = r.restaurant_id
     WHERE st.ticket_id = ?] *)
Definition select_debug_ticket (ticket_id : Z) : statement (list debug_ticket_view) :=
  query (fun d =>
    filter (fun row => st_ticket_id (fst (fst row)) =? ticket_id)
      (left_join (fun row r => col_eq (st_restaurant_id (fst row)) (r_restaurant_id r))
         (left_join (fun st u => st_user_id st =? u_user_id u)
            (support_tickets d) (users d))
         (restaurants d))).

(** [SELECT cm.*, ... FROM chat_messages cm LEFT JOIN users u ON
    cm.sender_id = u.user_id WHERE cm.ticket_id = ? ORDER BY
    cm.created_at ASC] *)
Definition select_all_ticket_messages (ticket_id : Z) : statement (list message_view) :=
  query (fun d =>
    order_by created_at_asc
      (filter (fun row => cm_ticket_id (fst row) =? ticket_id)
              (left_join sender_on (chat_messages d) (users d)))).

(** [SELECT * FROM restaurant_complaints WHERE ticket_id = ?] *)
Definition select_ticket_complaints (ticket_id : Z) : statement (list complaint_row) :=
  query (fun d =>
    filter (fun rc => rc_ticket_id rc =? ticket_id) (restaurant_complaints d)).

Definition debugTicket (E : Env) (req : request) : M response :=
  try_catch
    (let ticket_id := param_ticket_id req in
     tickets <- execute E (select_debug_ticket ticket_id) ;;
     match tickets with
     | [] => ret (Failure 404 "Ticket not found" None)
     | ticket :: _ =>
         messages <- execute E (select_all_ticket_messages ticket_id) ;;
         complaints <- execute E (select_ticket_complaints ticket_id) ;;
         ret (DebugView ticket messages complaints)
     end)
    (fun msg => ret (Failure 500 "Failed to debug ticket" (Some msg))).

(** ** Posting a message *)

(** The table [senderTypeMap] of [sendMessage]. *)
Definition senderTypeMap : list (string * string) :=
  [ ("student", "customer");
    ("support_agent", "support_agent");
    ("senior_support", "senior_support");
    ("admin", "senior_support") ].

(** [m[k]] over the keys the literal lists.  This is the whole of the
    JavaScript lookup for every key outside [Js.inherited_names]; the
    statements about [sendMessage] are made for such roles. *)
Fixpoint lookup (k : string) (m : list (string * string)) : option string :=
  match m with
  | [] => None
  | (k', v) :: r => if (k =? k')%string then Some v else lookup k r
  end.

(** [UPDATE support_tickets
     SET updated_at = CURRENT_TIMESTAMP,
         status = CASE WHEN status = 'open'
                        AND ? IN ('support_agent', 'senior_support')
                       THEN 'in_progress' ELSE status END
     WHERE ticket_id = ?] *)
Definition reply_row (userType : string) (ticket_id now : Z) (st : ticket_row)
  : ticket_row :=
  if st_ticket_id st =? ticket_id then
    {| st_ticket_id := st_ticket_id st; st_user_id := st_user_id st;
       st_order_id := st_order_id st; st_restaurant_id := st_restaurant_id st;
       st_ticket_type := st_ticket_type st; st_subject := st_subject st;
       st_description := st_description st; st_priority := st_priority st;
       st_status :=
         (if (st_status st =? "open")%string
             && str_in userType ["support_agent"; "senior_support"]
          then "in_progress" else st_status st);
       st_assigned_to := st_assigned_to st;
       st_created_at := st_created_at st; st_updated_at := now |}
  else st.

Definition update_ticket_on_reply (userType : string) (ticket_id : Z)
  : statement unit :=
  fun now d =>
    (tt, set_support_tickets d (map (reply_row userType ticket_id now) (support_tickets d))).

(** ['SELECT assigned_to, ticket_type FROM support_tickets WHERE
    ticket_id = ?'] *)
Definition select_ticket_assignment (ticket_id : Z)
  : statement (list (option Z * string)) :=
  query (fun d =>
    map (fun st => (st_assigned_to st, st_ticket_type st))
        (filter (fun st => st_ticket_id st =? ticket_id) (support_tickets d))).

(** [!message_text || !message_text.trim()] *)
Definition blank (message_text : option string) : bool :=
  negb (Js.truthy_str message_text)
  || negb (Js.truthy_str (Some (Js.trim (Js.text message_text)))).

(** [is_internal_note || false] *)
Definition flag (v : option bool) : bool :=
  match v with
  | Some b => b
  | None => false
  end.

Definition sendMessage (E : Env) (req : request) : M response :=
  try_catch
    (let ticket_id := param_ticket_id req in
     let message_text := body_message_text req in
     u <- the_user req ;;
     let userId := user_id u in
     let userType := user_type u in
     if blank message_text
     then ret (Failure 400 "Message text is required" None)
     else
       let senderType :=
         Js.text (Js.or_str (lookup userType senderTypeMap) (Some "customer")) in
       insertId <- execute E
         (insert_chat_message ticket_id (Some userId) senderType
            (Js.text message_text) (flag (body_is_internal_note req)) false None) ;;
       execute E (update_ticket_on_reply userType ticket_id) ;;;
       (if (userType =? "student")%string then
          ticket <- execute E (select_ticket_assignment ticket_id) ;;
          match ticket with
          | (assigned_to, ticket_type) :: _ =>
              if negb (Js.truthy_num assigned_to) then
                aiResponse <- classify E (Js.text message_text) ticket_type ;;
                execute E (insert_chat_message ticket_id None "ai_bot"
                             (message aiResponse) false true
                             (Some (confidence aiResponse))) ;;;
                execute E (insert_ai_bot_log ticket_id (Js.text message_text)
                             aiResponse) ;;;
                if needsHuman aiResponse then
                  escalateToHuman E ticket_id "AI escalation recommended"
                else ret tt
              else ret tt
          | [] => ret tt
          end
        else ret tt) ;;;
       ret (MessageSent insertId))
    (fun _ => ret (Failure 500 "Failed to send message" None)).

(** ** Ticket listings *)

(** [SELECT st.*, r.restaurant_name, o.order_id, agent.full_name ...
     FROM support_tickets st
     LEFT JOIN restaurants r ON st.restaurant_id = r.restaurant_id
     LEFT JOIN orders o ON st.order_id = o.order_id
     LEFT JOIN users agent ON st.assigned_to = agent.user_id
     WHERE st.user_id = ? ORDER BY st.created_at DESC] *)
Definition select_user_tickets (userId : Z) : statement (list own_ticket_view) :=
  query (fun d =>
    order_by (fun a b : own_ticket_view =>
                st_created_at (fst (fst (fst b))) <=? st_created_at (fst (fst (fst a))))
      (filter (fun row : own_ticket_view => st_user_id (fst (fst (fst row))) =? userId)
         (left_join
            (fun row agent =>
               col_eq (st_assigned_to (fst (fst row))) (u_user_id agent))
            (left_join
               (fun row o => col_eq (st_order_id (fst row)) (o_order_id o))
               (left_join
                  (fun st r => col_eq (st_restaurant_id st) (r_restaurant_id r))
                  (support_tickets d) (restaurants d))
               (orders d))
            (users d)))).

Definition getUserTickets (E : Env) (req : request) : M response :=
  try_catch
    (u <- the_user req ;;
     tickets <- execute E (select_user_tickets (user_id u)) ;;
     ret (OwnTicketList tickets))
    (fun _ => ret (Failure 500 "Failed to get tickets" None)).

(** [SELECT rc.*, st.priority, st.status, ...
     FROM restaurant_complaints rc
     JOIN support_tickets st ON rc.ticket_id = st.ticket_id
     JOIN restaurants r ON rc.restaurant_id = r.restaurant_id
     WHERE r.vendor_id = ? ORDER BY rc.created_at DESC LIMIT 50] *)
Definition select_restaurant_complaints (vendorId : Z)
  : statement (list complaint_view) :=
  query (fun d =>
    limit 50
      (order_by (fun a b : complaint_view =>
                   rc_created_at (fst (fst b)) <=? rc_created_at (fst (fst a)))
         (filter (fun row : complaint_view => r_vendor_id (snd row) =? vendorId)
            (inner_join
               (fun row r => rc_restaurant_id (fst row) =? r_restaurant_id r)
               (inner_join (fun rc st => rc_ticket_id rc =? st_ticket_id st)
                  (restaurant_complaints d) (support_tickets d))
               (restaurants d))))).

Definition getRestaurantComplaints (E : Env) (req : request) : M response :=
  try_catch
    (u <- the_user req ;;
     complaints <- execute E (select_restaurant_complaints (user_id u)) ;;
     ret (ComplaintList complaints))
    (fun _ => ret (Failure 500 "Failed to get complaints" None)).

(** The clauses [getAllTickets] appends to its query text, each with the
    parameter it pushes. *)
Inductive clause :=
| AssignedNullOrTo (agentId : Z)
| StatusIs (status : string)
| PriorityIs (priority : string).

Definition clause_holds (st : ticket_row) (c : clause) : bool :=
  match c with
  | AssignedNullOrTo a => is_null (st_assigned_to st) || col_eq (st_assigned_to st) a
  | StatusIs s => (st_status st =? s)%string
  | PriorityIs p => (st_priority st =? p)%string
  end.

(** [ORDER BY st.priority DESC, st.created_at ASC]; the enumerated
    column sorts by [priority_index]. *)
Definition priority_desc_created_asc (a b : agent_ticket_view) : bool :=
  let sa := fst (fst (fst a)) in
  let sb := fst (fst (fst b)) in
  (priority_index (st_priority sb) <? priority_index (st_priority sa))
  || ((priority_index (st_priority sa) =? priority_index (st_priority sb))
      && (st_created_at sa <=? st_created_at sb)).

(** [SELECT st.*, ... FROM support_tickets st
     JOIN users u ON st.user_id = u.user_id
     LEFT JOIN restaurants r ON st.restaurant_id = r.restaurant_id
     LEFT JOIN users agent ON st.assigned_to = agent.user_id
     WHERE st.status NOT IN ('resolved', 'closed')] followed by the
    appended clauses and the ordering. *)
Definition select_open_tickets (clauses : list clause)
  : statement (list agent_ticket_view) :=
  query (fun d =>
    order_by priority_desc_created_asc
      (filter (fun row : agent_ticket_view =>
                 let st := fst (fst (fst row)) in
                 negb (str_in (st_status st) ["resolved"; "closed"])
                 && forallb (clause_holds st) clauses)
         (left_join
            (fun row agent =>
               col_eq (st_assigned_to (fst (fst row))) (u_user_id agent))
            (left_join
               (fun row r =>
                  col_eq (st_restaurant_id (fst row)) (r_restaurant_id r))
               (inner_join (fun st u => st_user_id st =? u_user_id u)
                  (support_tickets d) (users d))
               (restaurants d))
            (users d)))).

Definition getAllTickets (E : Env) (req : request) : M response :=
  try_catch
    (let status := query_status req in
     let priority := query_priority req in
     u <- the_user req ;;
     let agentId := user_id u in
     let userType := user_type u in
     let params :=
       ((if (userType =? "support_agent")%string then [AssignedNullOrTo agentId] else [])
        ++ (if Js.truthy_str status then [StatusIs (Js.text status)] else [])
        ++ (if Js.truthy_str priority then [PriorityIs (Js.text priority)] else []))%list in
     tickets <- execute E (select_open_tickets params) ;;
     ret (AgentTicketList tickets))
    (fun _ => ret (Failure 500 "Failed to get tickets" None)).

(** ** Routes *)

Inductive route :=
| POST_tickets
| GET_tickets_my_tickets
| GET_tickets_messages
| POST_tickets_messages
| GET_tickets
| GET_complaints_restaurant
| GET_debug_ticket.

(** Modelled from the spec: [middleware/auth] is not among the sources.
    Authentication either attaches the caller's identity and role to the
    request or answers 401; a role requirement answers 403 to a caller
    whose role is not listed (section 7, AuthorizationError). *)
Definition authenticateToken (req : request) (next : M response) : M response :=
  match req_user req with
  | Some _ => next
  | None => ret (Failure 401 "Access token required" None)
  end.

Definition requireRole (roles : list string) (req : request) (next : M response)
  : M response :=
  match req_user req with
  | Some u =>
      if str_in (user_type u) roles then next
      else ret (Failure 403 "Insufficient permissions" None)
  | None => ret (Failure 401 "Access token required" None)
  end.

Definition router (E : Env) (r : route) (req : request) : M response :=
  match r with
  | POST_tickets =>
      authenticateToken req (requireRole ["student"] req (createTicket E req))
  | GET_tickets_my_tickets =>
      authenticateToken req (requireRole ["student"] req (getUserTickets E req))
  | GET_tickets_messages =>
      authenticateToken req (getTicketMessages E req)
  | POST_tickets_messages =>
      authenticateToken req (sendMessage E req)
  | GET_tickets =>
      authenticateToken req
        (requireRole ["support_agent"; "senior_support"; "admin"] req
           (getAllTickets E req))
  | GET_complaints_restaurant =>
      authenticateToken req (requireRole ["vendor"] req (getRestaurantComplaints E req))
  | GET_debug_ticket =>
      authenticateToken req (debugTicket E req)
  end.

(** ** The vendor's complaint dashboard

    [RestaurantComplaints] renders what [GET /complaints/restaurant]
    returned.  Its pure parts are the two class tables and the figures
    of the statistics cards. *)

(** A complaint as the component receives it; ratings are whole
    numbers. *)
Record complaint_card := {
  card_ticket_id : Z;
  card_resolution_status : option string;
  card_priority : option string;
  card_customer_rating : option Z
}.

Definition colors : list (string * string) :=
  [ ("open", "bg-yellow-100 text-yellow-800");
    ("in_progress", "bg-blue-100 text-blue-800");
    ("escalated", "bg-orange-100 text-orange-800");
    ("resolved", "bg-green-100 text-green-800");
    ("closed", "bg-gray-100 text-gray-800") ].

Definition badges : list (string * string) :=
  [ ("urgent", "bg-red-100 text-red-800");
    ("high", "bg-orange-100 text-orange-800");
    ("medium", "bg-yellow-100 text-yellow-800");
    ("low", "bg-green-100 text-green-800") ].

(** [m[k]] for a key that may be [undefined]. *)
Definition lookup_opt (k : option string) (m : list (string * string))
  : option string :=
  match k with
  | Some k => lookup k m
  | None => None
  end.

(** [colors[status] || colors.open] *)
Definition getStatusColor (status : option string) : string :=
  Js.text (Js.or_str (lookup_opt status colors) (lookup "open" colors)).

(** [badges[priority] || badges.medium] *)
Definition getPriorityBadge (priority : option string) : string :=
  Js.text (Js.or_str (lookup_opt priority badges) (lookup "medium" badges)).

(** [['open', 'in_progress'].includes(c.resolution_status)] *)
Definition is_active_card (c : complaint_card) : bool :=
  match card_resolution_status c with
  | Some st => str_in st ["open"; "in_progress"]
  | None => false
  end.

(** [c.resolution_status === 'resolved'] *)
Definition is_resolved_card (c : complaint_card) : bool :=
  match card_resolution_status c with
  | Some st => (st =? "resolved")%string
  | None => false
  end.

Definition activeCount (complaints : list complaint_card) : nat :=
  List.length (filter is_active_card complaints).

Definition resolvedCount (complaints : list complaint_card) : nat :=
  List.length (filter is_resolved_card complaints).

(** The value of a JavaScript division of an integer by a count. *)
Inductive quotient :=
| Num (q : Q)
| Infinity (negative : bool)
| NaN.

Definition divide (a : Z) (b : nat) : quotient :=
  match b with
  | O => if a =? 0 then NaN else Infinity (a <? 0)
  | S _ => Num (a # Pos.of_nat b)
  end.

(** [complaints.reduce((acc, c) => acc + (c.customer_rating || 0), 0)] *)
Definition ratingSum (complaints : list complaint_card) : Z :=
  fold_left (fun acc c => acc + Js.number (Js.or_null (card_customer_rating c)))
            complaints 0.

(** [complaints.filter(c => c.customer_rating).length] *)
Definition ratedCount (complaints : list complaint_card) : nat :=
  List.length (filter (fun c => Js.truthy_num (card_customer_rating c)) complaints).

(** The figure of the fourth card before [toFixed(1)] formats it;
    [None] is the text N/A. *)
Definition averageRating (complaints : list complaint_card) : option quotient :=
  if (0 <? List.length complaints)%nat
  then Some (divide (ratingSum complaints) (ratedCount complaints))
  else None.

(** * Vocabulary of the statements

    Names for what the statements below talk about: the load of an agent,
    the agent a store would choose, the rows a handler inserts, and the
    states between the statements of a handler. *)

(** The server executes every statement. *)
Definition no_faults (E : Env) : Prop := forall n, db_fails E n = None.

(** ** Agents and their load *)

Definition is_active_agent (u : user_row) : bool :=
  (u_user_type u =? "support_agent")%string && u_is_active u.

(** A ticket counts towards the load of [id]. *)
Definition counts_for (id : Z) (st : ticket_row) : bool :=
  col_eq (st_assigned_to st) id && str_in (st_status st) ["assigned"; "in_progress"].

Definition open_load (d : DB) (id : Z) : Z :=
  Z.of_nat (List.length (filter (counts_for id) (support_tickets d))).

Definition active_agent (d : DB) (id : Z) : Prop :=
  exists u, In u (users d) /\ u_user_id u = id /\ is_active_agent u = true.

(** The agent the selection statement returns on a store. *)
Definition chosen_agent (d : DB) : option Z :=
  match fst (select_least_loaded_agent 0 d) with
  | agent :: _ => Some (fst agent)
  | [] => None
  end.

(** The joined rows of one user. *)
Definition agent_block (ts : list ticket_row) (u : user_row)
  : list (user_row * option ticket_row) :=
  match filter (agent_on u) ts with
  | [] => [(u, None)]
  | ms => map (fun b => (u, Some b)) ms
  end.

(** The state an escalation to [agentId] leaves when its four statements
    all run. *)
Definition assign_effect (E : Env) (ticketId : Z) (reason : string) (agentId : Z)
    (s : state) : state :=
  let n := tick s in
  let d1 := snd (update_assign_ticket agentId ticketId (db_now E (S n)) (db s)) in
  let d2 := snd (insert_chat_message ticketId None "ai_bot" handoff_notice
                   false true None (db_now E (S (S n))) d1) in
  let d3 := snd (insert_ticket_escalation ticketId agentId reason
                   (db_now E (S (S (S n)))) d2) in
  {| db := d3; tick := S (S (S (S n))); calls := calls s ++ [CallEscalate ticketId reason] |}.

(** What no escalation touches, whatever the server does. *)
Record escalation_frame (d d' : DB) : Prop := {
  frame_users : users d' = users d;
  frame_restaurants : restaurants d' = restaurants d;
  frame_orders : orders d' = orders d;
  frame_logs : ai_bot_logs d' = ai_bot_logs d;
  frame_complaints : restaurant_complaints d' = restaurant_complaints d;
  frame_next_ticket : next_ticket_id d' = next_ticket_id d;
  frame_priorities :
    map st_priority (support_tickets d') = map st_priority (support_tickets d);
  frame_ticket_ids :
    map st_ticket_id (support_tickets d') = map st_ticket_id (support_tickets d)
}.

(** ** Ticket creation *)

(** The three required fields are present and non-empty. *)
Definition valid_ticket_request (req : request) : bool :=
  Js.truthy_str (body_ticket_type req) && Js.truthy_str (body_subject req)
  && Js.truthy_str (body_description req).

Definition verdict_of (E : Env) (req : request) : verdict :=
  generateResponse E (Js.text (body_description req)) (Js.text (body_ticket_type req)).

Definition escalation_reason (v : verdict) : string :=
  "Auto-escalation: " ++ (if needsHuman v then "AI confidence low" else "Urgent priority").

(** The row [createTicket] inserts. *)
Definition ticket_of_request (E : Env) (req : request) (u : auth_user) (id now : Z)
  : ticket_row :=
  {| st_ticket_id := id; st_user_id := user_id u;
     st_order_id := Js.or_null (body_order_id req);
     st_restaurant_id := Js.or_null (body_restaurant_id req);
     st_ticket_type := Js.text (body_ticket_type req);
     st_subject := Js.text (body_subject req);
     st_description := Js.text (body_description req);
     st_priority :=
       priority_column E (Js.text (Js.or_str (body_priority req) (Some "medium")));
     st_status := "open"; st_assigned_to := None;
     st_created_at := now; st_updated_at := now |}.

(** The state after the four statements every successful creation runs
    first: ticket, customer message, classifier reply, classifier log. *)
Definition primary_writes (E : Env) (req : request) (u : auth_user) (s : state) : state :=
  let n := tick s in
  let v := generateResponse E (Js.text (body_description req)) (Js.text (body_ticket_type req)) in
  let r1 := insert_support_ticket E (user_id u) (Js.or_null (body_order_id req))
              (Js.or_null (body_restaurant_id req)) (Js.text (body_ticket_type req))
              (Js.text (body_subject req)) (Js.text (body_description req))
              (Js.text (Js.or_str (body_priority req) (Some "medium")))
              (db_now E n) (db s) in
  let d2 := snd (insert_chat_message (fst r1) (Some (user_id u)) "customer"
                   (Js.text (body_description req)) false false None
                   (db_now E (S n)) (snd r1)) in
  let d3 := snd (insert_chat_message (fst r1) None "ai_bot" (message v) false true
                   (Some (confidence v)) (db_now E (S (S n))) d2) in
  let d4 := snd (insert_ai_bot_log (fst r1) (Js.text (body_description req)) v
                   (db_now E (S (S (S n)))) d3) in
  {| db := d4; tick := S (S (S (S n)));
     calls := calls s ++ [CallClassifier (Js.text (body_description req))
                            (Js.text (body_ticket_type req))] |}.

(** The conditional of [createTicket] around [escalateToHuman]. *)
Definition escalation_step (E : Env) (req : request) (ticketId : Z) (v : verdict) : M unit :=
  if needsHuman v || is_urgent (body_priority req) then
    escalateToHuman E ticketId (escalation_reason v)
  else ret tt.

(** The restaurant a complaint is filed against on a store. *)
Definition effective_restaurant (d : DB) (req : request) : option Z :=
  if negb (Js.truthy_num (body_restaurant_id req)) && Js.truthy_num (body_order_id req)
  then match fst (select_order_restaurant (Js.number (body_order_id req)) 0 d) with
       | r :: _ => r
       | [] => body_restaurant_id req
       end
  else body_restaurant_id req.

Definition complaint_of (req : request) (ticketId restaurantId now : Z) : complaint_row :=
  {| rc_ticket_id := ticketId; rc_restaurant_id := restaurantId;
     rc_complaint_type := Js.text (body_ticket_type req);
     rc_complaint_summary :=
       Js.or_str (body_subject req) (Js.or_str (body_description req) None);
     rc_created_at := now |}.

(** ** Posting a message *)

(** The row [sendMessage] inserts for the caller's text. *)
Definition posted_message (req : request) (u : auth_user) (id now : Z) : message_row :=
  {| cm_message_id := id; cm_ticket_id := param_ticket_id req;
     cm_sender_id := Some (user_id u);
     cm_sender_type :=
       Js.text (Js.or_str (lookup (user_type u) senderTypeMap) (Some "customer"));
     cm_message_text := Js.text (body_message_text req);
     cm_is_internal_note := flag (body_is_internal_note req);
     cm_is_ai_generated := false; cm_ai_confidence_score := None;
     cm_created_at := now |}.

(** The row holding a classifier reply. *)
Definition ai_message (ticket_id : Z) (v : verdict) (id now : Z) : message_row :=
  {| cm_message_id := id; cm_ticket_id := ticket_id; cm_sender_id := None;
     cm_sender_type := "ai_bot"; cm_message_text := message v;
     cm_is_internal_note := false; cm_is_ai_generated := true;
     cm_ai_confidence_score := Some (confidence v); cm_created_at := now |}.

(** The first message of a ticket: the description, from its author. *)
Definition opening_message (req : request) (u : auth_user) (ticket_id id now : Z)
  : message_row :=
  {| cm_message_id := id; cm_ticket_id := ticket_id; cm_sender_id := Some (user_id u);
     cm_sender_type := "customer"; cm_message_text := Js.text (body_description req);
     cm_is_internal_note := false; cm_is_ai_generated := false;
     cm_ai_confidence_score := None; cm_created_at := now |}.

Definition ai_log (ticket_id : Z) (user_query : string) (v : verdict) : ai_log_row :=
  {| log_ticket_id := ticket_id; log_user_query := user_query;
     log_ai_response := message v; log_intent_detected := intent v;
     log_confidence_score := confidence v; log_escalated_to_human := needsHuman v |}.

(** The state after the first two statements of [sendMessage]: the
    caller's message is stored and the ticket row updated. *)
Definition after_post (E : Env) (req : request) (u : auth_user) (s : state) : state :=
  let n := tick s in
  let d1 := snd (insert_chat_message (param_ticket_id req) (Some (user_id u))
                   (Js.text (Js.or_str (lookup (user_type u) senderTypeMap)
                                       (Some "customer")))
                   (Js.text (body_message_text req))
                   (flag (body_is_internal_note req)) false None
                   (db_now E n) (db s)) in
  let d2 := snd (update_ticket_on_reply (user_type u) (param_ticket_id req)
                   (db_now E (S n)) d1) in
  {| db := d2; tick := S (S n); calls := calls s |}.

(** The rest of [sendMessage]: the classifier branch. *)
Definition ai_followup (E : Env) (req : request) (u : auth_user) : M unit :=
  let ticket_id := param_ticket_id req in
  let message_text := body_message_text req in
  if (user_type u =? "student")%string then
    ticket <- execute E (select_ticket_assignment ticket_id) ;;
    match ticket with
    | (assigned_to, ticket_type) :: _ =>
        if negb (Js.truthy_num assigned_to) then
          aiResponse <- classify E (Js.text message_text) ticket_type ;;
          execute E (insert_chat_message ticket_id None "ai_bot"
                       (message aiResponse) false true
                       (Some (confidence aiResponse))) ;;;
          execute E (insert_ai_bot_log ticket_id (Js.text message_text)
                       aiResponse) ;;;
          if needsHuman aiResponse then
            escalateToHuman E ticket_id "AI escalation recommended"
          else ret tt
        else ret tt
    | [] => ret tt
    end
  else ret tt.

(** The state in which the classifier branch decides on escalation. *)
Definition after_ai (E : Env) (req : request) (ticket_type : string) (s2 : state) : state :=
  let n := tick s2 in
  let ticket_id := param_ticket_id req in
  let text := Js.text (body_message_text req) in
  let v := generateResponse E text ticket_type in
  let d3 := snd (insert_chat_message ticket_id None "ai_bot" (message v) false true
                   (Some (confidence v)) (db_now E (S n)) (db s2)) in
  let d4 := snd (insert_ai_bot_log ticket_id text v (db_now E (S (S n))) d3) in
  {| db := d4; tick := S (S (S n)); calls := calls s2 ++ [CallClassifier text ticket_type] |}.

(** One statement ran and wrote nothing. *)
Definition skip_select (s : state) : state :=
  {| db := db s; tick := S (tick s); calls := calls s |}.

(** ** Listings *)

Definition agent_roles : list string := ["support_agent"; "senior_support"; "admin"].

Definition ticket_of (row : agent_ticket_view) : ticket_row := fst (fst (fst row)).

Definition own_ticket_of (row : own_ticket_view) : ticket_row := fst (fst (fst row)).

(** Priority descending, then creation time ascending. *)
Definition listed_before (a b : agent_ticket_view) : Prop :=
  priority_index (st_priority (ticket_of b)) < priority_index (st_priority (ticket_of a))
  \/ (priority_index (st_priority (ticket_of a)) = priority_index (st_priority (ticket_of b))
      /\ st_created_at (ticket_of a) <= st_created_at (ticket_of b)).

(** A message of the ticket that a caller of the given role may read. *)
Definition readable_by (userType : string) (ticket_id : Z) (m : message_row) : Prop :=
  cm_ticket_id m = ticket_id
  /\ (cm_is_internal_note m = false \/ str_in userType agent_roles = true).

(** The ticket's id with its owner: what the ownership test of the
    listing compares. *)
Definition owner_key (t : ticket_row) : Z * Z := (st_ticket_id t, st_user_id t).

(** The row of a hand-off notice. *)
Definition handoff_row (ticket_id id now : Z) : message_row :=
  {| cm_message_id := id; cm_ticket_id := ticket_id; cm_sender_id := None;
     cm_sender_type := "ai_bot"; cm_message_text := handoff_notice;
     cm_is_internal_note := false; cm_is_ai_generated := true;
     cm_ai_confidence_score := None; cm_created_at := now |}.

(** The hand-off notice a creation adds, if any. *)
Definition creation_notices (E : Env) (req : request) (u : auth_user) (s : state)
  : list message_row :=
  if needsHuman (verdict_of E req) || is_urgent (body_priority req) then
    match chosen_agent (db (primary_writes E req u s)) with
    | Some _ => [handoff_row (next_ticket_id (db s)) (next_message_id (db s) + 1 + 1)
                   (db_now E (S (S (S (S (S (S (tick s))))))))]
    | None => []
    end
  else [].

(** ** Handlers as a whole *)

(** A handler that leaves the store and the call log as it found them. *)
Definition read_only (h : M response) : Prop :=
  forall s, db (snd (h s)) = db s /\ calls (snd (h s)) = calls s.

(** A handler that answers, whatever state it starts in. *)
Definition responds (h : M response) : Prop :=
  forall s, exists r, fst (h s) = Ok r.

(** ** The dashboard *)

(** The sum of the ratings of the rated complaints. *)
Definition rated_total (complaints : list complaint_card) : Z :=
  fold_right Z.add 0
    (map (fun c => Js.number (card_customer_rating c))
         (filter (fun c => Js.truthy_num (card_customer_rating c)) complaints)).

(** * Sample stores and requests *)

Definition stub_classifier (needs : bool) : string -> string -> verdict :=
  fun _ _ => {| message := "We are looking into it."; confidence := (9 # 10)%Q;
                intent := "general"; needsHuman := needs |}.

(** A server that executes every statement; statement [n] runs at time
    [1000 + n].  Its enumerated columns keep the empty text of a text
    that is none of their values. *)
Definition quiet (needs : bool) : Env :=
  {| generateResponse := stub_classifier needs;
     db_fails := fun _ => None;
     db_now := fun n => 1000 + Z.of_nat n;
     db_off_enum := fun _ => "" |}.

(** A server that fails every statement from the [k]-th on. *)
Definition failing_from (k : nat) (needs : bool) : Env :=
  {| generateResponse := stub_classifier needs;
     db_fails := fun n => if (k <=? n)%nat then Some "ER_LOCK_WAIT_TIMEOUT" else None;
     db_now := fun n => 1000 + Z.of_nat n;
     db_off_enum := fun _ => "" |}.

(** A server in strict mode whose first statement binds a text that an
    enumerated column does not list: it refuses that statement. *)
Definition strict (needs : bool) : Env :=
  {| generateResponse := stub_classifier needs;
     db_fails := fun n => match n with
                          | O => Some "Data truncated for column 'priority' at row 1"
                          | S _ => None
                          end;
     db_now := fun n => 1000 + Z.of_nat n;
     db_off_enum := fun _ => "" |}.

Definition member (id : Z) (role : string) : user_row :=
  {| u_user_id := id; u_full_name := "member"; u_email := "member@campus.example";
     u_user_type := role; u_is_active := true |}.

Definition caller (id : Z) (role : string) : auth_user :=
  {| user_id := id; user_type := role |}.

Definition ticket (id owner : Z) (priority status : string) (agent : option Z)
    (created : Z) : ticket_row :=
  {| st_ticket_id := id; st_user_id := owner; st_order_id := None;
     st_restaurant_id := None; st_ticket_type := "payment";
     st_subject := "Double charge"; st_description := "I was charged twice";
     st_priority := priority; st_status := status; st_assigned_to := agent;
     st_created_at := created; st_updated_at := created |}.

Definition note (id ticket_id sender : Z) (sender_type text : string)
    (internal : bool) (created : Z) : message_row :=
  {| cm_message_id := id; cm_ticket_id := ticket_id; cm_sender_id := Some sender;
     cm_sender_type := sender_type; cm_message_text := text;
     cm_is_internal_note := internal; cm_is_ai_generated := false;
     cm_ai_confidence_score := None; cm_created_at := created |}.

Definition store (us : list user_row) (ts : list ticket_row) (ms : list message_row)
  : DB :=
  {| users := us;
     restaurants := [ {| r_restaurant_id := 9; r_restaurant_name := "Canteen";
                         r_vendor_id := 30 |} ];
     orders := [ {| o_order_id := 40; o_restaurant_id := Some 9 |} ];
     support_tickets := ts; chat_messages := ms; ai_bot_logs := [];
     ticket_escalations := []; restaurant_complaints := [];
     next_ticket_id := 1 + Z.of_nat (List.length ts);
     next_message_id := 1 + Z.of_nat (List.length ms) |}.

Definition boot (d : DB) : state := {| db := d; tick := 0; calls := [] |}.

(** Two students, two idle agents; the engine returns agent 5 before
    agent 2. *)
Definition campus : DB :=
  store [member 1 "student"; member 7 "student";
         member 5 "support_agent"; member 2 "support_agent"] [] [].

(** The same rows, agent 2 returned first. *)
Definition campus_reordered : DB :=
  store [member 1 "student"; member 7 "student";
         member 2 "support_agent"; member 5 "support_agent"] [] [].

(** No support agent at all. *)
Definition unstaffed : DB := store [member 1 "student"] [] [].

(** Agents 11, 12, 13 with open loads 3, 1, 2. *)
Definition loaded : DB :=
  store [member 1 "student"; member 11 "support_agent";
         member 12 "support_agent"; member 13 "support_agent"]
        [ticket 1 1 "low" "assigned" (Some 11) 10;
         ticket 2 1 "low" "in_progress" (Some 11) 11;
         ticket 3 1 "high" "assigned" (Some 11) 12;
         ticket 4 1 "low" "assigned" (Some 12) 13;
         ticket 5 1 "urgent" "in_progress" (Some 13) 14;
         ticket 6 1 "medium" "assigned" (Some 13) 15;
         ticket 7 1 "medium" "resolved" (Some 12) 16;
         ticket 8 1 "medium" "open" None 17]
        [].

(** Ticket 1 of student 1, open and unassigned, carrying an internal
    note written by agent 5. *)
Definition noted : DB :=
  store [member 1 "student"; member 7 "student"; member 5 "support_agent"]
        [ticket 1 1 "medium" "open" None 10]
        [note 1 1 1 "customer" "I was charged twice" false 10;
         note 2 1 5 "support_agent" "Refund pending approval" true 20].

Definition request_of (u : auth_user) (tid : Z) : request :=
  {| req_user := Some u; param_ticket_id := tid;
     body_order_id := None; body_restaurant_id := None;
     body_ticket_type := None; body_subject := None; body_description := None;
     body_priority := None; body_message_text := None;
     body_is_internal_note := None; query_status := None; query_priority := None |}.

Definition ticket_request (priority : option string) (order restaurant : option Z)
  : request :=
  {| req_user := Some (caller 1 "student"); param_ticket_id := 0;
     body_order_id := order; body_restaurant_id := restaurant;
     body_ticket_type := Some "payment"; body_subject := Some "Double charge";
     body_description := Some "I was charged twice";
     body_priority := priority; body_message_text := None;
     body_is_internal_note := None; query_status := None; query_priority := None |}.

Definition message_request (u : auth_user) (tid : Z) (text : string) : request :=
  {| req_user := Some u; param_ticket_id := tid;
     body_order_id := None; body_restaurant_id := None;
     body_ticket_type := None; body_subject := None; body_description := None;
     body_priority := None; body_message_text := Some text;
     body_is_internal_note := None; query_status := None; query_priority := None |}.


(** * Lemmas *)

(** ** Ordering, filtering and joining *)

Section OrderBy.
Context {A : Type} (le : A -> A -> bool).

Lemma insert_by_perm x l : Permutation (insert_by le x l) (x :: l).
Proof.
  induction l as [|y r IH]; simpl; [reflexivity|].
  destruct (le x y); [reflexivity|].
  rewrite IH. apply perm_swap.
Qed.

Lemma order_by_perm l : Permutation (order_by le l) l.
Proof.
  induction l as [|x r IH]; simpl; [constructor|].
  rewrite insert_by_perm. now constructor.
Qed.

Lemma order_by_In x l : In x (order_by le l) <-> In x l.
Proof.
  split; apply Permutation_in; [|symmetry]; apply order_by_perm.
Qed.

Hypothesis le_total : forall a b, le a b = true \/ le b a = true.
Hypothesis le_trans : forall a b c, le a b = true -> le b c = true -> le a c = true.

Lemma insert_by_sorted x l :
  StronglySorted (fun a b => le a b = true) l ->
  StronglySorted (fun a b => le a b = true) (insert_by le x l).
Proof.
  induction 1 as [|y r Hr IH Hy]; simpl.
  - repeat constructor.
  - destruct (le x y) eqn:Hxy.
    + constructor; [now constructor|].
      constructor; [exact Hxy|].
      rewrite Forall_forall in *. eauto.
    + constructor; [exact IH|].
      rewrite Forall_forall in *. intros z Hz.
      apply (Permutation_in _ (insert_by_perm x r)) in Hz.
      destruct Hz as [<-|Hz]; [|auto].
      destruct (le_total x y) as [H|H]; congruence.
Qed.

Lemma order_by_sorted l : StronglySorted (fun a b => le a b = true) (order_by le l).
Proof.
  induction l; simpl; [constructor|]. now apply insert_by_sorted.
Qed.

Lemma order_by_head x r l :
  order_by le l = x :: r -> In x l /\ forall y, In y l -> le x y = true.
Proof.
  intros H. pose proof (order_by_sorted l) as S. rewrite H in S.
  split.
  - apply order_by_In. rewrite H. now left.
  - intros y Hy. apply order_by_In in Hy. rewrite H in Hy.
    inversion S as [|? ? _ F]; subst.
    destruct Hy as [<-|Hy].
    + destruct (le_total x x); assumption.
    + rewrite Forall_forall in F. auto.
Qed.
End OrderBy.

Lemma order_by_nil_inv {A} (le : A -> A -> bool) l : order_by le l = [] -> l = [].
Proof.
intros H. pose proof (order_by_perm le l) as P. rewrite H in P.
now apply Permutation_nil in P.
Qed.

Lemma filter_all {A} (f : A -> bool) l : (forall x, In x l -> f x = true) -> filter f l = l.
Proof.
induction l as [|a l IH]; simpl; intros H; [reflexivity|].
rewrite (H a (or_introl eq_refl)). f_equal. apply IH. auto.
Qed.

Lemma filter_none {A} (f : A -> bool) l : (forall x, In x l -> f x = false) -> filter f l = [].
Proof.
induction l as [|a l IH]; simpl; intros H; [reflexivity|].
rewrite (H a (or_introl eq_refl)). apply IH. auto.
Qed.

Lemma filter_idem {A} (f : A -> bool) l : filter f (filter f l) = filter f l.
Proof.
  apply filter_all. intros x Hx. now apply filter_In in Hx.
Qed.

Lemma left_join_covers {A B} (on : A -> B -> bool) l r a :
  In a l -> exists b, In (a, b) (left_join on l r).
Proof.
  intros Ha. unfold left_join.
  destruct (filter (on a) r) as [|m ms] eqn:Hf.
  - exists None. apply in_flat_map. exists a. split; [exact Ha|]. rewrite Hf. now left.
  - exists (Some m). apply in_flat_map. exists a. split; [exact Ha|]. rewrite Hf. now left.
Qed.

Lemma left_join_fst {A B} (on : A -> B -> bool) l r row :
  In row (left_join on l r) -> In (fst row) l.
Proof.
  unfold left_join. intros H. apply in_flat_map in H. destruct H as (a & Ha & Hr).
  destruct (filter (on a) r) as [|m ms].
  - destruct Hr as [<-|[]]. exact Ha.
  - apply in_map_iff in Hr. destruct Hr as (b & <- & _). exact Ha.
Qed.

Lemma find_filter {A} (f : A -> bool) l x :
  find f l = Some x -> exists rest, filter f l = x :: rest.
Proof.
  induction l as [|a l IH]; simpl; [discriminate|].
  destruct (f a) eqn:Ha; [intros [= ->]; eauto|auto].
Qed.

Lemma StronglySorted_weaken {A} (R R' : A -> A -> Prop) l :
  (forall a b, R a b -> R' a b) -> StronglySorted R l -> StronglySorted R' l.
Proof.
  intros HR. induction 1 as [|a l _ IH Hall]; constructor; [exact IH|].
  revert Hall. apply Forall_impl. apply HR.
Qed.

(** ** The agent selection statement *)

Lemma agent_block_fst ts u row : In row (agent_block ts u) -> fst row = u.
Proof.
  unfold agent_block. destruct (filter (agent_on u) ts) as [|m ms].
  - intros [<-|[]]. reflexivity.
  - intros H. apply in_map_iff in H. destruct H as (b & <- & _). reflexivity.
Qed.

Lemma agent_block_nonempty ts u : agent_block ts u <> [].
Proof.
  unfold agent_block. destruct (filter (agent_on u) ts); discriminate.
Qed.

Lemma left_join_blocks us ts :
  left_join agent_on us ts = flat_map (agent_block ts) us.
Proof. reflexivity. Qed.

Lemma agent_where_join us ts :
  filter agent_where (left_join agent_on us ts)
  = left_join agent_on (filter is_active_agent us) ts.
Proof.
  rewrite !left_join_blocks.
  induction us as [|u us IH]; simpl; [reflexivity|].
  rewrite filter_app, IH.
  destruct (is_active_agent u) eqn:Hu; simpl.
  - f_equal. apply filter_all. intros row Hr.
    apply agent_block_fst in Hr. unfold agent_where. now rewrite Hr.
  - rewrite filter_none; [reflexivity|]. intros row Hr.
    apply agent_block_fst in Hr. unfold agent_where. now rewrite Hr.
Qed.

Lemma distinct_In x l : In x (distinct l) <-> In x l.
Proof.
  induction l as [|a l IH]; simpl; [tauto|].
  rewrite filter_In, IH. destruct (Z.eqb_spec x a); simpl; intuition congruence.
Qed.

Lemma distinct_block x l1 l2 :
  l1 <> [] -> (forall y, In y l1 -> y = x) ->
  distinct (l1 ++ l2) = x :: filter (fun y => negb (y =? x)) (distinct l2).
Proof.
  induction l1 as [|a l1 IH]; intros Hne Hall; [congruence|].
  assert (a = x) by (apply Hall; now left). subst a. simpl.
  destruct l1 as [|b l1]; [reflexivity|].
  rewrite IH; [|discriminate|intros; apply Hall; now right].
  simpl. rewrite Z.eqb_refl. simpl. f_equal. apply filter_idem.
Qed.

Lemma distinct_join_ids us ts :
  NoDup (map u_user_id us) ->
  distinct (map (fun row => u_user_id (fst row)) (flat_map (agent_block ts) us))
  = map u_user_id us.
Proof.
  induction us as [|u us IH]; simpl; intros N; [reflexivity|].
  inversion N as [|? ? Hnotin N']; subst.
  rewrite map_app.
  rewrite (distinct_block (u_user_id u)).
  - rewrite IH by assumption. f_equal. apply filter_all.
    intros y Hy. destruct (Z.eqb_spec y (u_user_id u)); [subst; contradiction|reflexivity].
  - intros H. apply map_eq_nil in H. now apply agent_block_nonempty in H.
  - intros y Hy. apply in_map_iff in Hy. destruct Hy as (row & <- & Hr).
    now rewrite (agent_block_fst _ _ _ Hr).
Qed.

Lemma count_tickets_app id l1 l2 :
  count_tickets id (l1 ++ l2) = count_tickets id l1 + count_tickets id l2.
Proof.
  unfold count_tickets. rewrite filter_app, length_app. lia.
Qed.

Lemma count_tickets_other id ts u :
  u_user_id u <> id -> count_tickets id (agent_block ts u) = 0.
Proof.
  intros Hne. unfold count_tickets. rewrite filter_none; [reflexivity|].
  intros row Hr. rewrite (agent_block_fst _ _ _ Hr).
  destruct (Z.eqb_spec (u_user_id u) id); [contradiction|reflexivity].
Qed.

Lemma count_tickets_own ts u :
  count_tickets (u_user_id u) (agent_block ts u)
  = Z.of_nat (List.length (filter (counts_for (u_user_id u)) ts)).
Proof.
  unfold count_tickets, agent_block.
  change (filter (agent_on u) ts) with (filter (counts_for (u_user_id u)) ts).
  destruct (filter (counts_for (u_user_id u)) ts) as [|m ms].
  { simpl. now rewrite andb_false_r. }
  rewrite filter_all.
  - now rewrite length_map.
  - intros row Hr. apply in_map_iff in Hr. destruct Hr as (b & <- & _).
    simpl. now rewrite Z.eqb_refl.
Qed.

Lemma count_tickets_join us ts u :
  NoDup (map u_user_id us) -> In u us ->
  count_tickets (u_user_id u) (flat_map (agent_block ts) us)
  = Z.of_nat (List.length (filter (counts_for (u_user_id u)) ts)).
Proof.
  induction us as [|v us IH]; simpl; intros N Hin; [contradiction|].
  inversion N as [|? ? Hnotin N']; subst.
  rewrite count_tickets_app.
  destruct Hin as [->|Hin].
  - rewrite count_tickets_own.
    assert (count_tickets (u_user_id u) (flat_map (agent_block ts) us) = 0) as ->; [|lia].
    clear IH N. induction us as [|w us IHu]; simpl; [reflexivity|].
    rewrite count_tickets_app, count_tickets_other.
    + apply IHu.
      * intros H. apply Hnotin. now right.
      * now inversion N'.
    + intros H. apply Hnotin. left. exact H.
  - rewrite count_tickets_other.
    + rewrite IH by assumption. lia.
    + intros H. apply Hnotin. rewrite H. now apply in_map.
Qed.

Lemma grouped_agents d :
  NoDup (map u_user_id (users d)) ->
  group_by_user_id (filter agent_where (left_join agent_on (users d) (support_tickets d)))
  = map (fun u => (u_user_id u, open_load d (u_user_id u)))
        (filter is_active_agent (users d)).
Proof.
  intros N. rewrite agent_where_join, left_join_blocks.
  assert (N' : NoDup (map u_user_id (filter is_active_agent (users d)))).
  { clear -N. induction (users d) as [|u us IH]; simpl; [constructor|].
    inversion N as [|? ? Hn N0]; subst.
    destruct (is_active_agent u); simpl; [|auto].
    constructor; [|auto].
    intros H. apply Hn. apply in_map_iff in H. destruct H as (v & Hv & Hin).
    apply filter_In in Hin. apply in_map_iff. exists v. tauto. }
  unfold group_by_user_id. rewrite distinct_join_ids by assumption.
  rewrite map_map. apply map_ext_in. intros u Hu.
  f_equal. now apply count_tickets_join.
Qed.

Lemma active_tickets_asc_total a b :
  active_tickets_asc a b = true \/ active_tickets_asc b a = true.
Proof. unfold active_tickets_asc. lia. Qed.

Lemma active_tickets_asc_trans a b c :
  active_tickets_asc a b = true -> active_tickets_asc b c = true ->
  active_tickets_asc a c = true.
Proof. unfold active_tickets_asc. lia. Qed.

Lemma chosen_agent_minimal d a :
  NoDup (map u_user_id (users d)) ->
  chosen_agent d = Some a ->
  active_agent d a /\ forall b, active_agent d b -> open_load d a <= open_load d b.
Proof.
  intros N. unfold chosen_agent, select_least_loaded_agent, query. cbn [fst].
  rewrite grouped_agents by assumption.
  destruct (order_by _ _) as [|x r] eqn:Ho; cbn; [discriminate|].
  intros [= <-].
  apply (order_by_head _ active_tickets_asc_total active_tickets_asc_trans) in Ho.
  destruct Ho as [Hin Hmin].
  apply in_map_iff in Hin. destruct Hin as (u & <- & Hu). apply filter_In in Hu.
  split.
  - exists u. tauto.
  - intros b (v & Hv & <- & Hact). cbn [fst].
    specialize (Hmin (u_user_id v, open_load d (u_user_id v))).
    unfold active_tickets_asc in Hmin. cbn [snd] in Hmin.
    apply Z.leb_le, Hmin, in_map_iff. exists v. split; [reflexivity|].
    apply filter_In. tauto.
Qed.

Lemma chosen_agent_exists d :
  (exists a, active_agent d a) -> exists a, chosen_agent d = Some a.
Proof.
  intros (a & u & Hin & Hid & Hact).
  unfold chosen_agent, select_least_loaded_agent, query. cbn [fst].
  destruct (order_by _ _) as [|x r] eqn:Ho; cbn; [|eauto].
  apply order_by_nil_inv in Ho. unfold group_by_user_id in Ho.
  apply map_eq_nil in Ho.
  assert (In (u_user_id u) (distinct (map (fun row => u_user_id (fst row))
            (filter agent_where (left_join agent_on (users d) (support_tickets d)))))).
  { apply distinct_In. rewrite agent_where_join, left_join_blocks.
    apply in_map_iff.
    destruct (agent_block (support_tickets d) u) as [|row rest] eqn:Hb;
      [now apply agent_block_nonempty in Hb|].
    exists row. split.
    - rewrite (agent_block_fst (support_tickets d) u); [reflexivity|].
      rewrite Hb. now left.
    - apply in_flat_map. exists u. split; [apply filter_In; tauto|].
      rewrite Hb. now left. }
  rewrite Ho in H. contradiction.
Qed.

Lemma chosen_agent_select now d :
  chosen_agent d = match fst (select_least_loaded_agent now d) with
                   | agent :: _ => Some (fst agent)
                   | [] => None
                   end.
Proof. reflexivity. Qed.

Lemma select_least_loaded_agent_db now d : snd (select_least_loaded_agent now d) = d.
Proof. reflexivity. Qed.

Lemma chosen_agent_none d :
  (forall a, ~ active_agent d a) -> chosen_agent d = None.
Proof.
  intros H. destruct (chosen_agent d) as [a|] eqn:Hc; [|reflexivity].
  exfalso. revert Hc.
  unfold chosen_agent, select_least_loaded_agent, query. cbn [fst].
  rewrite agent_where_join.
  assert (filter is_active_agent (users d) = []) as ->.
  { apply filter_none. intros u Hu. destruct (is_active_agent u) eqn:Ha; [|reflexivity].
    exfalso. apply (H (u_user_id u)). exists u. tauto. }
  discriminate.
Qed.

Lemma active_agent_users d d' a :
  users d' = users d -> active_agent d a -> active_agent d' a.
Proof. unfold active_agent. now intros ->. Qed.

Lemma chosen_agent_active d a : chosen_agent d = Some a -> active_agent d a.
Proof.
  unfold chosen_agent, select_least_loaded_agent, query. cbn [fst].
  destruct (order_by _ _) as [|x r] eqn:Ho; cbn; [discriminate|].
  intros [= <-].
  assert (Hin : In x (order_by active_tickets_asc
            (group_by_user_id (filter agent_where
               (left_join agent_on (users d) (support_tickets d))))))
    by (rewrite Ho; now left).
  apply order_by_In in Hin. unfold group_by_user_id in Hin.
  apply in_map_iff in Hin. destruct Hin as (id & <- & Hid). cbn [fst].
  apply (proj1 (distinct_In _ _)) in Hid. rewrite agent_where_join, left_join_blocks in Hid.
  apply in_map_iff in Hid. destruct Hid as (row & <- & Hrow).
  apply in_flat_map in Hrow. destruct Hrow as (u & Hu & Hb).
  apply filter_In in Hu. rewrite (agent_block_fst _ _ _ Hb).
  exists u. tauto.
Qed.

(** ** Escalation *)

Lemma escalateToHuman_ok E tid reason s : fst (escalateToHuman E tid reason s) = Ok tt.
Proof.
  unfold escalateToHuman, bind, try_catch, record_call, execute, ret. cbn [tick db calls].
  destruct (db_fails E (tick s)); [reflexivity|].
  destruct (fst (select_least_loaded_agent _ _)) as [|agent rest]; [reflexivity|].
  cbn [tick db calls].
  destruct (db_fails E (S (tick s))); [reflexivity|]. cbn [tick db calls].
  destruct (db_fails E (S (S (tick s)))); [reflexivity|]. cbn [tick db calls].
  destruct (db_fails E (S (S (S (tick s))))); reflexivity.
Qed.

Lemma escalateToHuman_assigns E tid reason s a :
  no_faults E -> chosen_agent (db s) = Some a ->
  escalateToHuman E tid reason s = (Ok tt, assign_effect E tid reason a s).
Proof.
  intros NF Hc.
  rewrite (chosen_agent_select (db_now E (tick s))) in Hc.
  unfold escalateToHuman, bind, try_catch, record_call, execute, ret. cbn [tick db calls].
  rewrite NF, select_least_loaded_agent_db.
  destruct (fst (select_least_loaded_agent _ _)) as [|agent rest]; [discriminate|].
  injection Hc as <-.
  cbn [tick db calls]. rewrite !NF. reflexivity.
Qed.

Lemma escalateToHuman_no_agent E tid reason s :
  chosen_agent (db s) = None ->
  snd (escalateToHuman E tid reason s)
  = {| db := db s; tick := S (tick s); calls := calls s ++ [CallEscalate tid reason] |}.
Proof.
  intros Hc.
  rewrite (chosen_agent_select (db_now E (tick s))) in Hc.
  unfold escalateToHuman, bind, try_catch, record_call, execute, ret. cbn [tick db calls].
  destruct (db_fails E (tick s)); [reflexivity|].
  rewrite select_least_loaded_agent_db.
  destruct (fst (select_least_loaded_agent _ _)) as [|agent rest]; [reflexivity|discriminate].
Qed.

Lemma assign_row_priority a tid now l :
  map st_priority (map (assign_row a tid now) l) = map st_priority l.
Proof.
  rewrite map_map. apply map_ext. intros st. unfold assign_row.
  now destruct (st_ticket_id st =? tid).
Qed.

Lemma assign_row_id a tid now l :
  map st_ticket_id (map (assign_row a tid now) l) = map st_ticket_id l.
Proof.
  rewrite map_map. apply map_ext. intros st. unfold assign_row.
  now destruct (st_ticket_id st =? tid).
Qed.

Lemma escalation_frame_refl d : escalation_frame d d.
Proof. constructor; reflexivity. Qed.

Lemma escalateToHuman_frame E tid reason s :
  escalation_frame (db s) (db (snd (escalateToHuman E tid reason s))).
Proof.
  unfold escalateToHuman, bind, try_catch, record_call, execute, ret. cbn [tick db calls].
  destruct (db_fails E (tick s)); [apply escalation_frame_refl|].
  rewrite select_least_loaded_agent_db.
  destruct (fst (select_least_loaded_agent _ _)) as [|agent rest];
    [apply escalation_frame_refl|].
  cbn [tick db calls fst snd].
  destruct (db_fails E (S (tick s))); [apply escalation_frame_refl|].
  cbn [tick db calls fst snd].
  destruct (db_fails E (S (S (tick s)))); cbn [tick db calls fst snd].
  { constructor; try reflexivity; cbn;
      [apply assign_row_priority|apply assign_row_id]. }
  destruct (db_fails E (S (S (S (tick s))))); cbn [tick db calls fst snd];
    constructor; try reflexivity; cbn;
      solve [apply assign_row_priority|apply assign_row_id].
Qed.

Lemma assigned_rows a tid now l t :
  In t (map (assign_row a tid now) l) -> st_ticket_id t = tid ->
  st_assigned_to t = Some a /\ st_status t = "assigned".
Proof.
  intros Hin Hid. apply in_map_iff in Hin. destruct Hin as (t0 & <- & _).
  unfold assign_row in *. destruct (Z.eqb_spec (st_ticket_id t0) tid); cbn; [auto|].
  contradiction.
Qed.

Lemma escalateToHuman_calls E tid reason s :
  calls (snd (escalateToHuman E tid reason s)) = (calls s ++ [CallEscalate tid reason])%list.
Proof.
  unfold escalateToHuman, bind, try_catch, record_call, execute, ret. cbn [tick db calls].
  destruct (db_fails E (tick s)); [reflexivity|].
  destruct (fst (select_least_loaded_agent _ _)) as [|agent rest]; [reflexivity|].
  cbn [tick db calls].
  destruct (db_fails E (S (tick s))); [reflexivity|]. cbn [tick db calls].
  destruct (db_fails E (S (S (tick s)))); [reflexivity|]. cbn [tick db calls].
  destruct (db_fails E (S (S (S (tick s))))); reflexivity.
Qed.

(** ** Ticket creation *)

Lemma projectComplaint_ok E req tid s :
  fst (try_catch (projectComplaint E req tid) (fun _ => ret tt) s) = Ok tt.
Proof.
  unfold try_catch.
  destruct (projectComplaint E req tid s) as [[[]|e] s']; reflexivity.
Qed.

Lemma priority_column_listed E p :
  In p ["low"; "medium"; "high"; "urgent"] -> priority_column E p = p.
Proof.
  intros Hin. cbn [In] in Hin.
  destruct Hin as [<-|[<-|[<-|[<-|[]]]]]; reflexivity.
Qed.

Lemma priority_column_unlisted E p :
  ~ In p ["low"; "medium"; "high"; "urgent"] -> priority_column E p = db_off_enum E p.
Proof.
  intros Hout. unfold priority_column, priority_index.
  destruct (String.eqb_spec p "low") as [->|_]; [exfalso; apply Hout; cbn; auto|].
  destruct (String.eqb_spec p "medium") as [->|_]; [exfalso; apply Hout; cbn; auto|].
  destruct (String.eqb_spec p "high") as [->|_]; [exfalso; apply Hout; cbn; auto|].
  destruct (String.eqb_spec p "urgent") as [->|_]; [exfalso; apply Hout; cbn; auto|].
  reflexivity.
Qed.

Lemma insert_support_ticket_id E uid o r ty su de pr now d :
  fst (insert_support_ticket E uid o r ty su de pr now d) = next_ticket_id d.
Proof. reflexivity. Qed.

Lemma createTicket_run E req u s :
  req_user req = Some u ->
  valid_ticket_request req = true ->
  (forall k, (k < 4)%nat -> db_fails E (tick s + k) = None) ->
  let v := generateResponse E (Js.text (body_description req))
             (Js.text (body_ticket_type req)) in
  let tid := next_ticket_id (db s) in
  createTicket E req s
  = (Ok (TicketCreated tid (message v) (needsHuman v) "open"),
     snd (try_catch (projectComplaint E req tid) (fun _ => ret tt)
            (snd (escalation_step E req tid v (primary_writes E req u s))))).
Proof.
  intros Hu Hv NF v tid.
  assert (F0 := NF 0%nat ltac:(lia)). assert (F1 := NF 1%nat ltac:(lia)).
  assert (F2 := NF 2%nat ltac:(lia)). assert (F3 := NF 3%nat ltac:(lia)).
  rewrite Nat.add_0_r in F0.
  replace (tick s + 1)%nat with (S (tick s)) in F1 by lia.
  replace (tick s + 2)%nat with (S (S (tick s))) in F2 by lia.
  replace (tick s + 3)%nat with (S (S (S (tick s)))) in F3 by lia.
  unfold valid_ticket_request in Hv.
  apply andb_true_iff in Hv. destruct Hv as [Hv Hd].
  apply andb_true_iff in Hv. destruct Hv as [Ht Hs].
  unfold createTicket.
  unfold try_catch at 1. unfold bind at 1. unfold the_user. rewrite Hu.
  rewrite Ht, Hs, Hd. cbn [negb orb].
  unfold bind at 1. unfold execute at 1. rewrite F0. cbn [tick db calls].
  unfold bind at 1. unfold execute at 1. cbn [tick db calls]. rewrite F1.
  cbn [tick db calls].
  unfold bind at 1. unfold classify at 1. unfold bind at 1, record_call at 1, ret at 1.
  cbn [tick db calls].
  unfold bind at 1. unfold execute at 1. cbn [tick db calls]. rewrite F2.
  cbn [tick db calls].
  unfold bind at 1. unfold execute at 1. cbn [tick db calls]. rewrite F3.
  cbn [tick db calls].
  unfold bind at 1.
  rewrite !insert_support_ticket_id. fold v. fold tid.
  match goal with
  | |- context [ (if needsHuman v || is_urgent (body_priority req) then ?a else ?b) ?st ] =>
      change ((if needsHuman v || is_urgent (body_priority req) then a else b) st)
        with (escalation_step E req tid v (primary_writes E req u s))
  end.
  destruct (escalation_step E req tid v (primary_writes E req u s)) as [r5 s5] eqn:H5.
  assert (r5 = Ok tt).
  { change r5 with (fst (r5, s5)). rewrite <- H5. unfold escalation_step.
    destruct (needsHuman v || is_urgent (body_priority req));
      [apply escalateToHuman_ok|reflexivity]. }
  subst r5. cbn [snd].
  unfold bind at 1.
  pose proof (projectComplaint_ok E req tid s5) as H6.
  destruct (try_catch (projectComplaint E req tid) (fun _ => ret tt) s5) as [r6 s6].
  cbn [fst] in H6. subst r6. reflexivity.
Qed.

Lemma escalation_step_frame E req tid v s :
  escalation_frame (db s) (db (snd (escalation_step E req tid v s))).
Proof.
  unfold escalation_step.
  destruct (needsHuman v || is_urgent (body_priority req));
    [apply escalateToHuman_frame|apply escalation_frame_refl].
Qed.

Lemma projectComplaint_tables E req tid s :
  let d' := db (snd (try_catch (projectComplaint E req tid) (fun _ => ret tt) s)) in
  support_tickets d' = support_tickets (db s)
  /\ chat_messages d' = chat_messages (db s)
  /\ ticket_escalations d' = ticket_escalations (db s)
  /\ ai_bot_logs d' = ai_bot_logs (db s)
  /\ users d' = users (db s).
Proof.
  unfold projectComplaint, try_catch, bind, execute, ret.
  destruct (negb (Js.truthy_num (body_restaurant_id req))
            && Js.truthy_num (body_order_id req)); cbn [tick db calls fst snd].
  - destruct (db_fails E (tick s)); cbn [tick db calls fst snd].
    + destruct (Js.truthy_num (body_restaurant_id req)); cbn [tick db calls fst snd].
      * destruct (db_fails E (S (tick s))); cbn; auto 6.
      * cbn; auto 6.
    + destruct (fst (select_order_restaurant _ _ _)) as [|r rest];
        cbn [tick db calls fst snd].
      * destruct (Js.truthy_num (body_restaurant_id req)); cbn [tick db calls fst snd].
        -- destruct (db_fails E (S (tick s))); cbn; auto 6.
        -- cbn; auto 6.
      * destruct (Js.truthy_num r); cbn [tick db calls fst snd].
        -- destruct (db_fails E (S (tick s))); cbn; auto 6.
        -- cbn; auto 6.
  - destruct (Js.truthy_num (body_restaurant_id req)); cbn [tick db calls fst snd].
    + destruct (db_fails E (tick s)); cbn; auto 6.
    + cbn; auto 6.
Qed.

Lemma select_order_restaurant_now oid now d :
  fst (select_order_restaurant oid now d) = fst (select_order_restaurant oid 0 d).
Proof. reflexivity. Qed.

Lemma projectComplaint_none E req tid s :
  Js.truthy_num (body_restaurant_id req) = false ->
  Js.truthy_num (body_order_id req) = false ->
  restaurant_complaints (db (snd (try_catch (projectComplaint E req tid)
                                    (fun _ => ret tt) s)))
  = restaurant_complaints (db s).
Proof.
  intros Hr Ho. unfold projectComplaint, try_catch, bind, execute, ret.
  rewrite Hr, Ho. cbn [negb andb tick db calls fst snd]. rewrite Hr. reflexivity.
Qed.

Lemma projectComplaint_some E req tid s rid :
  no_faults E ->
  effective_restaurant (db s) req = Some rid -> rid <> 0 ->
  exists now,
    restaurant_complaints (db (snd (try_catch (projectComplaint E req tid)
                                      (fun _ => ret tt) s)))
    = (restaurant_complaints (db s) ++ [complaint_of req tid rid now])%list.
Proof.
  intros NF He Hrid. unfold effective_restaurant in He.
  assert (Ht : Js.truthy_num (Some rid) = true).
  { cbn. now destruct (Z.eqb_spec rid 0). }
  unfold projectComplaint, try_catch, bind, execute, ret.
  destruct (negb (Js.truthy_num (body_restaurant_id req))
            && Js.truthy_num (body_order_id req)); cbn [tick db calls fst snd].
  - rewrite NF. cbn [tick db calls fst snd].
    rewrite (select_order_restaurant_now _ (db_now E (tick s))).
    destruct (fst (select_order_restaurant _ 0 _)) as [|r rest];
      cbn [tick db calls fst snd]; rewrite He, Ht, NF; eexists; reflexivity.
  - rewrite He, Ht, NF. eexists; reflexivity.
Qed.

Lemma primary_writes_tickets E req u s :
  support_tickets (db (primary_writes E req u s))
  = (support_tickets (db s)
       ++ [ticket_of_request E req u (next_ticket_id (db s)) (db_now E (tick s))])%list.
Proof. reflexivity. Qed.

Lemma primary_writes_users E req u s :
  users (db (primary_writes E req u s)) = users (db s).
Proof. reflexivity. Qed.

Lemma escalation_step_triggered E req tid v s :
  needsHuman v = true \/ body_priority req = Some "urgent" ->
  escalation_step E req tid v s = escalateToHuman E tid (escalation_reason v) s.
Proof.
  intros H. unfold escalation_step.
  destruct H as [->| ->]; [reflexivity|]. cbn. now rewrite orb_true_r.
Qed.

Lemma projectComplaint_calls E req tid s :
  calls (snd (try_catch (projectComplaint E req tid) (fun _ => ret tt) s)) = calls s.
Proof.
  unfold projectComplaint, try_catch, bind, execute, ret.
  destruct (negb (Js.truthy_num (body_restaurant_id req))
            && Js.truthy_num (body_order_id req)); cbn [tick db calls fst snd].
  - destruct (db_fails E (tick s)); cbn [tick db calls fst snd].
    + destruct (Js.truthy_num (body_restaurant_id req)); cbn [tick db calls fst snd];
        [destruct (db_fails E (S (tick s)))|]; reflexivity.
    + destruct (fst (select_order_restaurant _ _ _)) as [|r0 rest];
        cbn [tick db calls fst snd].
      * destruct (Js.truthy_num (body_restaurant_id req)); cbn [tick db calls fst snd];
          [destruct (db_fails E (S (tick s)))|]; reflexivity.
      * destruct (Js.truthy_num r0); cbn [tick db calls fst snd];
          [destruct (db_fails E (S (tick s)))|]; reflexivity.
  - destruct (Js.truthy_num (body_restaurant_id req)); cbn [tick db calls fst snd];
      [destruct (db_fails E (tick s))|]; reflexivity.
Qed.

Lemma effective_restaurant_orders d d' req :
  orders d' = orders d -> effective_restaurant d' req = effective_restaurant d req.
Proof.
  intros H. unfold effective_restaurant, select_order_restaurant, query. cbn [fst].
  now rewrite H.
Qed.

(** ** Posting a message *)

Lemma sendMessage_run E req u s :
  req_user req = Some u -> blank (body_message_text req) = false ->
  db_fails E (tick s) = None -> db_fails E (S (tick s)) = None ->
  sendMessage E req s
  = match ai_followup E req u (after_post E req u s) with
    | (Ok _, s') => (Ok (MessageSent (next_message_id (db s))), s')
    | (Throw _, s') => (Ok (Failure 500 "Failed to send message" None), s')
    end.
Proof.
  intros Hu Hb F0 F1. unfold sendMessage.
  unfold try_catch at 1. unfold bind at 1. unfold the_user. rewrite Hu, Hb.
  unfold bind at 1. unfold execute at 1. rewrite F0. cbn [tick db calls].
  unfold bind at 1. unfold execute at 1. cbn [tick db calls]. rewrite F1.
  cbn [tick db calls]. unfold bind at 1.
  change (insert_chat_message _ _ _ _ _ _ _ _ _) with
    (insert_chat_message (param_ticket_id req) (Some (user_id u))
       (Js.text (Js.or_str (lookup (user_type u) senderTypeMap) (Some "customer")))
       (Js.text (body_message_text req)) (flag (body_is_internal_note req))
       false None (db_now E (tick s)) (db s)).
  match goal with
  | |- context [ (if (user_type u =? "student")%string then ?a else ?b) ?st ] =>
      change ((if (user_type u =? "student")%string then a else b) st)
        with (ai_followup E req u (after_post E req u s))
  end.
  destruct (ai_followup E req u (after_post E req u s)) as [[[]|e] s']; reflexivity.
Qed.

Lemma reply_row_columns ut tid now st :
  st_ticket_id (reply_row ut tid now st) = st_ticket_id st
  /\ st_assigned_to (reply_row ut tid now st) = st_assigned_to st
  /\ st_ticket_type (reply_row ut tid now st) = st_ticket_type st.
Proof.
  unfold reply_row. destruct (st_ticket_id st =? tid); auto.
Qed.

Lemma reply_row_select ut tid now l :
  map (fun st => (st_assigned_to st, st_ticket_type st))
      (filter (fun st => st_ticket_id st =? tid) (map (reply_row ut tid now) l))
  = map (fun st => (st_assigned_to st, st_ticket_type st))
        (filter (fun st => st_ticket_id st =? tid) l).
Proof.
  induction l as [|st l IH]; [reflexivity|]. cbn [map filter].
  destruct (reply_row_columns ut tid now st) as (Hi & Ha & Ht). rewrite Hi.
  destruct (st_ticket_id st =? tid); [|exact IH].
  cbn [map]. now rewrite Ha, Ht, IH.
Qed.

Lemma after_post_assignment E req u s now :
  fst (select_ticket_assignment (param_ticket_id req) now (db (after_post E req u s)))
  = map (fun st => (st_assigned_to st, st_ticket_type st))
        (filter (fun st => st_ticket_id st =? param_ticket_id req)
                (support_tickets (db s))).
Proof. apply reply_row_select. Qed.

Lemma ai_followup_not_student E req u s2 :
  user_type u <> "student" -> ai_followup E req u s2 = (Ok tt, s2).
Proof.
  intros H. unfold ai_followup. apply String.eqb_neq in H. now rewrite H.
Qed.

Lemma ai_followup_assigned E req u s t a :
  no_faults E -> user_type u = "student" ->
  find (fun st => st_ticket_id st =? param_ticket_id req) (support_tickets (db s)) = Some t ->
  st_assigned_to t = Some a -> a <> 0 ->
  ai_followup E req u (after_post E req u s) = (Ok tt, skip_select (after_post E req u s)).
Proof.
  intros NF Hst Hf Ha Hne. unfold ai_followup. rewrite Hst. cbn [String.eqb].
  change (("student" =? "student")%string) with true. cbv iota.
  unfold bind at 1. unfold execute at 1. rewrite NF.
  rewrite after_post_assignment.
  destruct (find_filter _ _ _ Hf) as [rest ->]. cbn [map]. rewrite Ha.
  cbn [Js.truthy_num]. destruct (Z.eqb_spec a 0); [contradiction|]. reflexivity.
Qed.

Lemma ai_followup_unassigned E req u s t :
  no_faults E -> user_type u = "student" ->
  find (fun st => st_ticket_id st =? param_ticket_id req) (support_tickets (db s)) = Some t ->
  st_assigned_to t = None ->
  let s4 := after_ai E req (st_ticket_type t) (after_post E req u s) in
  let v := generateResponse E (Js.text (body_message_text req)) (st_ticket_type t) in
  ai_followup E req u (after_post E req u s)
  = if needsHuman v
    then escalateToHuman E (param_ticket_id req) "AI escalation recommended" s4
    else (Ok tt, s4).
Proof.
  intros NF Hst Hf Ha s4 v. unfold ai_followup. rewrite Hst.
  change (("student" =? "student")%string) with true. cbv iota.
  unfold bind at 1. unfold execute at 1. rewrite NF.
  rewrite after_post_assignment.
  destruct (find_filter _ _ _ Hf) as [rest ->]. cbn [map]. rewrite Ha.
  cbn [Js.truthy_num negb].
  unfold bind at 1. unfold classify at 1. unfold bind at 1, record_call at 1, ret at 1.
  cbn [tick db calls].
  unfold bind at 1. unfold execute at 1. cbn [tick db calls]. rewrite NF.
  cbn [tick db calls].
  unfold bind at 1. unfold execute at 1. cbn [tick db calls]. rewrite NF.
  cbn [tick db calls]. fold v.
  destruct (needsHuman v); reflexivity.
Qed.

Lemma escalateToHuman_messages E tid reason s :
  no_faults E ->
  exists notices,
    chat_messages (db (snd (escalateToHuman E tid reason s)))
    = (chat_messages (db s) ++ notices)%list
    /\ Forall (fun m => cm_message_text m = handoff_notice) notices.
Proof.
  intros NF. destruct (chosen_agent (db s)) as [a|] eqn:Hc.
  - rewrite (escalateToHuman_assigns E tid reason s a NF Hc). cbn.
    eexists. split; [reflexivity|]. repeat constructor.
  - rewrite (escalateToHuman_no_agent E tid reason s Hc). cbn.
    exists []. split; [now rewrite app_nil_r|constructor].
Qed.

Lemma ai_followup_total E req u s2 :
  no_faults E ->
  exists s' rest,
    ai_followup E req u s2 = (Ok tt, s')
    /\ chat_messages (db s') = (chat_messages (db s2) ++ rest)%list.
Proof.
  intros NF. unfold ai_followup.
  destruct (user_type u =? "student")%string.
  2:{ exists s2, []. split; [reflexivity|now rewrite app_nil_r]. }
  unfold bind at 1. unfold execute at 1. rewrite NF.
  destruct (fst (select_ticket_assignment _ _ _)) as [|[assigned_to ticket_type] rest].
  { eexists _, []. split; [reflexivity|]. cbn. now rewrite app_nil_r. }
  destruct (Js.truthy_num assigned_to); cbn [negb].
  { eexists _, []. split; [reflexivity|]. cbn. now rewrite app_nil_r. }
  unfold bind at 1. unfold classify at 1. unfold bind at 1, record_call at 1, ret at 1.
  cbn [tick db calls].
  unfold bind at 1. unfold execute at 1. cbn [tick db calls]. rewrite NF.
  cbn [tick db calls].
  unfold bind at 1. unfold execute at 1. cbn [tick db calls]. rewrite NF.
  cbn [tick db calls].
  destruct (needsHuman _).
  - match goal with
    | |- context [escalateToHuman E ?tid ?reason ?st] =>
        pose proof (escalateToHuman_ok E tid reason st) as Hok;
        destruct (escalateToHuman_messages E tid reason st NF) as (notices & Hm & _);
        destruct (escalateToHuman E tid reason st) as [r' s']
    end.
    cbn [fst snd] in *. subst r'. exists s'. eexists. split; [reflexivity|].
    rewrite Hm. cbn. rewrite <- app_assoc. reflexivity.
  - eexists _, _. split; [reflexivity|]. cbn. reflexivity.
Qed.

(** ** Routes and listings *)

Lemma router_post_messages E req u s :
  req_user req = Some u ->
  router E POST_tickets_messages req s = sendMessage E req s.
Proof. intros H. cbn. unfold authenticateToken. now rewrite H. Qed.

Lemma router_get_messages E req u s :
  req_user req = Some u ->
  router E GET_tickets_messages req s = getTicketMessages E req s.
Proof. intros H. cbn. unfold authenticateToken. now rewrite H. Qed.

Lemma router_debug E req u s :
  req_user req = Some u ->
  router E GET_debug_ticket req s = debugTicket E req s.
Proof. intros H. cbn. unfold authenticateToken. now rewrite H. Qed.

Lemma router_get_tickets E req u s :
  req_user req = Some u -> str_in (user_type u) agent_roles = true ->
  router E GET_tickets req s = getAllTickets E req s.
Proof.
  intros H Hr. cbn. unfold authenticateToken, requireRole. rewrite H.
  unfold agent_roles in Hr. now rewrite Hr.
Qed.

Lemma getTicketMessages_response E req u s :
  no_faults E -> req_user req = Some u ->
  fst (getTicketMessages E req s)
  = Ok (if (user_type u =? "student")%string
           && Nat.eqb (List.length (fst (select_owned_ticket (param_ticket_id req)
                                           (user_id u) 0 (db s)))) 0
        then Failure 403 "Access denied" None
        else MessageList (fst (select_ticket_messages (param_ticket_id req)
                                 (user_type u) 0 (db s)))).
Proof.
  intros NF Hu. unfold getTicketMessages, try_catch, bind, the_user. rewrite Hu.
  destruct (user_type u =? "student")%string; cbn [andb].
  - unfold execute. rewrite NF. cbn [tick db calls fst snd ret].
    change (fst (select_owned_ticket (param_ticket_id req) (user_id u)
                   (db_now E (tick s)) (db s)))
      with (fst (select_owned_ticket (param_ticket_id req) (user_id u) 0 (db s))).
    destruct (Nat.eqb _ 0); [reflexivity|]. rewrite NF. reflexivity.
  - unfold execute, ret. rewrite NF. reflexivity.
Qed.

Lemma priority_desc_created_asc_total a b :
  priority_desc_created_asc a b = true \/ priority_desc_created_asc b a = true.
Proof.
  unfold priority_desc_created_asc. cbv zeta.
  set (ka := priority_index _). set (kb := priority_index _).
  set (ca := st_created_at _). set (cb := st_created_at _).
  destruct (Z.ltb_spec kb ka), (Z.ltb_spec ka kb), (Z.eqb_spec ka kb), (Z.eqb_spec kb ka),
    (Z.leb_spec ca cb), (Z.leb_spec cb ca); cbn; auto; lia.
Qed.

Lemma priority_desc_created_asc_trans a b c :
  priority_desc_created_asc a b = true -> priority_desc_created_asc b c = true ->
  priority_desc_created_asc a c = true.
Proof.
  unfold priority_desc_created_asc. cbv zeta.
  set (ka := priority_index (st_priority (fst (fst (fst a))))).
  set (kb := priority_index (st_priority (fst (fst (fst b))))).
  set (kc := priority_index (st_priority (fst (fst (fst c))))).
  set (ca := st_created_at (fst (fst (fst a)))).
  set (cb := st_created_at (fst (fst (fst b)))).
  set (cc := st_created_at (fst (fst (fst c)))).
  destruct (Z.ltb_spec kb ka), (Z.ltb_spec kc kb), (Z.ltb_spec kc ka),
    (Z.eqb_spec ka kb), (Z.eqb_spec kb kc), (Z.eqb_spec ka kc),
    (Z.leb_spec ca cb), (Z.leb_spec cb cc), (Z.leb_spec ca cc);
    cbn; intros; try reflexivity; try discriminate; lia.
Qed.

Lemma priority_desc_created_asc_spec a b :
  priority_desc_created_asc a b = true <-> listed_before a b.
Proof.
  unfold priority_desc_created_asc, listed_before, ticket_of. cbv zeta.
  rewrite orb_true_iff, andb_true_iff, Z.ltb_lt, Z.eqb_eq, Z.leb_le. reflexivity.
Qed.

Lemma quiet_no_faults needs : no_faults (quiet needs).
Proof. intros n. reflexivity. Qed.

(** * The claims of the specification *)

(** ** C1: the escalation flag of the creation response

    C1.  A valid creation answers with the new ticket's id, the
    classifier's text and status open.  Its [escalated] flag is the
    classifier's [needsHuman] and nothing else: for an urgent ticket whose
    verdict does not ask for a human the flag is false although
    [escalateToHuman] was called and, when an active agent exists, the
    ticket ends assigned to one with an escalation record written.  The
    flag is therefore not "true exactly when escalation was triggered". *)
Theorem createTicket_urgent_flag E req u s :
  no_faults E -> req_user req = Some u -> valid_ticket_request req = true ->
  body_priority req = Some "urgent" -> needsHuman (verdict_of E req) = false ->
  let tid := next_ticket_id (db s) in
  let r := createTicket E req s in
  fst r = Ok (TicketCreated tid (message (verdict_of E req)) false "open")
  /\ In (CallEscalate tid "Auto-escalation: Urgent priority") (calls (snd r))
  /\ ((exists a, active_agent (db s) a) ->
      exists a,
        In tid (map st_ticket_id (support_tickets (db (snd r))))
        /\ (forall t, In t (support_tickets (db (snd r))) -> st_ticket_id t = tid ->
              st_assigned_to t = Some a /\ st_status t = "assigned")
        /\ exists e, In e (ticket_escalations (db (snd r)))
                     /\ te_ticket_id e = tid /\ te_escalated_to e = a).
Proof.
  intros NF Hu Hv Hp Hn tid r.
  assert (Hrun := createTicket_run E req u s Hu Hv (fun k _ => NF _)).
  cbv zeta in Hrun. fold tid (verdict_of E req) in Hrun. fold r in Hrun.
  rewrite (escalation_step_triggered _ _ _ _ _ (or_intror Hp)) in Hrun.
  assert (Hreason : escalation_reason (verdict_of E req)
                    = "Auto-escalation: Urgent priority")
    by (unfold escalation_reason; now rewrite Hn).
  rewrite Hreason in Hrun.
  destruct (projectComplaint_tables E req tid
              (snd (escalateToHuman E tid "Auto-escalation: Urgent priority"
                      (primary_writes E req u s)))) as (Pt & Pm & Pe & _ & _).
  rewrite Hrun, Hn. cbn [fst snd].
  split; [reflexivity|]. split.
  - rewrite projectComplaint_calls, escalateToHuman_calls, in_app_iff. right. now left.
  - intros Hex.
    destruct (chosen_agent_exists (db (primary_writes E req u s))) as [a Ha].
    { destruct Hex as [b Hb]. exists b. revert Hb. apply active_agent_users. reflexivity. }
    exists a.
    rewrite Pt, Pe, (escalateToHuman_assigns E _ _ _ a NF Ha). cbn [snd assign_effect db].
    cbn [update_assign_ticket insert_chat_message insert_ticket_escalation snd
         support_tickets ticket_escalations set_support_tickets].
    split; [|split].
    + rewrite assign_row_id, primary_writes_tickets, map_app, in_app_iff.
      right. now left.
    + intros t. apply assigned_rows.
    + eexists. split; [apply in_app_iff; right; left; reflexivity|]. split; reflexivity.
Qed.

(** An urgent ticket on a store with two idle agents, the classifier
    not asking for a human: assigned to agent 5, flag false. *)
Lemma createTicket_urgent_flag_witness :
  let E := quiet false in
  let req := ticket_request (Some "urgent") None None in
  let r := createTicket E req (boot campus) in
  no_faults E
  /\ req_user req = Some (caller 1 "student")
  /\ valid_ticket_request req = true
  /\ body_priority req = Some "urgent"
  /\ needsHuman (verdict_of E req) = false
  /\ fst r = Ok (TicketCreated 1 "We are looking into it." false "open")
  /\ In (CallEscalate 1 "Auto-escalation: Urgent priority") (calls (snd r))
  /\ map (fun t => (st_ticket_id t, st_status t, st_assigned_to t))
         (support_tickets (db (snd r))) = [(1, "assigned", Some 5)].
Proof.
  intros E req r.
  assert (H1 : no_faults E) by (intros n; reflexivity).
  assert (H2 : req_user req = Some (caller 1 "student")) by reflexivity.
  assert (H3 : valid_ticket_request req = true) by reflexivity.
  assert (H4 : body_priority req = Some "urgent") by reflexivity.
  assert (H5 : needsHuman (verdict_of E req) = false) by reflexivity.
  destruct (createTicket_urgent_flag E req (caller 1 "student") (boot campus)
              H1 H2 H3 H4 H5) as (A & B & _).
  split; [exact H1|]. split; [exact H2|]. split; [exact H3|]. split; [exact H4|].
  split; [exact H5|]. split; [exact A|]. split; [exact B|]. reflexivity.
Defined.

(** ** C2: the agent an escalation chooses

    C2.  When the store holds an active support agent (and user ids are
    unique), [escalateToHuman] assigns the ticket to an active agent whose
    open load is minimal among all active agents, and records the
    escalation to that agent.  Nothing is stated about which of several
    agents of minimal load it is: see the example after the theorem. *)
Theorem escalateToHuman_least_loaded E ticketId reason s :
  no_faults E -> NoDup (map u_user_id (users (db s))) ->
  (exists a, active_agent (db s) a) ->
  exists a,
    chosen_agent (db s) = Some a
    /\ active_agent (db s) a
    /\ (forall b, active_agent (db s) b -> open_load (db s) a <= open_load (db s) b)
    /\ escalateToHuman E ticketId reason s = (Ok tt, assign_effect E ticketId reason a s)
    /\ (forall t, In t (support_tickets (db (assign_effect E ticketId reason a s))) ->
                  st_ticket_id t = ticketId ->
                  st_assigned_to t = Some a /\ st_status t = "assigned")
    /\ ticket_escalations (db (assign_effect E ticketId reason a s))
       = (ticket_escalations (db s)
            ++ [ {| te_ticket_id := ticketId; te_escalated_from := None;
                    te_escalated_to := a; te_escalation_reason := reason;
                    te_escalation_level := "agent" |} ])%list.
Proof.
  intros NF N Hex. destruct (chosen_agent_exists (db s) Hex) as [a Ha].
  destruct (chosen_agent_minimal (db s) a N Ha) as [Hact Hmin].
  exists a. split; [exact Ha|]. split; [exact Hact|]. split; [exact Hmin|].
  split; [now apply escalateToHuman_assigns|]. split; [|reflexivity].
  intros t. apply assigned_rows.
Qed.

(** Agents 11, 12, 13 with loads 3, 1, 2: agent 12 is chosen. *)
Lemma escalateToHuman_least_loaded_witness :
  no_faults (quiet false)
  /\ NoDup (map u_user_id (users loaded))
  /\ active_agent loaded 11
  /\ map (open_load loaded) [11; 12; 13] = [3; 1; 2]
  /\ chosen_agent loaded = Some 12
  /\ exists a,
       (forall b, active_agent loaded b -> open_load loaded a <= open_load loaded b)
       /\ escalateToHuman (quiet false) 8 "AI escalation recommended" (boot loaded)
          = (Ok tt, assign_effect (quiet false) 8 "AI escalation recommended" a
                      (boot loaded)).
Proof.
  assert (H1 : no_faults (quiet false)) by (intros n; reflexivity).
  assert (H2 : NoDup (map u_user_id (users (db (boot loaded))))).
  { repeat constructor; cbn; intuition discriminate. }
  assert (H3 : active_agent (db (boot loaded)) 11).
  { exists (member 11 "support_agent"). repeat split. cbn. auto. }
  split; [exact H1|]. split; [exact H2|]. split; [exact H3|].
  split; [reflexivity|]. split; [reflexivity|].
  destruct (escalateToHuman_least_loaded (quiet false) 8 "AI escalation recommended"
              (boot loaded) H1 H2 (ex_intro _ 11 H3)) as (a & _ & _ & Hmin & Hrun & _).
  exists a. split; [exact Hmin|exact Hrun].
Defined.

(** Agents 5 and 2 are both idle.  With the row of agent 5 returned
    first the statement chooses agent 5, not the lower id 2; with the
    same rows in the other order it chooses agent 2. *)
Lemma escalation_tie_not_lowest_identity :
  chosen_agent campus = Some 5
  /\ active_agent campus 2
  /\ open_load campus 2 = open_load campus 5
  /\ 2 < 5
  /\ chosen_agent campus_reordered = Some 2
  /\ Permutation (users campus) (users campus_reordered).
Proof.
  split; [reflexivity|]. split.
  { exists (member 2 "support_agent"). repeat split. cbn. auto. }
  split; [reflexivity|]. split; [reflexivity|]. split; [reflexivity|].
  cbn. do 2 apply perm_skip. apply perm_swap.
Qed.

(** ** C3: what an escalation at creation leaves behind

    C3.  Let a valid creation be one whose verdict asks for a human or
    whose priority is urgent.  The request is answered with the created
    ticket.  If an active support agent exists, the new ticket ends
    assigned to an active agent, with status assigned.  If none exists,
    the escalation returns normally and writes nothing: the new ticket is
    stored open and unassigned, and neither a hand-off notice nor an
    escalation record is added. *)
Theorem createTicket_escalation_outcome E req u s :
  no_faults E -> req_user req = Some u -> valid_ticket_request req = true ->
  needsHuman (verdict_of E req) = true \/ body_priority req = Some "urgent" ->
  let tid := next_ticket_id (db s) in
  let r := createTicket E req s in
  (exists ai esc, fst r = Ok (TicketCreated tid ai esc "open"))
  /\ ((exists a, active_agent (db s) a) ->
      exists a, active_agent (db s) a
        /\ In tid (map st_ticket_id (support_tickets (db (snd r))))
        /\ forall t, In t (support_tickets (db (snd r))) -> st_ticket_id t = tid ->
             st_assigned_to t = Some a /\ st_status t = "assigned")
  /\ ((forall a, ~ active_agent (db s) a) ->
      let s4 := primary_writes E req u s in
      let reason := escalation_reason (verdict_of E req) in
      fst (escalateToHuman E tid reason s4) = Ok tt
      /\ db (snd (escalateToHuman E tid reason s4)) = db s4
      /\ support_tickets (db (snd r))
         = (support_tickets (db s)
              ++ [ticket_of_request E req u tid (db_now E (tick s))])%list
      /\ ticket_escalations (db (snd r)) = ticket_escalations (db s)
      /\ chat_messages (db (snd r)) = chat_messages (db s4)).
Proof.
  intros NF Hu Hv Htrig tid r.
  assert (Hrun := createTicket_run E req u s Hu Hv (fun k _ => NF _)).
  cbv zeta in Hrun. fold tid (verdict_of E req) in Hrun. fold r in Hrun.
  rewrite (escalation_step_triggered _ _ _ _ _ Htrig) in Hrun.
  destruct (projectComplaint_tables E req tid
              (snd (escalateToHuman E tid (escalation_reason (verdict_of E req))
                      (primary_writes E req u s)))) as (Pt & Pm & Pe & _ & _).
  rewrite Hrun. cbn [fst snd].
  split; [eauto|]. split.
  - intros Hex.
    destruct (chosen_agent_exists (db (primary_writes E req u s))) as [a Ha].
    { destruct Hex as [b Hb]. exists b. revert Hb. apply active_agent_users. reflexivity. }
    exists a. split.
    { apply chosen_agent_active in Ha. revert Ha. apply active_agent_users. reflexivity. }
    rewrite Pt, (escalateToHuman_assigns E _ _ _ a NF Ha). cbn [snd assign_effect db].
    cbn [update_assign_ticket insert_chat_message insert_ticket_escalation snd
         support_tickets set_support_tickets].
    split.
    + rewrite assign_row_id, primary_writes_tickets, map_app, in_app_iff.
      right. now left.
    + intros t. apply assigned_rows.
  - intros Hnone.
    assert (Hs0 : forall s0, users (db s0) = users (db s) -> chosen_agent (db s0) = None).
    { intros s0 Hus. apply chosen_agent_none. intros a Ha. apply (Hnone a).
      revert Ha. apply active_agent_users. now symmetry. }
    cbv zeta. split; [apply escalateToHuman_ok|].
    rewrite Pt, Pe, Pm.
    rewrite (escalateToHuman_no_agent E _ _ _ (Hs0 _ (primary_writes_users E req u s))).
    cbn [db]. repeat split; reflexivity.
Qed.

(** The same urgent ticket on a staffed and on an unstaffed store. *)
Lemma createTicket_escalation_outcome_witness :
  let E := quiet false in
  let req := ticket_request (Some "urgent") None None in
  no_faults E
  /\ req_user req = Some (caller 1 "student")
  /\ valid_ticket_request req = true
  /\ body_priority req = Some "urgent"
  /\ active_agent campus 5
  /\ (exists a, forall t,
        In t (support_tickets (db (snd (createTicket E req (boot campus))))) ->
        st_ticket_id t = 1 -> st_assigned_to t = Some a /\ st_status t = "assigned")
  /\ (forall a, ~ active_agent unstaffed a)
  /\ map (fun t => (st_ticket_id t, st_status t, st_assigned_to t))
         (support_tickets (db (snd (createTicket E req (boot unstaffed)))))
     = [(1, "open", None)]
  /\ ticket_escalations (db (snd (createTicket E req (boot unstaffed)))) = [].
Proof.
  intros E req.
  assert (H1 : no_faults E) by (intros n; reflexivity).
  assert (H2 : req_user req = Some (caller 1 "student")) by reflexivity.
  assert (H3 : valid_ticket_request req = true) by reflexivity.
  assert (H4 : body_priority req = Some "urgent") by reflexivity.
  assert (H5 : active_agent campus 5).
  { exists (member 5 "support_agent"). repeat split. cbn. auto. }
  assert (H6 : forall a, ~ active_agent unstaffed a).
  { intros a (u & [<-|[]] & _ & Hact). discriminate. }
  destruct (createTicket_escalation_outcome E req (caller 1 "student") (boot campus)
              H1 H2 H3 (or_intror H4)) as (_ & Hassigned & _).
  destruct (Hassigned (ex_intro _ 5 H5)) as (a & _ & _ & Ha).
  destruct (createTicket_escalation_outcome E req (caller 1 "student") (boot unstaffed)
              H1 H2 H3 (or_intror H4)) as (_ & _ & Hnone).
  destruct (Hnone H6) as (_ & _ & Ht & He & _).
  split; [exact H1|]. split; [exact H2|]. split; [exact H3|]. split; [exact H4|].
  split; [exact H5|]. split; [exists a; exact Ha|]. split; [exact H6|].
  split; [rewrite Ht; reflexivity|exact He].
Defined.

(** ** C4: internal notes on the read paths

    C4.  The message listing hides internal notes from every caller whose
    role is not support_agent, senior_support or admin.  The debug read
    does not: for any authenticated caller, of any role and whether or not
    the ticket is theirs, it returns every message of an existing ticket,
    internal notes included.  So internal notes are not hidden on every
    read path. *)
Theorem debugTicket_exposes_internal_notes E req u s m :
  no_faults E -> req_user req = Some u ->
  In (param_ticket_id req) (map st_ticket_id (support_tickets (db s))) ->
  In m (chat_messages (db s)) ->
  cm_ticket_id m = param_ticket_id req -> cm_is_internal_note m = true ->
  (exists ticket messages complaints,
     fst (router E GET_debug_ticket req s) = Ok (DebugView ticket messages complaints)
     /\ In m (map fst messages))
  /\ (str_in (user_type u) agent_roles = false ->
      forall messages,
        fst (router E GET_tickets_messages req s) = Ok (MessageList messages) ->
        ~ In m (map fst messages)).
Proof.
  intros NF Hu Hex Hm Hid Hnote. split.
  - rewrite (router_debug E req u s Hu). unfold debugTicket.
    unfold try_catch at 1. unfold bind at 1. unfold execute at 1. rewrite NF.
    cbn [tick db calls].
    destruct (fst (select_debug_ticket _ _ _)) as [|ticket rest] eqn:Hsel.
    + exfalso. apply in_map_iff in Hex. destruct Hex as (t & Ht & Hin).
      destruct (left_join_covers (fun st u => st_user_id st =? u_user_id u)
                  (support_tickets (db s)) (users (db s)) t Hin) as [ou H1].
      destruct (left_join_covers
                  (fun row r => col_eq (st_restaurant_id (fst row)) (r_restaurant_id r))
                  _ (restaurants (db s)) (t, ou) H1) as [orr H2].
      assert (Hin' : In (t, ou, orr) (fst (select_debug_ticket (param_ticket_id req)
                                             (db_now E (tick s)) (db s)))).
      { cbn [select_debug_ticket query fst]. apply filter_In. split; [exact H2|].
        cbn [fst]. now apply Z.eqb_eq. }
      rewrite Hsel in Hin'. contradiction.
    + unfold bind at 1. unfold execute at 1. cbn [tick db calls]. rewrite NF.
      unfold bind at 1. unfold execute at 1. cbn [tick db calls]. rewrite NF.
      cbn [fst snd ret]. do 3 eexists. split; [reflexivity|].
      cbn [select_all_ticket_messages select_debug_ticket query fst snd].
      destruct (left_join_covers sender_on (chat_messages (db s)) (users (db s)) m Hm)
        as [ou H1].
      apply in_map_iff. exists (m, ou). split; [reflexivity|].
      apply order_by_In, filter_In. split; [exact H1|].
      cbn [fst]. now apply Z.eqb_eq.
  - intros Hrole messages. rewrite (router_get_messages E req u s Hu).
    rewrite (getTicketMessages_response E req u s NF Hu).
    destruct (_ && _); [discriminate|]. intros [= <-] Hin.
    apply in_map_iff in Hin. destruct Hin as (row & Hrow & Hin).
    cbn [select_ticket_messages query fst] in Hin.
    apply order_by_In, filter_In in Hin. destruct Hin as [_ Hp].
    rewrite Hrow, Hnote in Hp. unfold agent_roles in Hrole.
    cbn [str_in existsb] in Hrole, Hp. rewrite Hrole in Hp.
    cbn in Hp. now rewrite andb_false_r in Hp.
Qed.

(** Student 7, who does not own ticket 1, reads the agent's internal
    note through the debug route. *)
Lemma debugTicket_exposes_internal_notes_witness :
  let E := quiet false in
  let req := request_of (caller 7 "student") 1 in
  let secret := note 2 1 5 "support_agent" "Refund pending approval" true 20 in
  no_faults E
  /\ req_user req = Some (caller 7 "student")
  /\ In (param_ticket_id req) (map st_ticket_id (support_tickets noted))
  /\ In secret (chat_messages noted)
  /\ cm_ticket_id secret = param_ticket_id req
  /\ cm_is_internal_note secret = true
  /\ exists ticket messages complaints,
       fst (router E GET_debug_ticket req (boot noted))
       = Ok (DebugView ticket messages complaints)
       /\ In secret (map fst messages).
Proof.
  intros E req secret.
  assert (H1 : no_faults E) by (intros n; reflexivity).
  assert (H3 : In (param_ticket_id req) (map st_ticket_id (support_tickets (db (boot noted)))))
    by (now left).
  assert (H4 : In secret (chat_messages (db (boot noted)))) by (right; now left).
  split; [exact H1|]. split; [reflexivity|]. split; [exact H3|]. split; [exact H4|].
  split; [reflexivity|]. split; [reflexivity|].
  exact (proj1 (debugTicket_exposes_internal_notes E req (caller 7 "student")
                  (boot noted) secret H1 eq_refl H3 H4 eq_refl eq_refl)).
Defined.

(** ** C5: the status transition on a reply

    C5.  A post with non-blank text succeeds, and its second statement
    rewrites the row of the ticket: the update stamp becomes the time of
    that statement; a ticket in status open moves to in_progress exactly
    when the caller's role is support_agent or senior_support; a ticket in
    any other status, and any ticket a student posts to, keeps its
    status.  For a caller who is not a student nothing after that
    statement touches the tickets.  The caller's role is any text other than the names
    every object inherits ([Js.inherited_names]). *)
Theorem sendMessage_reply_transition E req u s :
  no_faults E -> req_user req = Some u -> Js.inherited (user_type u) = false ->
  blank (body_message_text req) = false ->
  let tid := param_ticket_id req in
  let now := db_now E (S (tick s)) in
  let s2 := after_post E req u s in
  (exists s', ai_followup E req u s2 = (Ok tt, s')
              /\ sendMessage E req s = (Ok (MessageSent (next_message_id (db s))), s'))
  /\ support_tickets (db s2)
     = map (reply_row (user_type u) tid now) (support_tickets (db s))
  /\ (user_type u <> "student" ->
      support_tickets (db (snd (sendMessage E req s))) = support_tickets (db s2))
  /\ forall t, In t (support_tickets (db s)) -> st_ticket_id t = tid ->
       let t' := reply_row (user_type u) tid now t in
       st_updated_at t' = now
       /\ (st_status t = "open" ->
           (st_status t' = "in_progress"
            <-> user_type u = "support_agent" \/ user_type u = "senior_support"))
       /\ (st_status t <> "open" -> st_status t' = st_status t)
       /\ (user_type u = "student" -> st_status t' = st_status t).
Proof.
  intros NF Hu _ Hb tid now s2.
  assert (Hrun := sendMessage_run E req u s Hu Hb (NF _) (NF _)). fold s2 in Hrun.
  split; [|split; [reflexivity|split]].
  - destruct (ai_followup_total E req u s2 NF) as (s' & rest & Hf & _).
    exists s'. split; [exact Hf|]. now rewrite Hrun, Hf.
  - intros Hst. rewrite Hrun, (ai_followup_not_student E req u _ Hst). reflexivity.
  - intros t _ Hid t'. unfold t', reply_row.
    apply Z.eqb_eq in Hid. rewrite Hid. cbn [st_updated_at st_status].
    split; [reflexivity|]. split; [|split].
    + intros Ho. rewrite Ho. change (("open" =? "open")%string) with true.
      cbn [andb str_in existsb].
      destruct (String.eqb_spec (user_type u) "support_agent") as [->|H1];
        [cbn; intuition|].
      destruct (String.eqb_spec (user_type u) "senior_support") as [->|H2];
        [cbn; intuition|].
      cbn. split; [discriminate|intros [?|?]; contradiction].
    + intros Ho. apply String.eqb_neq in Ho. now rewrite Ho.
    + intros ->. cbn. now destruct (st_status t =? "open")%string.
Qed.

(** An agent's reply moves ticket 1 from open to in_progress; a
    student's post leaves it open. *)
Lemma sendMessage_reply_transition_witness :
  let E := quiet false in
  let req := message_request (caller 5 "support_agent") 1 "On it." in
  no_faults E
  /\ req_user req = Some (caller 5 "support_agent")
  /\ Js.inherited "support_agent" = false
  /\ blank (body_message_text req) = false
  /\ map (fun t => (st_ticket_id t, st_status t, st_updated_at t))
         (support_tickets (db (snd (sendMessage E req (boot noted)))))
     = [(1, "in_progress", 1001)]
  /\ map (fun t => (st_ticket_id t, st_status t, st_updated_at t))
         (support_tickets (db (after_post E
            (message_request (caller 1 "student") 1 "Any news?")
            (caller 1 "student") (boot noted))))
     = [(1, "open", 1001)].
Proof.
  intros E req.
  assert (H1 : no_faults E) by (intros n; reflexivity).
  assert (H3 : blank (body_message_text req) = false) by reflexivity.
  split; [exact H1|]. split; [reflexivity|]. split; [reflexivity|].
  split; [exact H3|]. split.
  - destruct (sendMessage_reply_transition E req (caller 5 "support_agent")
                (boot noted) H1 eq_refl eq_refl H3) as (_ & Hs2 & Hfinal & _).
    rewrite (Hfinal ltac:(discriminate)), Hs2. reflexivity.
  - destruct (sendMessage_reply_transition E
                (message_request (caller 1 "student") 1 "Any news?")
                (caller 1 "student") (boot noted) H1 eq_refl eq_refl eq_refl)
      as (_ & Hs2 & _).
    rewrite Hs2. reflexivity.
Defined.

(** ** C6: when a post consults the classifier again

    C6.  A post with non-blank text on an existing ticket succeeds.  When
    the caller is a student and the ticket has no assigned agent, the
    classifier is called once, on the posted text and the ticket's
    category; one classifier message and one log row are appended; and
    [escalateToHuman] is called exactly when the new verdict asks for a
    human.  In every other case (another role, or a ticket with an
    assigned agent) the classifier is not called, no log row is written
    and the only new message is the caller's.  The caller's role is any text other than the names
    every object inherits ([Js.inherited_names]). *)
Theorem sendMessage_classifier_gate E req u s t :
  no_faults E -> req_user req = Some u -> Js.inherited (user_type u) = false ->
  blank (body_message_text req) = false ->
  find (fun st => st_ticket_id st =? param_ticket_id req) (support_tickets (db s)) = Some t ->
  st_assigned_to t <> Some 0 ->
  let tid := param_ticket_id req in
  let text := Js.text (body_message_text req) in
  let v := generateResponse E text (st_ticket_type t) in
  let r := sendMessage E req s in
  let posted := posted_message req u (next_message_id (db s)) (db_now E (tick s)) in
  fst r = Ok (MessageSent (next_message_id (db s)))
  /\ (user_type u = "student" -> st_assigned_to t = None ->
      calls (snd r)
      = (calls s ++ CallClassifier text (st_ticket_type t)
           :: (if needsHuman v then [CallEscalate tid "AI escalation recommended"]
               else []))%list
      /\ ai_bot_logs (db (snd r)) = (ai_bot_logs (db s) ++ [ai_log tid text v])%list
      /\ exists notices,
           chat_messages (db (snd r))
           = (chat_messages (db s)
                ++ posted
                :: ai_message tid v (next_message_id (db s) + 1)
                     (db_now E (S (S (S (tick s)))))
                :: notices)%list
           /\ (needsHuman v = false -> notices = [])
           /\ Forall (fun m => cm_message_text m = handoff_notice) notices)
  /\ (user_type u <> "student" \/ st_assigned_to t <> None ->
      calls (snd r) = calls s
      /\ ai_bot_logs (db (snd r)) = ai_bot_logs (db s)
      /\ chat_messages (db (snd r)) = (chat_messages (db s) ++ [posted])%list).
Proof.
  intros NF Hu _ Hb Hf H0 tid text v r posted.
  assert (Hrun := sendMessage_run E req u s Hu Hb (NF _) (NF _)). fold r in Hrun.
  destruct (String.eqb_spec (user_type u) "student") as [Hst|Hst].
  - destruct (st_assigned_to t) as [a|] eqn:Ha.
    + assert (Hne : a <> 0) by (intros ->; now apply H0).
      rewrite (ai_followup_assigned E req u s t a NF Hst Hf Ha Hne) in Hrun.
      rewrite Hrun. cbn [fst snd].
      split; [reflexivity|]. split; [discriminate|].
      intros _. repeat split; reflexivity.
    + rewrite (ai_followup_unassigned E req u s t NF Hst Hf Ha) in Hrun.
      cbv zeta in Hrun. fold tid text v in Hrun.
      set (s4 := after_ai E req (st_ticket_type t) (after_post E req u s)) in *.
      destruct (needsHuman v) eqn:Hn.
      * pose proof (escalateToHuman_ok E tid "AI escalation recommended" s4) as Hok.
        pose proof (escalateToHuman_calls E tid "AI escalation recommended" s4) as Hcalls.
        pose proof (escalateToHuman_frame E tid "AI escalation recommended" s4) as Hfr.
        destruct (escalateToHuman_messages E tid "AI escalation recommended" s4 NF)
          as (notices & Hm & Hall).
        destruct (escalateToHuman E tid "AI escalation recommended" s4) as [r' s'].
        cbn [fst snd] in *. subst r'. rewrite Hrun. cbn [fst snd].
        split; [reflexivity|]. split; [|intros [?|?]; congruence].
        intros _ _. split; [|split].
        -- rewrite Hcalls. cbn. now rewrite <- app_assoc.
        -- now rewrite (frame_logs _ _ Hfr).
        -- exists notices. split; [|split; [discriminate|exact Hall]].
           rewrite Hm. cbn. rewrite <- !app_assoc. reflexivity.
      * rewrite Hrun. cbn [fst snd].
        split; [reflexivity|]. split; [|intros [?|?]; congruence].
        intros _ _. split; [|split].
        -- reflexivity.
        -- reflexivity.
        -- exists []. split; [|split; [reflexivity|constructor]].
           cbn. rewrite <- !app_assoc. reflexivity.
  - rewrite (ai_followup_not_student E req u _ Hst) in Hrun.
    rewrite Hrun. cbn [fst snd].
    split; [reflexivity|]. split; [intros; contradiction|].
    intros _. repeat split; reflexivity.
Qed.

(** The student's question reaches the classifier, which escalates; the
    agent's answer does not reach it. *)
Lemma sendMessage_classifier_gate_witness :
  let E := quiet true in
  let ask := message_request (caller 1 "student") 1 "Any news?" in
  let answer := message_request (caller 5 "support_agent") 1 "On it." in
  no_faults E
  /\ req_user ask = Some (caller 1 "student")
  /\ Js.inherited "student" = false
  /\ blank (body_message_text ask) = false
  /\ find (fun st => st_ticket_id st =? 1) (support_tickets noted)
     = Some (ticket 1 1 "medium" "open" None 10)
  /\ calls (snd (sendMessage E ask (boot noted)))
     = [CallClassifier "Any news?" "payment";
        CallEscalate 1 "AI escalation recommended"]
  /\ List.length (ai_bot_logs (db (snd (sendMessage E ask (boot noted))))) = 1%nat
  /\ calls (snd (sendMessage E answer (boot noted))) = [].
Proof.
  intros E ask answer.
  assert (H1 : no_faults E) by (intros n; reflexivity).
  assert (H4 : find (fun st => st_ticket_id st =? param_ticket_id ask)
                 (support_tickets (db (boot noted)))
               = Some (ticket 1 1 "medium" "open" None 10)) by reflexivity.
  assert (H5 : st_assigned_to (ticket 1 1 "medium" "open" None 10) <> Some 0)
    by discriminate.
  assert (H6 : user_type (caller 5 "support_agent") <> "student"
               \/ st_assigned_to (ticket 1 1 "medium" "open" None 10) <> None)
    by (left; discriminate).
  split; [exact H1|]. split; [reflexivity|]. split; [reflexivity|].
  split; [reflexivity|]. split; [exact H4|].
  destruct (sendMessage_classifier_gate E ask (caller 1 "student") (boot noted)
              (ticket 1 1 "medium" "open" None 10)
              H1 eq_refl eq_refl eq_refl H4 H5) as (_ & Hyes & _).
  destruct (Hyes eq_refl eq_refl) as (Hcalls & Hlogs & _).
  destruct (sendMessage_classifier_gate E answer (caller 5 "support_agent") (boot noted)
              (ticket 1 1 "medium" "open" None 10)
              H1 eq_refl eq_refl eq_refl H4 H5) as (_ & _ & Hno).
  destruct (Hno H6) as (Hcalls' & _).
  split; [exact Hcalls|]. split; [rewrite Hlogs; reflexivity|].
  exact Hcalls'.
Defined.

(** ** C7: the priority a creation stores

    C7.  A valid creation whose statements the server accepts stores the
    supplied priority unchanged when it is one of low, medium, high,
    urgent, and stores medium when the field is absent or empty.  Any
    other text is bound to the statement as it was supplied, never
    replaced by medium: the ticket carries what the enumerated column
    makes of that very text (third part, and the example after the
    theorem). *)
Theorem createTicket_priority E req u s :
  req_user req = Some u -> valid_ticket_request req = true ->
  (forall k, (k < 4)%nat -> db_fails E (tick s + k) = None) ->
  let persisted := map st_priority (support_tickets (db (snd (createTicket E req s)))) in
  let before := map st_priority (support_tickets (db s)) in
  (forall p, body_priority req = Some p ->
             In p ["low"; "medium"; "high"; "urgent"] -> persisted = (before ++ [p])%list)
  /\ (body_priority req = None \/ body_priority req = Some "" ->
      persisted = (before ++ ["medium"])%list)
  /\ (forall p, body_priority req = Some p -> p <> "" ->
                ~ In p ["low"; "medium"; "high"; "urgent"] ->
                persisted = (before ++ [db_off_enum E p])%list).
Proof.
  intros Hu Hv NF persisted before.
  assert (Hrun := createTicket_run E req u s Hu Hv NF). cbv zeta in Hrun.
  assert (Hp : persisted
               = (before ++ [priority_column E
                               (Js.text (Js.or_str (body_priority req) (Some "medium")))])%list).
  { unfold persisted. rewrite Hrun. cbn [snd].
    match goal with
    | |- context [try_catch ?m ?h ?st] =>
        destruct (projectComplaint_tables E req (next_ticket_id (db s)) st) as (-> & _)
    end.
    rewrite (frame_priorities _ _ (escalation_step_frame E req _ _ _)).
    rewrite primary_writes_tickets, map_app. reflexivity. }
  assert (Hbound : forall p, body_priority req = Some p -> p <> "" ->
                     Js.text (Js.or_str (body_priority req) (Some "medium")) = p).
  { intros p Hp1 Hp2. rewrite Hp1. unfold Js.or_str, Js.truthy_str.
    apply String.eqb_neq in Hp2. now rewrite Hp2. }
  split; [|split].
  - intros p Hp1 Hin. rewrite Hp, (Hbound p Hp1).
    + now rewrite (priority_column_listed E p Hin).
    + cbn in Hin. intuition (subst; discriminate).
  - intros [Hn|Hn]; rewrite Hp, Hn; reflexivity.
  - intros p Hp1 Hp2 Hout. rewrite Hp, (Hbound p Hp1 Hp2).
    now rewrite (priority_column_unlisted E p Hout).
Qed.

(** The priorities high, absent, empty and critical. *)
Lemma createTicket_priority_witness :
  let E := quiet false in
  let persisted req :=
    map st_priority (support_tickets (db (snd (createTicket E req (boot campus))))) in
  req_user (ticket_request (Some "high") None None) = Some (caller 1 "student")
  /\ valid_ticket_request (ticket_request (Some "high") None None) = true
  /\ (forall k, (k < 4)%nat -> db_fails E (tick (boot campus) + k) = None)
  /\ persisted (ticket_request (Some "high") None None) = ["high"]
  /\ persisted (ticket_request None None None) = ["medium"]
  /\ persisted (ticket_request (Some "") None None) = ["medium"]
  /\ persisted (ticket_request (Some "critical") None None) = [db_off_enum E "critical"].
Proof.
  intros E persisted.
  assert (H3 : forall k, (k < 4)%nat -> db_fails E (tick (boot campus) + k) = None)
    by (intros k _; reflexivity).
  assert (H4 : "critical" <> "") by discriminate.
  assert (H5 : ~ In "critical" ["low"; "medium"; "high"; "urgent"])
    by (cbn; intuition discriminate).
  split; [reflexivity|]. split; [reflexivity|]. split; [exact H3|].
  split; [|split; [|split]].
  - apply (proj1 (createTicket_priority E (ticket_request (Some "high") None None)
                    (caller 1 "student") (boot campus) eq_refl eq_refl H3) "high" eq_refl).
    cbn. auto.
  - apply (proj1 (proj2 (createTicket_priority E (ticket_request None None None)
                           (caller 1 "student") (boot campus) eq_refl eq_refl H3))).
    now left.
  - apply (proj1 (proj2 (createTicket_priority E (ticket_request (Some "") None None)
                           (caller 1 "student") (boot campus) eq_refl eq_refl H3))).
    now right.
  - exact (proj2 (proj2 (createTicket_priority E (ticket_request (Some "critical") None None)
                           (caller 1 "student") (boot campus) eq_refl eq_refl H3))
             "critical" eq_refl H4 H5).
Defined.

(** The priority critical is none of the four values, and no ticket of
    priority medium comes of it.  A server that accepts the statement
    keeps what its enumerated column makes of critical, here the empty
    text; a server that refuses the statement leaves no ticket at all,
    and the request is answered 500. *)
Lemma createTicket_invalid_priority_not_medium :
  let req := ticket_request (Some "critical") None None in
  let accepted := createTicket (quiet false) req (boot campus) in
  let refused := createTicket (strict false) req (boot campus) in
  ~ In "critical" ["low"; "medium"; "high"; "urgent"]
  /\ fst accepted = Ok (TicketCreated 1 "We are looking into it." false "open")
  /\ map st_priority (support_tickets (db (snd accepted))) = [""]
  /\ map st_priority (support_tickets (db (snd accepted))) <> ["medium"]
  /\ fst refused = Ok (Failure 500 "Failed to create support ticket"
                         (Some "Data truncated for column 'priority' at row 1"))
  /\ support_tickets (db (snd refused)) = [].
Proof.
  cbv zeta. split; [cbn; intuition discriminate|].
  split; [reflexivity|]. split; [reflexivity|]. split; [discriminate|].
  split; reflexivity.
Qed.

(** ** C8: the complaint filed for a restaurant

    C8.  A valid creation whose four leading statements run is answered
    with the created ticket, whatever happens afterwards.  With neither a
    restaurant nor an order it files no complaint.  With an explicit
    restaurant, or with an order whose row names a restaurant, it files
    exactly one complaint against that restaurant, of the ticket's
    category, summarised by the subject (which a valid request always
    has, so the fall-back to the description is never used). *)
Theorem createTicket_complaint_projection E req u s :
  req_user req = Some u -> valid_ticket_request req = true ->
  (forall k, (k < 4)%nat -> db_fails E (tick s + k) = None) ->
  let tid := next_ticket_id (db s) in
  let r := createTicket E req s in
  let created rid now :=
    {| rc_ticket_id := tid; rc_restaurant_id := rid;
       rc_complaint_type := Js.text (body_ticket_type req);
       rc_complaint_summary :=
         Js.or_str (body_subject req) (Js.or_str (body_description req) None);
       rc_created_at := now |} in
  (exists ai esc, fst r = Ok (TicketCreated tid ai esc "open"))
  /\ (Js.truthy_num (body_restaurant_id req) = false ->
      Js.truthy_num (body_order_id req) = false ->
      restaurant_complaints (db (snd r)) = restaurant_complaints (db s))
  /\ (no_faults E -> forall rid,
      body_restaurant_id req = Some rid -> rid <> 0 ->
      exists now, restaurant_complaints (db (snd r))
                  = (restaurant_complaints (db s) ++ [created rid now])%list)
  /\ (no_faults E -> forall oid o rid,
      Js.truthy_num (body_restaurant_id req) = false ->
      body_order_id req = Some oid -> oid <> 0 ->
      find (fun o => o_order_id o =? oid) (orders (db s)) = Some o ->
      o_restaurant_id o = Some rid -> rid <> 0 ->
      exists now, restaurant_complaints (db (snd r))
                  = (restaurant_complaints (db s) ++ [created rid now])%list)
  /\ Js.or_str (body_subject req) (Js.or_str (body_description req) None)
     = body_subject req.
Proof.
  intros Hu Hv NF tid r created.
  assert (Hrun := createTicket_run E req u s Hu Hv NF). cbv zeta in Hrun.
  fold tid r in Hrun.
  set (s5 := snd (escalation_step E req tid (verdict_of E req) (primary_writes E req u s))).
  assert (F : escalation_frame (db (primary_writes E req u s)) (db s5))
    by apply escalation_step_frame.
  assert (Hc5 : restaurant_complaints (db s5) = restaurant_complaints (db s))
    by (now rewrite (frame_complaints _ _ F)).
  assert (He5 : effective_restaurant (db s5) req = effective_restaurant (db s) req)
    by (apply effective_restaurant_orders; now rewrite (frame_orders _ _ F)).
  assert (Hsome : no_faults E -> forall rid,
            effective_restaurant (db s) req = Some rid -> rid <> 0 ->
            exists now, restaurant_complaints (db (snd r))
                        = (restaurant_complaints (db s) ++ [created rid now])%list).
  { intros NF' rid He Hrid. rewrite <- He5 in He.
    destruct (projectComplaint_some E req tid s5 rid NF' He Hrid) as [now Hnow].
    exists now. rewrite Hrun. cbn [snd]. fold (verdict_of E req). fold s5.
    now rewrite Hnow, Hc5. }
  split; [rewrite Hrun; cbn [fst]; do 2 eexists; reflexivity|].
  split; [|split; [|split]].
  - intros Hr Ho. rewrite Hrun. cbn [snd]. fold (verdict_of E req). fold s5.
    now rewrite projectComplaint_none.
  - intros NF' rid Hr Hrid. apply Hsome; [exact NF'| |exact Hrid].
    unfold effective_restaurant. rewrite Hr. cbn.
    destruct (Z.eqb_spec rid 0); [contradiction|reflexivity].
  - intros NF' oid o rid Hr Ho Hoid Hf Hor Hrid.
    apply Hsome; [exact NF'| |exact Hrid].
    unfold effective_restaurant. rewrite Hr, Ho. cbn [negb andb Js.truthy_num].
    destruct (Z.eqb_spec oid 0); [contradiction|]. cbn [negb].
    unfold select_order_restaurant, query. cbn [fst Js.number].
    destruct (find_filter _ _ _ Hf) as [rest ->]. cbn. exact Hor.
  - unfold valid_ticket_request in Hv.
    apply andb_true_iff in Hv. destruct Hv as [Hv _].
    apply andb_true_iff in Hv. destruct Hv as [_ Hs].
    unfold Js.or_str. now rewrite Hs.
Qed.

(** No restaurant and no order; restaurant 9; order 40 of restaurant
    9. *)
Lemma createTicket_complaint_projection_witness :
  let E := quiet false in
  let complaints req :=
    map (fun rc => (rc_ticket_id rc, rc_restaurant_id rc, rc_complaint_type rc,
                    rc_complaint_summary rc))
        (restaurant_complaints (db (snd (createTicket E req (boot campus))))) in
  req_user (ticket_request None None None) = Some (caller 1 "student")
  /\ valid_ticket_request (ticket_request None None None) = true
  /\ (forall k, (k < 4)%nat -> db_fails E (tick (boot campus) + k) = None)
  /\ complaints (ticket_request None None None) = []
  /\ complaints (ticket_request None None (Some 9))
     = [(1, 9, "payment", Some "Double charge")]
  /\ complaints (ticket_request None (Some 40) None)
     = [(1, 9, "payment", Some "Double charge")].
Proof.
  intros E complaints.
  assert (H1 : no_faults E) by (intros n; reflexivity).
  assert (H3 : forall k, (k < 4)%nat -> db_fails E (tick (boot campus) + k) = None)
    by (intros k _; reflexivity).
  split; [reflexivity|]. split; [reflexivity|]. split; [exact H3|].
  split; [|split].
  - destruct (createTicket_complaint_projection E (ticket_request None None None)
                (caller 1 "student") (boot campus) eq_refl eq_refl H3)
      as (_ & Hnone & _).
    unfold complaints. rewrite (Hnone eq_refl eq_refl). reflexivity.
  - destruct (createTicket_complaint_projection E (ticket_request None None (Some 9))
                (caller 1 "student") (boot campus) eq_refl eq_refl H3)
      as (_ & _ & Hexp & _).
    destruct (Hexp H1 9 eq_refl ltac:(discriminate)) as [now Hnow].
    unfold complaints. rewrite Hnow. reflexivity.
  - destruct (createTicket_complaint_projection E (ticket_request None (Some 40) None)
                (caller 1 "student") (boot campus) eq_refl eq_refl H3)
      as (_ & _ & _ & Hord & _).
    destruct (Hord H1 40 {| o_order_id := 40; o_restaurant_id := Some 9 |} 9
                eq_refl eq_refl ltac:(discriminate) eq_refl eq_refl ltac:(discriminate))
      as [now Hnow].
    unfold complaints. rewrite Hnow. reflexivity.
Defined.

(** A store failure inside the projection (or the escalation) leaves the
    creation successful: here every statement after the fifth fails. *)
Example createTicket_survives_projection_failure :
  let r := createTicket (failing_from 5 true) (ticket_request None None (Some 9))
             (boot campus) in
  fst r = Ok (TicketCreated 1 "We are looking into it." true "open")
  /\ restaurant_complaints (db (snd r)) = [].
Proof. split; reflexivity. Qed.

(** ** C9: the agents' listing

    C9.  The listing of open tickets, asked by a caller whose role is
    support_agent, senior_support or admin, holds no resolved or closed
    ticket; for a support_agent every listed ticket is unassigned or
    assigned to the caller; and the rows are sorted by priority
    descending (urgent over high over medium over low), then by creation
    time ascending. *)
Theorem getAllTickets_listing E req u s :
  db_fails E (tick s) = None -> req_user req = Some u ->
  str_in (user_type u) agent_roles = true ->
  exists tickets,
    fst (router E GET_tickets req s) = Ok (AgentTicketList tickets)
    /\ (forall row, In row tickets ->
          st_status (ticket_of row) <> "resolved" /\ st_status (ticket_of row) <> "closed")
    /\ (user_type u = "support_agent" ->
        forall row, In row tickets ->
          st_assigned_to (ticket_of row) = None
          \/ st_assigned_to (ticket_of row) = Some (user_id u))
    /\ StronglySorted listed_before tickets
    /\ priority_index "low" < priority_index "medium" < priority_index "high"
    /\ priority_index "high" < priority_index "urgent".
Proof.
  intros F0 Hu Hrole. rewrite (router_get_tickets E req u s Hu Hrole).
  unfold getAllTickets.
  unfold try_catch at 1. unfold bind at 1. unfold the_user. rewrite Hu.
  unfold bind at 1. unfold execute at 1. rewrite F0. cbn [fst snd ret].
  eexists. split; [reflexivity|].
  cbn [select_open_tickets query fst].
  split; [|split; [|split]].
  - intros row Hin. apply order_by_In, filter_In in Hin. destruct Hin as [_ Hp].
    apply andb_true_iff in Hp. destruct Hp as [Hp _]. unfold ticket_of.
    cbn [str_in existsb] in Hp.
    split; intros Heq; rewrite Heq in Hp; discriminate.
  - intros Hst row Hin. apply order_by_In, filter_In in Hin. destruct Hin as [_ Hp].
    apply andb_true_iff in Hp. destruct Hp as [_ Hp]. rewrite Hst in Hp.
    change (("support_agent" =? "support_agent")%string) with true in Hp.
    cbn [app forallb clause_holds] in Hp.
    apply andb_true_iff in Hp. destruct Hp as [Hp _]. unfold ticket_of.
    destruct (st_assigned_to (fst (fst (fst row)))) as [a|]; [|now left].
    cbn in Hp. apply Z.eqb_eq in Hp. right. now subst.
  - eapply StronglySorted_weaken.
    2: apply (order_by_sorted _ priority_desc_created_asc_total
                priority_desc_created_asc_trans).
    intros a b. apply priority_desc_created_asc_spec.
  - vm_compute. repeat split.
Qed.

(** What support agent 11 is shown of the eight sample tickets. *)
Lemma getAllTickets_listing_witness :
  let E := quiet false in
  let req := request_of (caller 11 "support_agent") 0 in
  db_fails E (tick (boot loaded)) = None
  /\ req_user req = Some (caller 11 "support_agent")
  /\ str_in "support_agent" agent_roles = true
  /\ exists tickets,
       fst (router E GET_tickets req (boot loaded)) = Ok (AgentTicketList tickets)
       /\ map (fun row => (st_ticket_id (ticket_of row), st_priority (ticket_of row)))
              tickets
          = [(3, "high"); (8, "medium"); (1, "low"); (2, "low")]
       /\ StronglySorted listed_before tickets.
Proof.
  intros E req.
  split; [reflexivity|]. split; [reflexivity|]. split; [reflexivity|].
  destruct (getAllTickets_listing E req (caller 11 "support_agent") (boot loaded)
              eq_refl eq_refl eq_refl) as (tickets & Hresp & _ & _ & Hsorted & _).
  exists tickets. split; [exact Hresp|]. split; [|exact Hsorted].
  assert (Ht : Ok (AgentTicketList tickets)
               = fst (router E GET_tickets req (boot loaded))) by (now rewrite Hresp).
  vm_compute in Ht. injection Ht as ->. reflexivity.
Defined.

(** ** C10: who may post to a ticket

    C10.  For every authenticated caller and every existing ticket, a
    post whose text is not blank is answered with the id of the new
    message, and that message is appended to the ticket's conversation:
    ownership is not consulted.  The listing of the same ticket, asked by
    a student who does not own it, is refused with 403.  Non-empty text is
    not enough: text that is blank after trimming is refused (the example
    after the theorem).  The caller's role is any text other than the names
    every object inherits ([Js.inherited_names]). *)
Theorem sendMessage_no_ownership_check E req u s :
  no_faults E -> req_user req = Some u -> Js.inherited (user_type u) = false ->
  blank (body_message_text req) = false ->
  In (param_ticket_id req) (map st_ticket_id (support_tickets (db s))) ->
  let tid := param_ticket_id req in
  let posted := posted_message req u (next_message_id (db s)) (db_now E (tick s)) in
  (exists s' rest,
     router E POST_tickets_messages req s
     = (Ok (MessageSent (next_message_id (db s))), s')
     /\ chat_messages (db s') = (chat_messages (db s) ++ posted :: rest)%list)
  /\ (user_type u = "student" ->
      (forall t, In t (support_tickets (db s)) -> st_ticket_id t = tid ->
                 st_user_id t <> user_id u) ->
      fst (router E GET_tickets_messages req s) = Ok (Failure 403 "Access denied" None)).
Proof.
  intros NF Hu _ Hb _ tid posted. split.
  - rewrite (router_post_messages E req u s Hu).
    rewrite (sendMessage_run E req u s Hu Hb (NF _) (NF _)).
    destruct (ai_followup_total E req u (after_post E req u s) NF) as (s' & rest & -> & Hm).
    exists s', rest. split; [reflexivity|].
    rewrite Hm. cbn. rewrite <- app_assoc. reflexivity.
  - intros Hst Hown. rewrite (router_get_messages E req u s Hu).
    unfold getTicketMessages.
    unfold try_catch at 1. unfold bind at 1. unfold the_user. rewrite Hu, Hst.
    change (("student" =? "student")%string) with true. cbv iota.
    unfold bind at 1. unfold bind at 1. unfold execute at 1. rewrite NF.
    cbn [tick db calls fst snd select_owned_ticket query].
    rewrite filter_none; [reflexivity|].
    intros t Ht. fold tid.
    destruct (Z.eqb_spec (st_ticket_id t) tid) as [Hid|]; [|reflexivity].
    destruct (Z.eqb_spec (st_user_id t) (user_id u)) as [Hown'|]; [|reflexivity].
    exfalso. exact (Hown t Ht Hid Hown').
Qed.

(** Student 7 posts to ticket 1 of student 1, and may not list it. *)
Lemma sendMessage_no_ownership_check_witness :
  let E := quiet false in
  let req := message_request (caller 7 "student") 1 "me too" in
  no_faults E
  /\ req_user req = Some (caller 7 "student")
  /\ Js.inherited "student" = false
  /\ blank (body_message_text req) = false
  /\ In (param_ticket_id req) (map st_ticket_id (support_tickets noted))
  /\ map st_user_id (support_tickets noted) = [1]
  /\ (exists s', router E POST_tickets_messages req (boot noted)
                 = (Ok (MessageSent 3), s'))
  /\ fst (router E GET_tickets_messages req (boot noted))
     = Ok (Failure 403 "Access denied" None).
Proof.
  intros E req.
  assert (H1 : no_faults E) by (intros n; reflexivity).
  assert (H4 : In (param_ticket_id req) (map st_ticket_id (support_tickets (db (boot noted)))))
    by (now left).
  destruct (sendMessage_no_ownership_check E req (caller 7 "student") (boot noted)
              H1 eq_refl eq_refl eq_refl H4) as ((s' & rest & Hpost & _) & Hread).
  split; [exact H1|]. split; [reflexivity|]. split; [reflexivity|].
  split; [reflexivity|]. split; [exact H4|].
  split; [reflexivity|]. split; [exists s'; exact Hpost|].
  apply Hread; [reflexivity|].
  intros t [<-|[]] _. discriminate.
Defined.

(** Three spaces are a non-empty text; the post is refused and nothing
    is written. *)
Lemma sendMessage_blank_text_rejected :
  let req := message_request (caller 7 "student") 1 "   " in
  body_message_text req <> None
  /\ body_message_text req <> Some ""
  /\ router (quiet false) POST_tickets_messages req (boot noted)
     = (Ok (Failure 400 "Message text is required" None), boot noted).
Proof.
  cbv zeta. split; [discriminate|]. split; [discriminate|]. reflexivity.
Qed.

(** * Further properties of the code *)

(** ** Ticket creation, beyond the claims *)

Lemma escalateToHuman_notices E tid reason s :
  exists notices,
    chat_messages (db (snd (escalateToHuman E tid reason s)))
    = (chat_messages (db s) ++ notices)%list
    /\ (List.length notices <= 1)%nat
    /\ Forall (fun m => cm_message_text m = handoff_notice /\ cm_ticket_id m = tid)
              notices.
Proof.
  assert (H0 : exists notices : list message_row,
             chat_messages (db s) = (chat_messages (db s) ++ notices)%list
             /\ (List.length notices <= 1)%nat
             /\ Forall (fun m => cm_message_text m = handoff_notice /\ cm_ticket_id m = tid)
                       notices).
  { exists []. split; [now rewrite app_nil_r|]. split; [cbn; lia|constructor]. }
  unfold escalateToHuman, bind, try_catch, record_call, execute, ret. cbn [tick db calls].
  destruct (db_fails E (tick s)); [exact H0|].
  rewrite select_least_loaded_agent_db.
  destruct (fst (select_least_loaded_agent _ _)) as [|agent rest]; [exact H0|].
  cbn [tick db calls fst snd].
  destruct (db_fails E (S (tick s))); [exact H0|].
  cbn [tick db calls fst snd].
  destruct (db_fails E (S (S (tick s)))); cbn [tick db calls fst snd]; [exact H0|].
  destruct (db_fails E (S (S (S (tick s))))); cbn [tick db calls fst snd];
    (eexists; split; [reflexivity|]; split; [cbn; lia|]; repeat constructor).
Qed.

Lemma escalation_step_notices E req tid v s :
  exists notices,
    chat_messages (db (snd (escalation_step E req tid v s)))
    = (chat_messages (db s) ++ notices)%list
    /\ (List.length notices <= 1)%nat
    /\ Forall (fun m => cm_message_text m = handoff_notice /\ cm_ticket_id m = tid)
              notices.
Proof.
  unfold escalation_step.
  destruct (needsHuman v || is_urgent (body_priority req));
    [apply escalateToHuman_notices|].
  exists []. split; [cbn; now rewrite app_nil_r|]. split; [cbn; lia|constructor].
Qed.

Lemma escalation_step_calls E req tid v s :
  calls (snd (escalation_step E req tid v s))
  = (calls s ++ (if needsHuman v || is_urgent (body_priority req)
                 then [CallEscalate tid (escalation_reason v)] else []))%list.
Proof.
  unfold escalation_step.
  destruct (needsHuman v || is_urgent (body_priority req));
    [apply escalateToHuman_calls|].
  cbn. now rewrite app_nil_r.
Qed.

Lemma escalation_step_idle E req tid v s :
  needsHuman v = false -> is_urgent (body_priority req) = false ->
  escalation_step E req tid v s = (Ok tt, s).
Proof. intros Hn Hp. unfold escalation_step. now rewrite Hn, Hp. Qed.

Lemma projectComplaint_next_ticket E req tid s :
  next_ticket_id (db (snd (try_catch (projectComplaint E req tid) (fun _ => ret tt) s)))
  = next_ticket_id (db s).
Proof.
  unfold projectComplaint, try_catch, bind, execute, ret.
  destruct (negb (Js.truthy_num (body_restaurant_id req))
            && Js.truthy_num (body_order_id req)); cbn [tick db calls fst snd].
  - destruct (db_fails E (tick s)); cbn [tick db calls fst snd].
    + destruct (Js.truthy_num (body_restaurant_id req)); cbn [tick db calls fst snd];
        [destruct (db_fails E (S (tick s)))|]; reflexivity.
    + destruct (fst (select_order_restaurant _ _ _)) as [|r0 rest];
        cbn [tick db calls fst snd].
      * destruct (Js.truthy_num (body_restaurant_id req)); cbn [tick db calls fst snd];
          [destruct (db_fails E (S (tick s)))|]; reflexivity.
      * destruct (Js.truthy_num r0); cbn [tick db calls fst snd];
          [destruct (db_fails E (S (tick s)))|]; reflexivity.
  - destruct (Js.truthy_num (body_restaurant_id req)); cbn [tick db calls fst snd];
      [destruct (db_fails E (tick s))|]; reflexivity.
Qed.

Lemma primary_writes_messages E req u s :
  chat_messages (db (primary_writes E req u s))
  = (chat_messages (db s)
       ++ [opening_message req u (next_ticket_id (db s)) (next_message_id (db s))
             (db_now E (S (tick s)));
           ai_message (next_ticket_id (db s)) (verdict_of E req)
             (next_message_id (db s) + 1) (db_now E (S (S (tick s))))])%list.
Proof. cbn. now rewrite <- app_assoc. Qed.

Lemma valid_ticket_request_fields req :
  valid_ticket_request req = true ->
  Js.truthy_str (body_ticket_type req) = true
  /\ Js.truthy_str (body_subject req) = true
  /\ Js.truthy_str (body_description req) = true.
Proof.
  unfold valid_ticket_request. intros H.
  apply andb_true_iff in H. destruct H as [H Hd].
  apply andb_true_iff in H. tauto.
Qed.

(** X1.  A creation request that lacks one of ticket_type, subject and
    description, or carries it empty, is answered 400 before anything
    else happens: no statement is issued, the classifier is not called
    and the state is the one the request found. *)
Theorem createTicket_rejects_missing_fields E req u s :
  req_user req = Some u -> valid_ticket_request req = false ->
  createTicket E req s = (Ok (Failure 400 "Missing required fields" None), s).
Proof.
  intros Hu Hv. unfold createTicket, try_catch, bind, the_user. rewrite Hu.
  unfold valid_ticket_request in Hv.
  destruct (Js.truthy_str (body_ticket_type req)); [|reflexivity].
  destruct (Js.truthy_str (body_subject req)); [|reflexivity].
  destruct (Js.truthy_str (body_description req)); [discriminate|reflexivity].
Qed.

Lemma createTicket_rejects_missing_fields_witness :
  let req := {| req_user := Some (caller 1 "student"); param_ticket_id := 0;
                body_order_id := None; body_restaurant_id := Some 9;
                body_ticket_type := Some "payment"; body_subject := Some "";
                body_description := Some "I was charged twice";
                body_priority := Some "urgent"; body_message_text := None;
                body_is_internal_note := None; query_status := None;
                query_priority := None |} in
  req_user req = Some (caller 1 "student")
  /\ valid_ticket_request req = false
  /\ createTicket (quiet true) req (boot campus)
     = (Ok (Failure 400 "Missing required fields" None), boot campus).
Proof.
  intros req. split; [reflexivity|]. split; [reflexivity|].
  exact (createTicket_rejects_missing_fields (quiet true) req (caller 1 "student")
           (boot campus) eq_refl eq_refl).
Defined.

(** X2.  When one of the four leading statements of a creation fails,
    the request is answered 500 with the engine's message as details.
    Nothing is undone: once the first statement ran, the ticket row stays
    in the store although the caller was told the creation failed.  No
    escalation and no complaint is written. *)
Theorem createTicket_store_failure E req u s k e :
  req_user req = Some u -> valid_ticket_request req = true ->
  (k < 4)%nat ->
  (forall j, (j < k)%nat -> db_fails E (tick s + j) = None) ->
  db_fails E (tick s + k) = Some e ->
  let r := createTicket E req s in
  fst r = Ok (Failure 500 "Failed to create support ticket" (Some e))
  /\ ticket_escalations (db (snd r)) = ticket_escalations (db s)
  /\ restaurant_complaints (db (snd r)) = restaurant_complaints (db s)
  /\ (k = 0%nat -> db (snd r) = db s)
  /\ ((0 < k)%nat ->
      support_tickets (db (snd r))
      = (support_tickets (db s)
           ++ [ticket_of_request E req u (next_ticket_id (db s)) (db_now E (tick s))])%list).
Proof.
  intros Hu Hv Hk Hok Hfail r.
  assert (H : exists s',
             r = (Ok (Failure 500 "Failed to create support ticket" (Some e)), s')
             /\ ticket_escalations (db s') = ticket_escalations (db s)
             /\ restaurant_complaints (db s') = restaurant_complaints (db s)
             /\ (k = 0%nat -> db s' = db s)
             /\ ((0 < k)%nat ->
                 support_tickets (db s')
                 = (support_tickets (db s)
                      ++ [ticket_of_request E req u (next_ticket_id (db s))
                            (db_now E (tick s))])%list)).
  2:{ destruct H as (s' & -> & H). exact (conj eq_refl H). }
  destruct (valid_ticket_request_fields req Hv) as (Ht & Hs & Hd).
  unfold r, createTicket.
  unfold try_catch at 1. unfold bind at 1. unfold the_user. rewrite Hu.
  rewrite Ht, Hs, Hd. cbn [negb orb].
  destruct k as [|k].
  { rewrite Nat.add_0_r in Hfail.
    unfold bind at 1. unfold execute at 1. rewrite Hfail. cbn.
    eexists. split; [reflexivity|]. cbn.
    split; [reflexivity|]. split; [reflexivity|].
    split; [reflexivity|intros H; lia]. }
  assert (F0 := Hok 0%nat ltac:(lia)). rewrite Nat.add_0_r in F0.
  unfold bind at 1. unfold execute at 1. rewrite F0. cbn [tick db calls].
  destruct k as [|k].
  { replace (tick s + 1)%nat with (S (tick s)) in Hfail by lia.
    unfold bind at 1. unfold execute at 1. cbn [tick db calls]. rewrite Hfail. cbn.
    eexists. split; [reflexivity|]. cbn.
    split; [reflexivity|]. split; [reflexivity|].
    split; [discriminate|intros _; reflexivity]. }
  assert (F1 := Hok 1%nat ltac:(lia)).
  replace (tick s + 1)%nat with (S (tick s)) in F1 by lia.
  unfold bind at 1. unfold execute at 1. cbn [tick db calls]. rewrite F1.
  cbn [tick db calls].
  unfold bind at 1. unfold classify at 1. unfold bind at 1, record_call at 1, ret at 1.
  cbn [tick db calls].
  destruct k as [|k].
  { replace (tick s + 2)%nat with (S (S (tick s))) in Hfail by lia.
    unfold bind at 1. unfold execute at 1. cbn [tick db calls]. rewrite Hfail. cbn.
    eexists. split; [reflexivity|]. cbn.
    split; [reflexivity|]. split; [reflexivity|].
    split; [discriminate|intros _; reflexivity]. }
  assert (F2 := Hok 2%nat ltac:(lia)).
  replace (tick s + 2)%nat with (S (S (tick s))) in F2 by lia.
  unfold bind at 1. unfold execute at 1. cbn [tick db calls]. rewrite F2.
  cbn [tick db calls].
  destruct k as [|k]; [|lia].
  replace (tick s + 3)%nat with (S (S (S (tick s)))) in Hfail by lia.
  unfold bind at 1. unfold execute at 1. cbn [tick db calls]. rewrite Hfail. cbn.
  eexists. split; [reflexivity|]. cbn.
  split; [reflexivity|]. split; [reflexivity|].
  split; [discriminate|intros _; reflexivity].
Qed.

Lemma createTicket_store_failure_witness :
  let E := failing_from 1 false in
  let req := ticket_request (Some "urgent") None (Some 9) in
  let r := createTicket E req (boot campus) in
  req_user req = Some (caller 1 "student")
  /\ valid_ticket_request req = true
  /\ (1 < 4)%nat
  /\ (forall j, (j < 1)%nat -> db_fails E (tick (boot campus) + j) = None)
  /\ db_fails E (tick (boot campus) + 1) = Some "ER_LOCK_WAIT_TIMEOUT"
  /\ fst r = Ok (Failure 500 "Failed to create support ticket"
                   (Some "ER_LOCK_WAIT_TIMEOUT"))
  /\ map st_ticket_id (support_tickets (db (snd r))) = [1]
  /\ chat_messages (db (snd r)) = [].
Proof.
  intros E req r.
  assert (H4 : forall j, (j < 1)%nat -> db_fails E (tick (boot campus) + j) = None).
  { intros j Hj. assert (j = 0%nat) as -> by lia. reflexivity. }
  destruct (createTicket_store_failure E req (caller 1 "student") (boot campus) 1
              "ER_LOCK_WAIT_TIMEOUT" eq_refl eq_refl ltac:(lia) H4 eq_refl)
    as (Hresp & _ & _ & _ & Hrow).
  split; [reflexivity|]. split; [reflexivity|]. split; [lia|]. split; [exact H4|].
  split; [reflexivity|]. split; [exact Hresp|].
  split; [|reflexivity].
  unfold r. rewrite (Hrow ltac:(lia)). reflexivity.
Defined.

(** X3.  A creation whose four leading statements run adds exactly one
    ticket, with the id it reports, and advances the ticket counter by
    one; it logs the classifier's verdict once; and it appends to the
    conversation the customer's opening message, then the classifier's
    reply, then at most one hand-off notice on the new ticket. *)
Theorem createTicket_records E req u s :
  req_user req = Some u -> valid_ticket_request req = true ->
  (forall k, (k < 4)%nat -> db_fails E (tick s + k) = None) ->
  let tid := next_ticket_id (db s) in
  let mid := next_message_id (db s) in
  let v := verdict_of E req in
  let r := createTicket E req s in
  fst r = Ok (TicketCreated tid (message v) (needsHuman v) "open")
  /\ map st_ticket_id (support_tickets (db (snd r)))
     = (map st_ticket_id (support_tickets (db s)) ++ [tid])%list
  /\ next_ticket_id (db (snd r)) = tid + 1
  /\ ai_bot_logs (db (snd r))
     = (ai_bot_logs (db s) ++ [ai_log tid (Js.text (body_description req)) v])%list
  /\ exists notices,
       chat_messages (db (snd r))
       = (chat_messages (db s)
            ++ opening_message req u tid mid (db_now E (S (tick s)))
            :: ai_message tid v (mid + 1) (db_now E (S (S (tick s))))
            :: notices)%list
       /\ (List.length notices <= 1)%nat
       /\ Forall (fun m => cm_message_text m = handoff_notice /\ cm_ticket_id m = tid)
                 notices.
Proof.
  intros Hu Hv NF tid mid v r.
  assert (Hrun := createTicket_run E req u s Hu Hv NF). cbv zeta in Hrun.
  fold tid (verdict_of E req) in Hrun. fold v r in Hrun.
  set (s4 := primary_writes E req u s) in *.
  set (s5 := snd (escalation_step E req tid v s4)) in *.
  assert (F : escalation_frame (db s4) (db s5)) by apply escalation_step_frame.
  destruct (projectComplaint_tables E req tid s5) as (Pt & Pm & _ & Pl & _).
  pose proof (projectComplaint_next_ticket E req tid s5) as Pn.
  destruct (escalation_step_notices E req tid v s4) as (notices & Hm & Hlen & Hall).
  fold s5 in Hm.
  rewrite Hrun. cbn [fst snd].
  split; [reflexivity|]. split; [|split; [|split]].
  - rewrite Pt, (frame_ticket_ids _ _ F). unfold s4.
    rewrite primary_writes_tickets, map_app. reflexivity.
  - rewrite Pn, (frame_next_ticket _ _ F). reflexivity.
  - rewrite Pl, (frame_logs _ _ F). reflexivity.
  - exists notices. split; [|split; assumption].
    rewrite Pm, Hm. unfold s4. rewrite primary_writes_messages.
    rewrite <- app_assoc. reflexivity.
Qed.

Lemma createTicket_records_witness :
  let E := quiet true in
  let req := ticket_request None None None in
  let r := createTicket E req (boot campus) in
  req_user req = Some (caller 1 "student")
  /\ valid_ticket_request req = true
  /\ (forall k, (k < 4)%nat -> db_fails E (tick (boot campus) + k) = None)
  /\ map st_ticket_id (support_tickets (db (snd r))) = [1]
  /\ List.length (ai_bot_logs (db (snd r))) = 1%nat
  /\ map (fun m => (cm_message_id m, cm_sender_type m, cm_created_at m))
         (chat_messages (db (snd r)))
     = [(1, "customer", 1001); (2, "ai_bot", 1002); (3, "ai_bot", 1006)].
Proof.
  intros E req r.
  assert (H3 : forall k, (k < 4)%nat -> db_fails E (tick (boot campus) + k) = None)
    by (intros k _; reflexivity).
  destruct (createTicket_records E req (caller 1 "student") (boot campus)
              eq_refl eq_refl H3) as (_ & Hids & _ & Hlogs & _).
  split; [reflexivity|]. split; [reflexivity|]. split; [exact H3|].
  split; [exact Hids|]. split; [unfold r; rewrite Hlogs; reflexivity|].
  reflexivity.
Defined.

(** X4.  A creation calls the classifier exactly once, on the description
    and the category, and calls [escalateToHuman] at most once, after it:
    exactly when the verdict asks for a human or the priority is urgent.
    The reason it passes names the verdict whenever the verdict asks for
    a human, also for an urgent ticket. *)
Theorem createTicket_calls E req u s :
  req_user req = Some u -> valid_ticket_request req = true ->
  (forall k, (k < 4)%nat -> db_fails E (tick s + k) = None) ->
  let v := verdict_of E req in
  calls (snd (createTicket E req s))
  = (calls s
       ++ CallClassifier (Js.text (body_description req)) (Js.text (body_ticket_type req))
       :: (if needsHuman v || is_urgent (body_priority req)
           then [CallEscalate (next_ticket_id (db s))
                   (if needsHuman v then "Auto-escalation: AI confidence low"
                    else "Auto-escalation: Urgent priority")]
           else []))%list.
Proof.
  intros Hu Hv NF v.
  assert (Hrun := createTicket_run E req u s Hu Hv NF). cbv zeta in Hrun.
  fold (verdict_of E req) in Hrun. fold v in Hrun.
  rewrite Hrun. cbn [snd].
  rewrite projectComplaint_calls, escalation_step_calls.
  cbn [primary_writes calls]. rewrite <- app_assoc. cbn [app].
  unfold escalation_reason. destruct (needsHuman v); reflexivity.
Qed.

Lemma createTicket_calls_witness :
  let E := quiet true in
  let req := ticket_request (Some "urgent") None None in
  req_user req = Some (caller 1 "student")
  /\ valid_ticket_request req = true
  /\ (forall k, (k < 4)%nat -> db_fails E (tick (boot campus) + k) = None)
  /\ calls (snd (createTicket E req (boot campus)))
     = [CallClassifier "I was charged twice" "payment";
        CallEscalate 1 "Auto-escalation: AI confidence low"].
Proof.
  intros E req.
  assert (H3 : forall k, (k < 4)%nat -> db_fails E (tick (boot campus) + k) = None)
    by (intros k _; reflexivity).
  split; [reflexivity|]. split; [reflexivity|]. split; [exact H3|].
  exact (createTicket_calls E req (caller 1 "student") (boot campus) eq_refl eq_refl H3).
Defined.

(** X5.  When the verdict does not ask for a human and the priority is
    not the text urgent, a creation leaves the new ticket open and
    unassigned, writes no escalation record, calls no escalation and adds
    no hand-off notice: the conversation gains the opening message and
    the classifier's reply only. *)
Theorem createTicket_without_escalation E req u s :
  req_user req = Some u -> valid_ticket_request req = true ->
  (forall k, (k < 4)%nat -> db_fails E (tick s + k) = None) ->
  needsHuman (verdict_of E req) = false -> body_priority req <> Some "urgent" ->
  let tid := next_ticket_id (db s) in
  let mid := next_message_id (db s) in
  let r := createTicket E req s in
  support_tickets (db (snd r))
  = (support_tickets (db s) ++ [ticket_of_request E req u tid (db_now E (tick s))])%list
  /\ ticket_escalations (db (snd r)) = ticket_escalations (db s)
  /\ chat_messages (db (snd r))
     = (chat_messages (db s)
          ++ [opening_message req u tid mid (db_now E (S (tick s)));
              ai_message tid (verdict_of E req) (mid + 1) (db_now E (S (S (tick s))))])%list
  /\ calls (snd r)
     = (calls s ++ [CallClassifier (Js.text (body_description req))
                      (Js.text (body_ticket_type req))])%list.
Proof.
  intros Hu Hv NF Hn Hp tid mid r.
  assert (Hrun := createTicket_run E req u s Hu Hv NF). cbv zeta in Hrun.
  fold tid (verdict_of E req) in Hrun. fold r in Hrun.
  assert (Hq : is_urgent (body_priority req) = false).
  { unfold is_urgent. destruct (body_priority req) as [p|]; [|reflexivity].
    apply String.eqb_neq. intros ->. now apply Hp. }
  rewrite (escalation_step_idle E req tid _ _ Hn Hq) in Hrun. cbn [snd] in Hrun.
  destruct (projectComplaint_tables E req tid (primary_writes E req u s))
    as (Pt & Pm & Pe & _ & _).
  rewrite Hrun. cbn [snd].
  split; [|split; [|split]].
  - rewrite Pt. apply primary_writes_tickets.
  - rewrite Pe. reflexivity.
  - rewrite Pm. apply primary_writes_messages.
  - rewrite projectComplaint_calls. reflexivity.
Qed.

Lemma createTicket_without_escalation_witness :
  let E := quiet false in
  let req := ticket_request (Some "URGENT") None None in
  let r := createTicket E req (boot campus) in
  req_user req = Some (caller 1 "student")
  /\ valid_ticket_request req = true
  /\ (forall k, (k < 4)%nat -> db_fails E (tick (boot campus) + k) = None)
  /\ needsHuman (verdict_of E req) = false
  /\ body_priority req <> Some "urgent"
  /\ map (fun t => (st_ticket_id t, st_priority t, st_status t, st_assigned_to t))
         (support_tickets (db (snd r)))
     = [(1, db_off_enum E "URGENT", "open", None)]
  /\ ticket_escalations (db (snd r)) = [].
Proof.
  intros E req r.
  assert (H3 : forall k, (k < 4)%nat -> db_fails E (tick (boot campus) + k) = None)
    by (intros k _; reflexivity).
  assert (H5 : body_priority req <> Some "urgent") by discriminate.
  destruct (createTicket_without_escalation E req (caller 1 "student") (boot campus)
              eq_refl eq_refl H3 eq_refl H5) as (Ht & He & _).
  split; [reflexivity|]. split; [reflexivity|]. split; [exact H3|].
  split; [reflexivity|]. split; [exact H5|].
  split; [unfold r; rewrite Ht; reflexivity|exact He].
Defined.

(** ** Escalation, beyond the claims *)

Lemma assign_row_others a tid now l :
  filter (fun t => negb (st_ticket_id t =? tid)) (map (assign_row a tid now) l)
  = filter (fun t => negb (st_ticket_id t =? tid)) l.
Proof.
  induction l as [|t l IH]; [reflexivity|]. cbn [map filter].
  unfold assign_row at 1 2.
  destruct (st_ticket_id t =? tid) eqn:Ht; cbn [st_ticket_id negb]; rewrite Ht;
    cbn [negb]; now rewrite IH.
Qed.

Lemma escalateToHuman_others E tid reason s :
  filter (fun t => negb (st_ticket_id t =? tid))
         (support_tickets (db (snd (escalateToHuman E tid reason s))))
  = filter (fun t => negb (st_ticket_id t =? tid)) (support_tickets (db s)).
Proof.
  unfold escalateToHuman, bind, try_catch, record_call, execute, ret. cbn [tick db calls].
  destruct (db_fails E (tick s)); [reflexivity|].
  rewrite select_least_loaded_agent_db.
  destruct (fst (select_least_loaded_agent _ _)) as [|agent rest]; [reflexivity|].
  cbn [tick db calls fst snd].
  destruct (db_fails E (S (tick s))); [reflexivity|].
  cbn [tick db calls fst snd].
  destruct (db_fails E (S (S (tick s)))); cbn [tick db calls fst snd];
    [apply assign_row_others|].
  destruct (db_fails E (S (S (S (tick s))))); cbn [tick db calls fst snd];
    apply assign_row_others.
Qed.

(** X6.  [escalateToHuman] keeps every failure to itself: whatever the
    server does with its statements, the call returns normally.  It is
    recorded once; it leaves users, restaurants, orders, classifier logs
    and complaints as they were, keeps the id and the priority of every
    ticket, and changes no ticket other than the one it was called for. *)
Theorem escalateToHuman_contained E ticketId reason s :
  let r := escalateToHuman E ticketId reason s in
  fst r = Ok tt
  /\ calls (snd r) = (calls s ++ [CallEscalate ticketId reason])%list
  /\ escalation_frame (db s) (db (snd r))
  /\ filter (fun t => negb (st_ticket_id t =? ticketId)) (support_tickets (db (snd r)))
     = filter (fun t => negb (st_ticket_id t =? ticketId)) (support_tickets (db s)).
Proof.
  cbv zeta. split; [apply escalateToHuman_ok|].
  split; [apply escalateToHuman_calls|].
  split; [apply escalateToHuman_frame|apply escalateToHuman_others].
Qed.

(** X7.  An escalation is not atomic.  When the assignment statement
    runs and the statement after it fails, the call still returns
    normally, and the ticket stays assigned to the chosen agent although
    no hand-off notice and no escalation record exist for it. *)
Theorem escalateToHuman_not_atomic E ticketId reason s a e :
  db_fails E (tick s) = None -> chosen_agent (db s) = Some a ->
  db_fails E (S (tick s)) = None -> db_fails E (S (S (tick s))) = Some e ->
  let r := escalateToHuman E ticketId reason s in
  fst r = Ok tt
  /\ support_tickets (db (snd r))
     = map (assign_row a ticketId (db_now E (S (tick s)))) (support_tickets (db s))
  /\ chat_messages (db (snd r)) = chat_messages (db s)
  /\ ticket_escalations (db (snd r)) = ticket_escalations (db s).
Proof.
  intros F0 Hc F1 F2 r.
  assert (H : r = (Ok tt,
                   {| db := snd (update_assign_ticket a ticketId (db_now E (S (tick s)))
                                   (db s));
                      tick := S (S (S (tick s)));
                      calls := calls s ++ [CallEscalate ticketId reason] |})).
  { rewrite (chosen_agent_select (db_now E (tick s))) in Hc.
    unfold r, escalateToHuman, bind, try_catch, record_call, execute, ret.
    cbn [tick db calls]. rewrite F0, select_least_loaded_agent_db.
    destruct (fst (select_least_loaded_agent _ _)) as [|agent rest]; [discriminate|].
    injection Hc as <-. cbn [tick db calls]. rewrite F1. cbn [tick db calls].
    rewrite F2. reflexivity. }
  rewrite H. repeat split.
Qed.

Lemma escalateToHuman_not_atomic_witness :
  let E := failing_from 2 true in
  let r := escalateToHuman E 1 "AI escalation recommended" (boot noted) in
  db_fails E (tick (boot noted)) = None
  /\ chosen_agent (db (boot noted)) = Some 5
  /\ db_fails E (S (tick (boot noted))) = None
  /\ db_fails E (S (S (tick (boot noted)))) = Some "ER_LOCK_WAIT_TIMEOUT"
  /\ fst r = Ok tt
  /\ map (fun t => (st_ticket_id t, st_status t, st_assigned_to t))
         (support_tickets (db (snd r))) = [(1, "assigned", Some 5)]
  /\ ticket_escalations (db (snd r)) = [].
Proof.
  intros E r.
  destruct (escalateToHuman_not_atomic E 1 "AI escalation recommended" (boot noted) 5
              "ER_LOCK_WAIT_TIMEOUT" eq_refl eq_refl eq_refl eq_refl)
    as (Hok & Ht & _ & He).
  split; [reflexivity|]. split; [reflexivity|]. split; [reflexivity|].
  split; [reflexivity|]. split; [exact Hok|].
  split; [unfold r; rewrite Ht; reflexivity|exact He].
Defined.

(** ** Posting a message, beyond the claims *)







(** X8.  A post whose text is absent, empty or blank is answered 400
    before anything else happens: no statement is issued and the state is
    the one the request found, whoever the caller is. *)
Theorem sendMessage_rejects_blank E req u s :
  req_user req = Some u -> blank (body_message_text req) = true ->
  sendMessage E req s = (Ok (Failure 400 "Message text is required" None), s).
Proof.
  intros Hu Hb. unfold sendMessage, try_catch, bind, the_user. now rewrite Hu, Hb.
Qed.

Lemma sendMessage_rejects_blank_witness :
  let tab := String (ascii_of_nat 9) EmptyString in
  let req := message_request (caller 5 "support_agent") 1 (" " ++ tab ++ " ") in
  req_user req = Some (caller 5 "support_agent")
  /\ blank (body_message_text req) = true
  /\ sendMessage (quiet true) req (boot noted)
     = (Ok (Failure 400 "Message text is required" None), boot noted).
Proof.
  intros tab req. split; [reflexivity|]. split; [reflexivity|].
  exact (sendMessage_rejects_blank (quiet true) req (caller 5 "support_agent")
           (boot noted) eq_refl eq_refl).
Defined.


(** X10.  The message a post stores carries the caller as sender, the
    text as posted and the internal-note flag as requested, whatever the
    caller's role.  Its sender type is customer, support_agent or
    senior_support: an admin is recorded as senior_support, and every role
    outside the three agent roles, a vendor as much as a student, is
    recorded as customer. *)
Theorem sendMessage_sender_type E req u s :
  no_faults E -> req_user req = Some u -> Js.inherited (user_type u) = false ->
  blank (body_message_text req) = false ->
  exists m rest,
    chat_messages (db (snd (sendMessage E req s)))
    = (chat_messages (db s) ++ m :: rest)%list
    /\ cm_ticket_id m = param_ticket_id req
    /\ cm_sender_id m = Some (user_id u)
    /\ cm_message_text m = Js.text (body_message_text req)
    /\ cm_is_internal_note m = flag (body_is_internal_note req)
    /\ In (cm_sender_type m) ["customer"; "support_agent"; "senior_support"]
    /\ (cm_sender_type m = "customer" <-> ~ In (user_type u) agent_roles)
    /\ (user_type u = "admin" -> cm_sender_type m = "senior_support").
Proof.
  intros NF Hu _ Hb.
  rewrite (sendMessage_run E req u s Hu Hb (NF _) (NF _)).
  destruct (ai_followup_total E req u (after_post E req u s) NF) as (s' & rest & -> & Hm).
  exists (posted_message req u (next_message_id (db s)) (db_now E (tick s))), rest.
  cbn [snd]. split; [rewrite Hm; cbn; now rewrite <- app_assoc|].
  cbn [posted_message cm_ticket_id cm_sender_id cm_message_text cm_is_internal_note
       cm_sender_type].
  split; [reflexivity|]. split; [reflexivity|]. split; [reflexivity|].
  split; [reflexivity|].
  unfold senderTypeMap, agent_roles. cbn [lookup In].
  destruct (String.eqb_spec (user_type u) "student") as [->|H1].
  { split; [now left|]. split; [|discriminate].
    split; [intros _; intuition discriminate|reflexivity]. }
  destruct (String.eqb_spec (user_type u) "support_agent") as [->|H2].
  { split; [right; now left|]. split; [|discriminate].
    split; [discriminate|intros H; exfalso; apply H; now left]. }
  destruct (String.eqb_spec (user_type u) "senior_support") as [->|H3].
  { split; [right; right; now left|]. split; [|discriminate].
    split; [discriminate|intros H; exfalso; apply H; right; now left]. }
  destruct (String.eqb_spec (user_type u) "admin") as [->|H4].
  { split; [right; right; now left|]. split; [|reflexivity].
    split; [discriminate|intros H; exfalso; apply H; right; right; now left]. }
  split; [now left|]. split; [|contradiction].
  split; [intros _; intuition congruence|reflexivity].
Qed.

Lemma sendMessage_sender_type_witness :
  let E := quiet false in
  let req := message_request (caller 30 "vendor") 1 "We will look at the order." in
  no_faults E
  /\ req_user req = Some (caller 30 "vendor")
  /\ Js.inherited "vendor" = false
  /\ blank (body_message_text req) = false
  /\ map (fun m => (cm_message_id m, cm_sender_id m, cm_sender_type m))
         (chat_messages (db (snd (sendMessage E req (boot noted)))))
     = [(1, Some 1, "customer"); (2, Some 5, "support_agent"); (3, Some 30, "customer")]
  /\ exists m rest,
       chat_messages (db (snd (sendMessage E req (boot noted))))
       = (chat_messages noted ++ m :: rest)%list
       /\ cm_sender_type m = "customer".
Proof.
  intros E req.
  assert (H1 : no_faults E) by (intros n; reflexivity).
  destruct (sendMessage_sender_type E req (caller 30 "vendor") (boot noted)
              H1 eq_refl eq_refl eq_refl)
    as (m & rest & Hm & _ & _ & _ & _ & _ & Hc & _).
  split; [exact H1|]. split; [reflexivity|]. split; [reflexivity|].
  split; [reflexivity|]. split; [reflexivity|].
  exists m, rest. split; [exact Hm|].
  apply Hc. cbn. intuition discriminate.
Defined.

(** X11.  A post is not atomic either.  When the store fails on the
    first statement, the answer is 500 and nothing was written.  When the
    two leading statements run and the next one fails (a student's post
    always issues it), the answer is again 500, without details, although
    the message is stored and the ticket row was updated. *)
Theorem sendMessage_store_failure E req u s e :
  req_user req = Some u -> Js.inherited (user_type u) = false ->
  blank (body_message_text req) = false ->
  let r := sendMessage E req s in
  (db_fails E (tick s) = Some e ->
   fst r = Ok (Failure 500 "Failed to send message" None) /\ db (snd r) = db s)
  /\ (user_type u = "student" ->
      db_fails E (tick s) = None -> db_fails E (S (tick s)) = None ->
      db_fails E (S (S (tick s))) = Some e ->
      fst r = Ok (Failure 500 "Failed to send message" None)
      /\ db (snd r) = db (after_post E req u s)
      /\ chat_messages (db (snd r))
         = (chat_messages (db s)
              ++ [posted_message req u (next_message_id (db s)) (db_now E (tick s))])%list).
Proof.
  intros Hu _ Hb r. split.
  - intros F0. unfold r, sendMessage, try_catch, bind, the_user, execute.
    rewrite Hu, Hb, F0. split; reflexivity.
  - intros Hst F0 F1 F2. unfold r.
    rewrite (sendMessage_run E req u s Hu Hb F0 F1).
    assert (H : ai_followup E req u (after_post E req u s)
                = (Throw e, skip_select (after_post E req u s))).
    { unfold ai_followup. rewrite Hst.
      change (("student" =? "student")%string) with true. cbv iota.
      unfold bind, execute. cbn [after_post tick]. rewrite F2. reflexivity. }
    rewrite H. cbn [fst snd skip_select db].
    split; [reflexivity|]. split; reflexivity.
Qed.

Lemma sendMessage_store_failure_witness :
  let E := failing_from 2 false in
  let req := message_request (caller 1 "student") 1 "Any news?" in
  let r := sendMessage E req (boot noted) in
  req_user req = Some (caller 1 "student")
  /\ Js.inherited "student" = false
  /\ blank (body_message_text req) = false
  /\ fst r = Ok (Failure 500 "Failed to send message" None)
  /\ map cm_message_text (chat_messages (db (snd r)))
     = ["I was charged twice"; "Refund pending approval"; "Any news?"].
Proof.
  intros E req r.
  destruct (sendMessage_store_failure E req (caller 1 "student") (boot noted)
              "ER_LOCK_WAIT_TIMEOUT" eq_refl eq_refl eq_refl) as (_ & H).
  destruct (H eq_refl eq_refl eq_refl eq_refl) as (Hresp & _ & Hm).
  split; [reflexivity|]. split; [reflexivity|]. split; [reflexivity|].
  split; [exact Hresp|]. unfold r. rewrite Hm. reflexivity.
Defined.

(** ** The read paths, beyond the claims *)

Lemma left_join_snd {A B} (on : A -> B -> bool) l r a b :
  In (a, Some b) (left_join on l r) -> In b r /\ on a b = true.
Proof.
  unfold left_join. intros H. apply in_flat_map in H. destruct H as (a' & _ & Hr).
  destruct (filter (on a') r) as [|m ms] eqn:Hf.
  - destruct Hr as [Hr|[]]. discriminate.
  - apply in_map_iff in Hr. destruct Hr as (b' & [= -> ->] & Hb).
    rewrite <- Hf in Hb. now apply filter_In in Hb.
Qed.

Lemma inner_join_In {A B} (on : A -> B -> bool) l r a b :
  In (a, b) (inner_join on l r) <-> In a l /\ In b r /\ on a b = true.
Proof.
  unfold inner_join. rewrite in_flat_map. split.
  - intros (a' & Ha & H). apply in_map_iff in H. destruct H as (b' & [= -> ->] & Hb).
    apply filter_In in Hb. tauto.
  - intros (Ha & Hb & Hon). exists a. split; [exact Ha|].
    apply in_map_iff. exists b. split; [reflexivity|]. now apply filter_In.
Qed.

Lemma limit_In {A} n (l : list A) x : In x (limit n l) -> In x l.
Proof.
  unfold limit. intros H. rewrite <- (firstn_skipn n l). apply in_or_app. now left.
Qed.

Lemma limit_sorted {A} (R : A -> A -> Prop) n l :
  StronglySorted R l -> StronglySorted R (limit n l).
Proof.
  unfold limit. intros H. revert n.
  induction H as [|a l _ IH Hall]; intros [|n]; cbn; try constructor.
  - apply IH.
  - rewrite Forall_forall in *. intros x Hx. apply Hall.
    now apply (limit_In n l x).
Qed.

Section SortKeys.
Context {A : Type} (key : A -> Z).

Lemma key_asc_sorted l :
  StronglySorted (fun a b => key a <= key b) (order_by (fun a b => key a <=? key b) l).
Proof.
  eapply StronglySorted_weaken.
  2: apply (order_by_sorted (fun a b => key a <=? key b)).
  - intros a b H. now apply Z.leb_le.
  - intros a b. cbn. lia.
  - intros a b c. cbn. lia.
Qed.

Lemma key_desc_sorted l :
  StronglySorted (fun a b => key b <= key a) (order_by (fun a b => key b <=? key a) l).
Proof.
  eapply StronglySorted_weaken.
  2: apply (order_by_sorted (fun a b => key b <=? key a)).
  - intros a b H. now apply Z.leb_le.
  - intros a b. cbn. lia.
  - intros a b c. cbn. lia.
Qed.

End SortKeys.

Lemma try_catch_total {A} (m : M A) (f : string -> A) s :
  exists a, fst (try_catch m (fun e => ret (f e)) s) = Ok a.
Proof.
  unfold try_catch, ret. destruct (m s) as [[a|e] s']; cbn; eexists; reflexivity.
Qed.

Lemma owned_ticket_none tid uid d :
  fst (select_owned_ticket tid uid 0 d) = []
  <-> forall t, In t (support_tickets d) -> st_ticket_id t = tid -> st_user_id t <> uid.
Proof.
  cbn [select_owned_ticket query fst]. split.
  - intros H t Ht Hid Hown. apply map_eq_nil in H.
    assert (Hin : In t (filter (fun st => (st_ticket_id st =? tid)
                                           && (st_user_id st =? uid)) (support_tickets d))).
    { apply filter_In. split; [exact Ht|]. apply andb_true_iff.
      split; now apply Z.eqb_eq. }
    rewrite H in Hin. contradiction.
  - intros H. rewrite filter_none; [reflexivity|]. intros t Ht.
    destruct (Z.eqb_spec (st_ticket_id t) tid) as [Hid|]; [|reflexivity].
    destruct (Z.eqb_spec (st_user_id t) uid) as [Hown|]; [|reflexivity].
    exfalso. exact (H t Ht Hid Hown).
Qed.

Lemma length_zero {A} (l : list A) : Nat.eqb (List.length l) 0 = true <-> l = [].
Proof. destruct l; cbn; split; congruence. Qed.

Lemma ticket_messages_In tid role d row :
  In row (fst (select_ticket_messages tid role 0 d))
  <-> In row (left_join sender_on (chat_messages d) (users d))
      /\ readable_by role tid (fst row).
Proof.
  cbn [select_ticket_messages query fst]. rewrite order_by_In, filter_In.
  unfold readable_by, agent_roles.
  rewrite andb_true_iff, orb_true_iff, negb_true_iff, Z.eqb_eq. reflexivity.
Qed.

Lemma getTicketMessages_allowed E req u s :
  no_faults E -> req_user req = Some u ->
  (user_type u = "student" ->
   exists t, In t (support_tickets (db s))
             /\ st_ticket_id t = param_ticket_id req /\ st_user_id t = user_id u) ->
  fst (getTicketMessages E req s)
  = Ok (MessageList (fst (select_ticket_messages (param_ticket_id req) (user_type u)
                            0 (db s)))).
Proof.
  intros NF Hu Hown.
  rewrite (getTicketMessages_response E req u s NF Hu).
  assert (Hgo : (user_type u =? "student")%string
                && Nat.eqb (List.length (fst (select_owned_ticket (param_ticket_id req)
                                                (user_id u) 0 (db s)))) 0 = false).
  { destruct (String.eqb_spec (user_type u) "student") as [Hst|]; [|reflexivity].
    cbn [andb]. destruct (Nat.eqb _ 0) eqn:Hz; [|reflexivity].
    apply length_zero in Hz. pose proof (proj1 (owned_ticket_none _ _ _) Hz) as Hno.
    destruct (Hown Hst) as (t & Ht & Hid & Ho). destruct (Hno t Ht Hid Ho). }
  now rewrite Hgo.
Qed.

Lemma ticket_messages_rows tid role d :
  let messages := fst (select_ticket_messages tid role 0 d) in
  (forall m, In m (map fst messages)
             <-> In m (chat_messages d) /\ readable_by role tid m)
  /\ StronglySorted (fun a b => cm_created_at (fst a) <= cm_created_at (fst b)) messages
  /\ (forall m sender, In (m, Some sender) messages ->
        In sender (users d) /\ cm_sender_id m = Some (u_user_id sender)).
Proof.
  intros messages. split; [|split].
  - intros m. rewrite in_map_iff. split.
    + intros (row & <- & Hrow). apply ticket_messages_In in Hrow.
      destruct Hrow as [Hj Hr]. split; [|exact Hr]. now apply left_join_fst in Hj.
    + intros [Hm Hr].
      destruct (left_join_covers sender_on _ (users d) m Hm) as [ou Hj].
      exists (m, ou). split; [reflexivity|]. apply ticket_messages_In. now split.
  - apply (key_asc_sorted (fun row : message_view => cm_created_at (fst row))).
  - intros m sender Hin. apply ticket_messages_In in Hin. destruct Hin as [Hj _].
    apply left_join_snd in Hj. destruct Hj as [Hs Hon]. split; [exact Hs|].
    unfold sender_on, col_eq in Hon. destruct (cm_sender_id m) as [i|]; [|discriminate].
    apply Z.eqb_eq in Hon. now subst.
Qed.

(** X12.  The listing a caller obtains (a student their own ticket's, any
    other role any ticket's) holds exactly the messages of that ticket
    which the role may read: all of them for support_agent,
    senior_support and admin, those that are no internal notes for
    everyone else.  It is sorted by creation time, oldest first, and a
    message comes with the user row of its sender. *)
Theorem getTicketMessages_listing E req u s :
  no_faults E -> req_user req = Some u ->
  (user_type u = "student" ->
   exists t, In t (support_tickets (db s))
             /\ st_ticket_id t = param_ticket_id req /\ st_user_id t = user_id u) ->
  exists messages,
    fst (getTicketMessages E req s) = Ok (MessageList messages)
    /\ (forall m, In m (map fst messages)
                  <-> In m (chat_messages (db s))
                      /\ readable_by (user_type u) (param_ticket_id req) m)
    /\ StronglySorted (fun a b => cm_created_at (fst a) <= cm_created_at (fst b)) messages
    /\ (forall m sender, In (m, Some sender) messages ->
          In sender (users (db s)) /\ cm_sender_id m = Some (u_user_id sender)).
Proof.
  intros NF Hu Hown. eexists.
  split; [exact (getTicketMessages_allowed E req u s NF Hu Hown)|].
  apply ticket_messages_rows.
Qed.

Lemma getTicketMessages_listing_witness :
  let E := quiet false in
  let read u := fst (getTicketMessages E (request_of u 1) (boot noted)) in
  let texts r := match r with
                 | Ok (MessageList ms) => map (fun row => cm_message_text (fst row)) ms
                 | _ => []
                 end in
  no_faults E
  /\ (exists t, In t (support_tickets noted) /\ st_ticket_id t = 1 /\ st_user_id t = 1)
  /\ texts (read (caller 1 "student")) = ["I was charged twice"]
  /\ texts (read (caller 5 "support_agent"))
     = ["I was charged twice"; "Refund pending approval"]
  /\ exists messages,
       read (caller 1 "student") = Ok (MessageList messages)
       /\ StronglySorted (fun a b => cm_created_at (fst a) <= cm_created_at (fst b))
                         messages.
Proof.
  intros E read texts.
  assert (H1 : no_faults E) by (intros n; reflexivity).
  assert (H2 : exists t, In t (support_tickets (db (boot noted)))
                         /\ st_ticket_id t = param_ticket_id (request_of (caller 1 "student") 1)
                         /\ st_user_id t = user_id (caller 1 "student")).
  { eexists. split; [left; reflexivity|]. split; reflexivity. }
  destruct (getTicketMessages_listing E (request_of (caller 1 "student") 1)
              (caller 1 "student") (boot noted) H1 eq_refl (fun _ => H2))
    as (messages & Hresp & _ & Hsorted & _).
  split; [exact H1|]. split; [exact H2|]. split; [reflexivity|]. split; [reflexivity|].
  exists messages. split; [exact Hresp|exact Hsorted].
Defined.

(** X13.  The listing is refused with 403 to exactly one kind of caller:
    a student who owns no ticket of the requested id.  A caller of any
    other role, a vendor included, is never refused, whoever owns the
    ticket. *)
Theorem getTicketMessages_access E req u s :
  no_faults E -> req_user req = Some u ->
  fst (getTicketMessages E req s) = Ok (Failure 403 "Access denied" None)
  <-> user_type u = "student"
      /\ forall t, In t (support_tickets (db s)) ->
           st_ticket_id t = param_ticket_id req -> st_user_id t <> user_id u.
Proof.
  intros NF Hu. rewrite (getTicketMessages_response E req u s NF Hu).
  rewrite <- owned_ticket_none, <- length_zero.
  destruct (String.eqb_spec (user_type u) "student") as [Hst|Hst]; cbn [andb].
  - destruct (Nat.eqb _ 0); split; try tauto; try discriminate.
    intros [_ H]. discriminate.
  - split; [discriminate|tauto].
Qed.

Lemma getTicketMessages_access_witness :
  let E := quiet false in
  no_faults E
  /\ req_user (request_of (caller 30 "vendor") 1) = Some (caller 30 "vendor")
  /\ fst (getTicketMessages E (request_of (caller 30 "vendor") 1) (boot noted))
     <> Ok (Failure 403 "Access denied" None)
  /\ fst (getTicketMessages E (request_of (caller 7 "student") 1) (boot noted))
     = Ok (Failure 403 "Access denied" None).
Proof.
  intros E.
  assert (H1 : no_faults E) by (intros n; reflexivity).
  split; [exact H1|]. split; [reflexivity|]. split.
  - intros H.
    apply (getTicketMessages_access E (request_of (caller 30 "vendor") 1)
             (caller 30 "vendor") (boot noted) H1 eq_refl) in H.
    destruct H as [H _]. discriminate.
  - reflexivity.
Defined.

(** X14.  The debug read of an id no ticket has is answered 404 after a
    single statement: the message and complaint queries are not issued. *)
Theorem debugTicket_not_found E req s :
  db_fails E (tick s) = None ->
  ~ In (param_ticket_id req) (map st_ticket_id (support_tickets (db s))) ->
  debugTicket E req s = (Ok (Failure 404 "Ticket not found" None), skip_select s).
Proof.
  intros F0 Hno. unfold debugTicket, try_catch, bind, execute. rewrite F0.
  cbn [select_debug_ticket query fst snd].
  rewrite filter_none; [reflexivity|].
  intros row Hrow. apply Z.eqb_neq. intros Hid. apply Hno.
  apply left_join_fst, left_join_fst in Hrow.
  apply in_map_iff. exists (fst (fst row)). now split.
Qed.

Lemma debugTicket_not_found_witness :
  let E := quiet false in
  let req := request_of (caller 5 "support_agent") 77 in
  db_fails E (tick (boot noted)) = None
  /\ ~ In (param_ticket_id req) (map st_ticket_id (support_tickets (db (boot noted))))
  /\ fst (debugTicket E req (boot noted)) = Ok (Failure 404 "Ticket not found" None)
  /\ tick (snd (debugTicket E req (boot noted))) = 1%nat.
Proof.
  intros E req.
  assert (H2 : ~ In (param_ticket_id req)
                    (map st_ticket_id (support_tickets (db (boot noted))))).
  { cbn. intuition discriminate. }
  split; [reflexivity|]. split; [exact H2|].
  rewrite (debugTicket_not_found E req (boot noted) eq_refl H2).
  split; reflexivity.
Defined.

(** X15.  The debug read of an existing ticket returns a row of that
    ticket, the complaints filed for it, and as messages exactly the
    list which the message listing gives a caller of role support_agent,
    senior_support or admin for the same ticket. *)
Theorem debugTicket_view E req s :
  no_faults E ->
  In (param_ticket_id req) (map st_ticket_id (support_tickets (db s))) ->
  exists ticket messages complaints,
    fst (debugTicket E req s) = Ok (DebugView ticket messages complaints)
    /\ In (fst (fst ticket)) (support_tickets (db s))
    /\ st_ticket_id (fst (fst ticket)) = param_ticket_id req
    /\ (forall c, In c complaints
                  <-> In c (restaurant_complaints (db s))
                      /\ rc_ticket_id c = param_ticket_id req)
    /\ (forall req' u', req_user req' = Some u' ->
          param_ticket_id req' = param_ticket_id req ->
          str_in (user_type u') agent_roles = true ->
          fst (getTicketMessages E req' s) = Ok (MessageList messages)).
Proof.
  intros NF Hex. unfold debugTicket.
  unfold try_catch at 1. unfold bind at 1. unfold execute at 1. rewrite NF.
  cbn [tick db calls].
  destruct (fst (select_debug_ticket _ _ _)) as [|ticket rest] eqn:Hsel.
  { exfalso. apply in_map_iff in Hex. destruct Hex as (t & Ht & Hin).
    destruct (left_join_covers (fun st u => st_user_id st =? u_user_id u)
                (support_tickets (db s)) (users (db s)) t Hin) as [ou H1].
    destruct (left_join_covers
                (fun row r => col_eq (st_restaurant_id (fst row)) (r_restaurant_id r))
                _ (restaurants (db s)) (t, ou) H1) as [orr H2].
    assert (Hin' : In (t, ou, orr) (fst (select_debug_ticket (param_ticket_id req)
                                           (db_now E (tick s)) (db s)))).
    { cbn [select_debug_ticket query fst]. apply filter_In. split; [exact H2|].
      cbn [fst]. now apply Z.eqb_eq. }
    rewrite Hsel in Hin'. contradiction. }
  assert (Hin : In ticket (fst (select_debug_ticket (param_ticket_id req)
                                  (db_now E (tick s)) (db s))))
    by (rewrite Hsel; now left).
  cbn [select_debug_ticket query fst] in Hin. apply filter_In in Hin.
  destruct Hin as [Hj Hid]. apply Z.eqb_eq in Hid.
  apply left_join_fst, left_join_fst in Hj.
  unfold bind at 1. unfold execute at 1. cbn [tick db calls]. rewrite NF.
  unfold bind at 1. unfold execute at 1. cbn [tick db calls]. rewrite NF.
  cbn [fst snd ret]. do 3 eexists. split; [reflexivity|].
  split; [exact Hj|]. split; [exact Hid|]. split.
  - intros c. cbn [select_ticket_complaints select_all_ticket_messages query fst snd].
    rewrite filter_In, Z.eqb_eq. reflexivity.
  - intros req' u' Hu' Hp Hrole.
    rewrite (getTicketMessages_response E req' u' s NF Hu').
    assert (Hst : (user_type u' =? "student")%string = false).
    { apply String.eqb_neq. intros Heq. rewrite Heq in Hrole. discriminate. }
    rewrite Hst, Hp. cbn [andb]. do 2 f_equal.
    cbn [select_ticket_messages select_all_ticket_messages select_debug_ticket
         query fst snd].
    f_equal. apply filter_ext. intros row.
    unfold agent_roles in Hrole. rewrite Hrole, orb_true_r, andb_true_r. reflexivity.
Qed.

Lemma debugTicket_view_witness :
  let E := quiet false in
  let req := request_of (caller 7 "student") 1 in
  no_faults E
  /\ In (param_ticket_id req) (map st_ticket_id (support_tickets (db (boot noted))))
  /\ exists ticket messages complaints,
       fst (debugTicket E req (boot noted)) = Ok (DebugView ticket messages complaints)
       /\ fst (getTicketMessages E (request_of (caller 5 "support_agent") 1) (boot noted))
          = Ok (MessageList messages).
Proof.
  intros E req.
  assert (H1 : no_faults E) by (intros n; reflexivity).
  assert (H2 : In (param_ticket_id req)
                  (map st_ticket_id (support_tickets (db (boot noted)))))
    by (now left).
  destruct (debugTicket_view E req (boot noted) H1 H2)
    as (ticket & messages & complaints & Hresp & _ & _ & _ & Hsame).
  split; [exact H1|]. split; [exact H2|].
  exists ticket, messages, complaints. split; [exact Hresp|].
  apply (Hsame (request_of (caller 5 "support_agent") 1) (caller 5 "support_agent"));
    reflexivity.
Defined.

(** X16.  A student's own listing holds exactly the tickets whose owner
    is the caller, each of them at least once, newest first. *)
Theorem getUserTickets_listing E req u s :
  db_fails E (tick s) = None -> req_user req = Some u ->
  exists tickets,
    fst (getUserTickets E req s) = Ok (OwnTicketList tickets)
    /\ (forall t, In t (map own_ticket_of tickets)
                  <-> In t (support_tickets (db s)) /\ st_user_id t = user_id u)
    /\ StronglySorted (fun a b => st_created_at (own_ticket_of b)
                                  <= st_created_at (own_ticket_of a)) tickets.
Proof.
  intros F0 Hu. unfold getUserTickets, try_catch, bind, the_user, execute, ret.
  rewrite Hu, F0. cbn [fst snd]. eexists. split; [reflexivity|].
  cbn [select_user_tickets query fst]. split.
  - intros t. rewrite in_map_iff. split.
    + intros (row & <- & Hrow). apply order_by_In, filter_In in Hrow.
      destruct Hrow as [Hj Hown]. apply Z.eqb_eq in Hown.
      apply left_join_fst, left_join_fst, left_join_fst in Hj. now split.
    + intros [Ht Hown].
      destruct (left_join_covers
                  (fun st r => col_eq (st_restaurant_id st) (r_restaurant_id r))
                  _ (restaurants (db s)) t Ht) as [r1 H1].
      destruct (left_join_covers
                  (fun (row : ticket_row * option restaurant_row) o =>
                     col_eq (st_order_id (fst row)) (o_order_id o))
                  _ (orders (db s)) _ H1) as [r2 H2].
      destruct (left_join_covers
                  (fun (row : ticket_row * option restaurant_row * option order_row) agent =>
                     col_eq (st_assigned_to (fst (fst row))) (u_user_id agent))
                  _ (users (db s)) _ H2) as [r3 H3].
      exists (t, r1, r2, r3). split; [reflexivity|].
      apply order_by_In, filter_In. split; [exact H3|]. now apply Z.eqb_eq.
  - apply (key_desc_sorted (fun row : own_ticket_view =>
                              st_created_at (fst (fst (fst row))))).
Qed.

Lemma getUserTickets_listing_witness :
  let E := quiet false in
  let req := request_of (caller 1 "student") 0 in
  db_fails E (tick (boot loaded)) = None
  /\ req_user req = Some (caller 1 "student")
  /\ exists tickets,
       fst (getUserTickets E req (boot loaded)) = Ok (OwnTicketList tickets)
       /\ map (fun row => st_ticket_id (own_ticket_of row)) tickets
          = [8; 7; 6; 5; 4; 3; 2; 1].
Proof.
  intros E req.
  destruct (getUserTickets_listing E req (caller 1 "student") (boot loaded)
              eq_refl eq_refl) as (tickets & Hresp & _ & _).
  split; [reflexivity|]. split; [reflexivity|].
  exists tickets. split; [exact Hresp|].
  assert (Ht : Ok (OwnTicketList tickets)
               = fst (getUserTickets E req (boot loaded))) by (now rewrite Hresp).
  vm_compute in Ht. injection Ht as ->. reflexivity.
Defined.

(** X17.  A vendor's listing holds at most fifty rows, newest complaint
    first.  Every row joins a complaint of the store with the ticket it
    was filed for and with the restaurant it was filed against, and that
    restaurant is one of the caller's. *)
Theorem getRestaurantComplaints_listing E req u s :
  db_fails E (tick s) = None -> req_user req = Some u ->
  exists complaints,
    fst (getRestaurantComplaints E req s) = Ok (ComplaintList complaints)
    /\ (List.length complaints <= 50)%nat
    /\ (forall rc st r, In (rc, st, r) complaints ->
          In rc (restaurant_complaints (db s)) /\ In st (support_tickets (db s))
          /\ In r (restaurants (db s))
          /\ st_ticket_id st = rc_ticket_id rc
          /\ r_restaurant_id r = rc_restaurant_id rc
          /\ r_vendor_id r = user_id u)
    /\ StronglySorted (fun a b => rc_created_at (fst (fst b)) <= rc_created_at (fst (fst a)))
                      complaints.
Proof.
  intros F0 Hu. unfold getRestaurantComplaints, try_catch, bind, the_user, execute, ret.
  rewrite Hu, F0. cbn [fst snd]. eexists. split; [reflexivity|].
  cbn [select_restaurant_complaints query fst]. split; [|split].
  - unfold limit. apply firstn_le_length.
  - intros rc st r Hin. apply limit_In, order_by_In, filter_In in Hin.
    destruct Hin as [Hj Hv]. cbn [snd] in Hv. apply Z.eqb_eq in Hv.
    apply inner_join_In in Hj. destruct Hj as (Hj & Hr & Hon). cbn [fst] in Hon.
    apply inner_join_In in Hj. destruct Hj as (Hrc & Hst & Hon').
    apply Z.eqb_eq in Hon, Hon'. repeat split; auto.
  - apply limit_sorted.
    apply (key_desc_sorted (fun row : complaint_view => rc_created_at (fst (fst row)))).
Qed.

Lemma getRestaurantComplaints_listing_witness :
  let E := quiet false in
  let filed := snd (createTicket E (ticket_request None (Some 40) None) (boot campus)) in
  let req := request_of (caller 30 "vendor") 0 in
  db_fails E (tick filed) = None
  /\ req_user req = Some (caller 30 "vendor")
  /\ exists complaints,
       fst (getRestaurantComplaints E req filed) = Ok (ComplaintList complaints)
       /\ map (fun row : complaint_view =>
                 (rc_ticket_id (fst (fst row)), st_subject (snd (fst row)),
                  r_restaurant_name (snd row))) complaints
          = [(1, "Double charge", "Canteen")]
       /\ fst (getRestaurantComplaints E (request_of (caller 31 "vendor") 0) filed)
          = Ok (ComplaintList []).
Proof.
  intros E filed req.
  destruct (getRestaurantComplaints_listing E req (caller 30 "vendor") filed
              eq_refl eq_refl) as (complaints & Hresp & _).
  split; [reflexivity|]. split; [reflexivity|].
  exists complaints. split; [exact Hresp|].
  assert (Ht : Ok (ComplaintList complaints)
               = fst (getRestaurantComplaints E req filed)) by (now rewrite Hresp).
  vm_compute in Ht. injection Ht as ->. split; reflexivity.
Defined.

Lemma open_tickets_In clauses d row :
  In row (fst (select_open_tickets clauses 0 d))
  -> st_status (ticket_of row) <> "resolved" /\ st_status (ticket_of row) <> "closed"
     /\ forall c, In c clauses -> clause_holds (ticket_of row) c = true.
Proof.
  cbn [select_open_tickets query fst]. intros Hin.
  apply order_by_In, filter_In in Hin. destruct Hin as [_ Hp].
  apply andb_true_iff in Hp. destruct Hp as [Hs Hc]. unfold ticket_of.
  cbn [str_in existsb] in Hs. rewrite forallb_forall in Hc.
  split; [|split; [|exact Hc]]; intros Heq; rewrite Heq in Hs; discriminate.
Qed.

Lemma getAllTickets_response E req u s :
  db_fails E (tick s) = None -> req_user req = Some u ->
  fst (getAllTickets E req s)
  = Ok (AgentTicketList
          (fst (select_open_tickets
                  ((if (user_type u =? "support_agent")%string
                    then [AssignedNullOrTo (user_id u)] else [])
                   ++ (if Js.truthy_str (query_status req)
                       then [StatusIs (Js.text (query_status req))] else [])
                   ++ (if Js.truthy_str (query_priority req)
                       then [PriorityIs (Js.text (query_priority req))] else []))%list
                  0 (db s)))).
Proof.
  intros F0 Hu. unfold getAllTickets, try_catch, bind, the_user, execute, ret.
  rewrite Hu, F0. reflexivity.
Qed.

(** X18.  The optional filters of the agents' listing.  With a status
    filter every listed ticket has that status, with a priority filter
    that priority; asking for resolved or closed tickets therefore gives
    an empty list, since those are excluded beforehand.  Without filters
    a caller who is not a support_agent is shown every ticket that is
    neither resolved nor closed and whose owner exists. *)
Theorem getAllTickets_filters E req u s :
  db_fails E (tick s) = None -> req_user req = Some u ->
  exists tickets,
    fst (getAllTickets E req s) = Ok (AgentTicketList tickets)
    /\ (forall st, query_status req = Some st -> st <> "" ->
          forall row, In row tickets -> st_status (ticket_of row) = st)
    /\ (forall p, query_priority req = Some p -> p <> "" ->
          forall row, In row tickets -> st_priority (ticket_of row) = p)
    /\ (query_status req = Some "resolved" \/ query_status req = Some "closed" ->
        tickets = [])
    /\ (user_type u <> "support_agent" ->
        Js.truthy_str (query_status req) = false ->
        Js.truthy_str (query_priority req) = false ->
        forall t owner, In t (support_tickets (db s)) -> In owner (users (db s)) ->
          u_user_id owner = st_user_id t ->
          st_status t <> "resolved" -> st_status t <> "closed" ->
          In t (map ticket_of tickets)).
Proof.
  intros F0 Hu. rewrite (getAllTickets_response E req u s F0 Hu).
  eexists. split; [reflexivity|].
  assert (Hstatus : forall st, query_status req = Some st -> st <> "" ->
            forall row, In row (fst (select_open_tickets
                  ((if (user_type u =? "support_agent")%string
                    then [AssignedNullOrTo (user_id u)] else [])
                   ++ (if Js.truthy_str (query_status req)
                       then [StatusIs (Js.text (query_status req))] else [])
                   ++ (if Js.truthy_str (query_priority req)
                       then [PriorityIs (Js.text (query_priority req))] else []))%list
                  0 (db s))) -> st_status (ticket_of row) = st).
  { intros st Hq Hne row Hin. apply open_tickets_In in Hin.
    destruct Hin as (_ & _ & Hc).
    specialize (Hc (StatusIs st)). cbn [clause_holds] in Hc.
    apply String.eqb_eq, Hc. rewrite Hq. cbn [Js.truthy_str Js.text].
    apply String.eqb_neq in Hne. rewrite Hne. cbn [negb].
    apply in_or_app. right. apply in_or_app. left. now left. }
  split; [exact Hstatus|]. split; [|split].
  - intros p Hq Hne row Hin. apply open_tickets_In in Hin.
    destruct Hin as (_ & _ & Hc).
    specialize (Hc (PriorityIs p)). cbn [clause_holds] in Hc.
    apply String.eqb_eq, Hc. rewrite Hq. cbn [Js.truthy_str Js.text].
    apply String.eqb_neq in Hne. rewrite Hne. cbn [negb].
    apply in_or_app. right. apply in_or_app. right. now left.
  - intros Hq.
    match goal with |- ?l = [] => assert (Hnone : forall row, ~ In row l) end.
    { intros row Hin. pose proof (open_tickets_In _ _ _ Hin) as (Hr & Hc & _).
      destruct Hq as [Hq|Hq].
      - apply Hr. apply (Hstatus "resolved" Hq); [discriminate|exact Hin].
      - apply Hc. apply (Hstatus "closed" Hq); [discriminate|exact Hin]. }
    match goal with |- ?l = [] => destruct l as [|row rest] end; [reflexivity|].
    destruct (Hnone row). now left.
  - intros Hrole Hs Hp t owner Ht Ho Hid Hr Hc.
    apply String.eqb_neq in Hrole. rewrite Hrole, Hs, Hp. cbn [app].
    assert (H1 : In (t, owner) (inner_join (fun st u => st_user_id st =? u_user_id u)
                                  (support_tickets (db s)) (users (db s)))).
    { apply inner_join_In. split; [exact Ht|]. split; [exact Ho|].
      apply Z.eqb_eq. now symmetry. }
    destruct (left_join_covers
                (fun (row : ticket_row * user_row) r =>
                   col_eq (st_restaurant_id (fst row)) (r_restaurant_id r))
                _ (restaurants (db s)) _ H1) as [r2 H2].
    destruct (left_join_covers
                (fun (row : ticket_row * user_row * option restaurant_row) agent =>
                   col_eq (st_assigned_to (fst (fst row))) (u_user_id agent))
                _ (users (db s)) _ H2) as [r3 H3].
    apply in_map_iff. exists (t, owner, r2, r3). split; [reflexivity|].
    cbn [select_open_tickets query fst]. apply order_by_In, filter_In.
    split; [exact H3|]. cbn [fst forallb str_in existsb]. rewrite andb_true_r, orb_false_r.
    apply String.eqb_neq in Hr, Hc. now rewrite Hr, Hc.
Qed.

Lemma getAllTickets_filters_witness :
  let E := quiet false in
  let ask st := {| req_user := Some (caller 3 "admin"); param_ticket_id := 0;
                   body_order_id := None; body_restaurant_id := None;
                   body_ticket_type := None; body_subject := None;
                   body_description := None; body_priority := None;
                   body_message_text := None; body_is_internal_note := None;
                   query_status := st; query_priority := None |} in
  let ids r := match r with
               | Ok (AgentTicketList ts) => map (fun row => st_ticket_id (ticket_of row)) ts
               | _ => []
               end in
  db_fails E (tick (boot loaded)) = None
  /\ req_user (ask (Some "resolved")) = Some (caller 3 "admin")
  /\ fst (getAllTickets E (ask (Some "resolved")) (boot loaded)) = Ok (AgentTicketList [])
  /\ ids (fst (getAllTickets E (ask (Some "assigned")) (boot loaded))) = [3; 6; 1; 4]
  /\ ids (fst (getAllTickets E (ask None) (boot loaded))) = [5; 3; 6; 8; 1; 2; 4].
Proof.
  intros E ask ids.
  destruct (getAllTickets_filters E (ask (Some "resolved")) (caller 3 "admin")
              (boot loaded) eq_refl eq_refl) as (tickets & Hresp & _ & _ & Hnone & _).
  split; [reflexivity|]. split; [reflexivity|].
  split; [rewrite Hresp, (Hnone (or_introl eq_refl)); reflexivity|].
  split; reflexivity.
Defined.

(** X19.  A store failure on the first statement of a read is answered
    500 with a fixed text.  Only the debug read passes the engine's
    message on to the caller; the four listings do not. *)
Theorem read_store_failure E req u s e :
  req_user req = Some u -> db_fails E (tick s) = Some e ->
  fst (getUserTickets E req s) = Ok (Failure 500 "Failed to get tickets" None)
  /\ fst (getAllTickets E req s) = Ok (Failure 500 "Failed to get tickets" None)
  /\ fst (getRestaurantComplaints E req s) = Ok (Failure 500 "Failed to get complaints" None)
  /\ fst (getTicketMessages E req s) = Ok (Failure 500 "Failed to get messages" None)
  /\ fst (debugTicket E req s) = Ok (Failure 500 "Failed to debug ticket" (Some e)).
Proof.
  intros Hu F0.
  unfold getUserTickets, getAllTickets, getRestaurantComplaints, getTicketMessages,
    debugTicket, try_catch, bind, the_user, execute, ret.
  rewrite Hu, F0. repeat split.
  destruct (user_type u =? "student")%string; rewrite ?F0; reflexivity.
Qed.

Lemma read_store_failure_witness :
  let E := failing_from 0 false in
  let req := request_of (caller 1 "student") 1 in
  req_user req = Some (caller 1 "student")
  /\ db_fails E (tick (boot noted)) = Some "ER_LOCK_WAIT_TIMEOUT"
  /\ fst (getTicketMessages E req (boot noted))
     = Ok (Failure 500 "Failed to get messages" None)
  /\ fst (debugTicket E req (boot noted))
     = Ok (Failure 500 "Failed to debug ticket" (Some "ER_LOCK_WAIT_TIMEOUT")).
Proof.
  intros E req.
  destruct (read_store_failure E req (caller 1 "student") (boot noted)
              "ER_LOCK_WAIT_TIMEOUT" eq_refl eq_refl) as (_ & _ & _ & Hm & Hd).
  split; [reflexivity|]. split; [reflexivity|]. split; [exact Hm|exact Hd].
Defined.

(** X20.  The five reads write nothing and call neither the classifier
    nor the escalation, whatever the request and whatever the server
    does: the store they leave is the store they found. *)
Theorem reads_write_nothing E req :
  read_only (getUserTickets E req)
  /\ read_only (getTicketMessages E req)
  /\ read_only (getAllTickets E req)
  /\ read_only (getRestaurantComplaints E req)
  /\ read_only (debugTicket E req).
Proof.
  unfold read_only, getUserTickets, getAllTickets, getRestaurantComplaints,
    getTicketMessages, debugTicket, try_catch, bind, the_user, execute, ret.
  repeat split; destruct (req_user req) as [u|]; cbn [tick db calls fst snd];
    try reflexivity;
    try (destruct (db_fails E (tick s)); reflexivity).
  - destruct (user_type u =? "student")%string; cbn [tick db calls fst snd].
    + destruct (db_fails E (tick s)); cbn [tick db calls fst snd]; [reflexivity|].
      destruct (Nat.eqb _ 0); cbn [tick db calls fst snd]; [reflexivity|].
      destruct (db_fails E (S (tick s))); reflexivity.
    + destruct (db_fails E (tick s)); reflexivity.
  - destruct (user_type u =? "student")%string; cbn [tick db calls fst snd].
    + destruct (db_fails E (tick s)); cbn [tick db calls fst snd]; [reflexivity|].
      destruct (Nat.eqb _ 0); cbn [tick db calls fst snd]; [reflexivity|].
      destruct (db_fails E (S (tick s))); reflexivity.
    + destruct (db_fails E (tick s)); reflexivity.
  - destruct (db_fails E (tick s)); cbn [tick db calls fst snd]; [reflexivity|].
    destruct (fst (select_debug_ticket _ _ _)); cbn [tick db calls fst snd];
      [reflexivity|].
    destruct (db_fails E (S (tick s))); cbn [tick db calls fst snd]; [reflexivity|].
    destruct (db_fails E (S (S (tick s)))); reflexivity.
  - destruct (db_fails E (tick s)); cbn [tick db calls fst snd]; [reflexivity|].
    destruct (fst (select_debug_ticket _ _ _)); cbn [tick db calls fst snd];
      [reflexivity|].
    destruct (db_fails E (S (tick s))); cbn [tick db calls fst snd]; [reflexivity|].
    destruct (db_fails E (S (S (tick s)))); reflexivity.
  - destruct (db_fails E (tick s)); cbn [tick db calls fst snd]; [reflexivity|].
    destruct (fst (select_debug_ticket _ _ _)); cbn [tick db calls fst snd];
      [reflexivity|].
    destruct (db_fails E (S (tick s))); cbn [tick db calls fst snd]; [reflexivity|].
    destruct (db_fails E (S (S (tick s)))); reflexivity.
  - destruct (db_fails E (tick s)); cbn [tick db calls fst snd]; [reflexivity|].
    destruct (fst (select_debug_ticket _ _ _)); cbn [tick db calls fst snd];
      [reflexivity|].
    destruct (db_fails E (S (tick s))); cbn [tick db calls fst snd]; [reflexivity|].
    destruct (db_fails E (S (S (tick s)))); reflexivity.
Qed.

(** X21.  No handler lets an exception escape.  Every request, also one
    that carries no user, and every behaviour of the server lead to a
    response; so does every route. *)
Theorem handlers_respond E req :
  responds (createTicket E req) /\ responds (getUserTickets E req)
  /\ responds (getTicketMessages E req) /\ responds (sendMessage E req)
  /\ responds (getRestaurantComplaints E req) /\ responds (debugTicket E req)
  /\ responds (getAllTickets E req)
  /\ forall r, responds (router E r req).
Proof.
  assert (H : responds (createTicket E req) /\ responds (getUserTickets E req)
              /\ responds (getTicketMessages E req) /\ responds (sendMessage E req)
              /\ responds (getRestaurantComplaints E req) /\ responds (debugTicket E req)
              /\ responds (getAllTickets E req)).
  { unfold responds, createTicket, getUserTickets, getTicketMessages, sendMessage,
      getRestaurantComplaints, debugTicket, getAllTickets.
    repeat split; intros s; apply try_catch_total. }
  destruct H as (H1 & H2 & H3 & H4 & H5 & H6 & H7).
  repeat (split; [assumption|]).
  assert (Hret : forall resp, responds (ret resp)).
  { intros resp s. eexists. reflexivity. }
  intros r. unfold router, authenticateToken, requireRole.
  destruct r; destruct (req_user req) as [u|]; try apply Hret; try assumption;
    destruct (str_in (user_type u) _); try apply Hret; assumption.
Qed.

(** X22.  The route table.  For an authenticated caller the two message
    routes and the debug route run their handler whatever the caller's
    role; creating a ticket and listing one's own tickets is open to
    students only, the agents' listing to the three agent roles, and the
    complaint listing to vendors.  A caller of another role is turned
    away with 403 before the handler runs, the state untouched. *)
Theorem router_role_table E req u s :
  req_user req = Some u ->
  let refused r := exists text, router E r req s = (Ok (Failure 403 text None), s) in
  router E GET_tickets_messages req s = getTicketMessages E req s
  /\ router E POST_tickets_messages req s = sendMessage E req s
  /\ router E GET_debug_ticket req s = debugTicket E req s
  /\ (user_type u = "student" ->
      router E POST_tickets req s = createTicket E req s
      /\ router E GET_tickets_my_tickets req s = getUserTickets E req s)
  /\ (user_type u <> "student" -> refused POST_tickets /\ refused GET_tickets_my_tickets)
  /\ (In (user_type u) agent_roles -> router E GET_tickets req s = getAllTickets E req s)
  /\ (~ In (user_type u) agent_roles -> refused GET_tickets)
  /\ (user_type u = "vendor" ->
      router E GET_complaints_restaurant req s = getRestaurantComplaints E req s)
  /\ (user_type u <> "vendor" -> refused GET_complaints_restaurant).
Proof.
  intros Hu refused. unfold refused, router, authenticateToken, requireRole.
  rewrite Hu. cbn [str_in existsb]. unfold agent_roles.
  split; [reflexivity|]. split; [reflexivity|]. split; [reflexivity|].
  split; [intros ->; split; reflexivity|].
  split.
  { intros H. apply String.eqb_neq in H. rewrite H.
    split; eexists; reflexivity. }
  split.
  { intros H. cbn [In] in H.
    destruct (String.eqb_spec (user_type u) "support_agent"); [reflexivity|].
    destruct (String.eqb_spec (user_type u) "senior_support"); [reflexivity|].
    destruct (String.eqb_spec (user_type u) "admin"); [reflexivity|].
    exfalso. intuition congruence. }
  split.
  { intros H. cbn [In] in H.
    destruct (String.eqb_spec (user_type u) "support_agent") as [Heq|];
      [exfalso; apply H; left; now rewrite Heq|].
    destruct (String.eqb_spec (user_type u) "senior_support") as [Heq|];
      [exfalso; apply H; right; left; now rewrite Heq|].
    destruct (String.eqb_spec (user_type u) "admin") as [Heq|];
      [exfalso; apply H; right; right; left; now rewrite Heq|].
    eexists; reflexivity. }
  split; [intros ->; reflexivity|].
  intros H. apply String.eqb_neq in H. rewrite H. eexists; reflexivity.
Qed.

Lemma router_role_table_witness :
  let E := quiet false in
  let req := ticket_request None None None in
  let vendor := {| req_user := Some (caller 30 "vendor"); param_ticket_id := 1;
                   body_order_id := None; body_restaurant_id := None;
                   body_ticket_type := Some "payment"; body_subject := Some "Double charge";
                   body_description := Some "I was charged twice";
                   body_priority := None; body_message_text := None;
                   body_is_internal_note := None; query_status := None;
                   query_priority := None |} in
  req_user vendor = Some (caller 30 "vendor")
  /\ (exists text, router E POST_tickets vendor (boot noted)
                   = (Ok (Failure 403 text None), boot noted))
  /\ router E GET_debug_ticket vendor (boot noted) = debugTicket E vendor (boot noted)
  /\ fst (router E POST_tickets req (boot noted))
     = Ok (TicketCreated 2 "We are looking into it." false "open").
Proof.
  intros E req vendor.
  destruct (router_role_table E vendor (caller 30 "vendor") (boot noted) eq_refl)
    as (_ & _ & Hdebug & _ & Hno & _).
  split; [reflexivity|]. split; [apply Hno; discriminate|].
  split; [exact Hdebug|reflexivity].
Defined.

(** ** Complaints of unresolved orders *)

Lemma projectComplaint_unresolved E req tid s :
  Js.truthy_num (body_restaurant_id req) = false ->
  (forall o, In o (orders (db s)) -> o_order_id o = Js.number (body_order_id req) ->
             Js.truthy_num (o_restaurant_id o) = false) ->
  restaurant_complaints (db (snd (try_catch (projectComplaint E req tid)
                                    (fun _ => ret tt) s)))
  = restaurant_complaints (db s).
Proof.
  intros Hr Ho. unfold projectComplaint, try_catch, bind, execute, ret.
  rewrite Hr. cbn [negb andb].
  destruct (Js.truthy_num (body_order_id req)); cbn [tick db calls fst snd];
    [|rewrite Hr; reflexivity].
  destruct (db_fails E (tick s)); cbn [tick db calls fst snd];
    [rewrite Hr; reflexivity|].
  destruct (fst (select_order_restaurant _ _ _)) as [|r0 rest] eqn:Hsel;
    cbn [tick db calls fst snd]; [rewrite Hr; reflexivity|].
  assert (Hin : In r0 (fst (select_order_restaurant (Js.number (body_order_id req))
                              (db_now E (tick s)) (db s))))
    by (rewrite Hsel; now left).
  cbn [select_order_restaurant query fst] in Hin.
  apply limit_In, in_map_iff in Hin. destruct Hin as (o & <- & Hin).
  apply filter_In in Hin. destruct Hin as [Hin Hid]. apply Z.eqb_eq in Hid.
  rewrite (Ho o Hin Hid). reflexivity.
Qed.

(** X23.  A creation that names no restaurant and an order which the
    store does not hold, or which has no restaurant, is answered as
    created and files no complaint, whatever the server does with the
    statements after the four leading ones. *)
Theorem createTicket_unresolved_order E req u s :
  req_user req = Some u -> valid_ticket_request req = true ->
  (forall k, (k < 4)%nat -> db_fails E (tick s + k) = None) ->
  Js.truthy_num (body_restaurant_id req) = false ->
  (forall o, In o (orders (db s)) -> o_order_id o = Js.number (body_order_id req) ->
             Js.truthy_num (o_restaurant_id o) = false) ->
  let r := createTicket E req s in
  (exists ai esc, fst r = Ok (TicketCreated (next_ticket_id (db s)) ai esc "open"))
  /\ restaurant_complaints (db (snd r)) = restaurant_complaints (db s).
Proof.
  intros Hu Hv NF Hr Ho r.
  assert (Hrun := createTicket_run E req u s Hu Hv NF). cbv zeta in Hrun.
  fold r in Hrun. rewrite Hrun. cbn [fst snd].
  split; [do 2 eexists; reflexivity|].
  match goal with
  | |- context [escalation_step E req ?tid ?v ?s4] =>
      pose proof (escalation_step_frame E req tid v s4) as F
  end.
  rewrite projectComplaint_unresolved; [|exact Hr|].
  - now rewrite (frame_complaints _ _ F).
  - rewrite (frame_orders _ _ F). exact Ho.
Qed.

Lemma createTicket_unresolved_order_witness :
  let E := quiet false in
  let req := ticket_request None (Some 41) None in
  let r := createTicket E req (boot campus) in
  req_user req = Some (caller 1 "student")
  /\ valid_ticket_request req = true
  /\ (forall k, (k < 4)%nat -> db_fails E (tick (boot campus) + k) = None)
  /\ Js.truthy_num (body_restaurant_id req) = false
  /\ map o_order_id (orders campus) = [40]
  /\ fst r = Ok (TicketCreated 1 "We are looking into it." false "open")
  /\ restaurant_complaints (db (snd r)) = [].
Proof.
  intros E req r.
  assert (H3 : forall k, (k < 4)%nat -> db_fails E (tick (boot campus) + k) = None)
    by (intros k _; reflexivity).
  assert (H5 : forall o, In o (orders (db (boot campus))) ->
                 o_order_id o = Js.number (body_order_id req) ->
                 Js.truthy_num (o_restaurant_id o) = false).
  { intros o [<-|[]] Hid. discriminate. }
  destruct (createTicket_unresolved_order E req (caller 1 "student") (boot campus)
              eq_refl eq_refl H3 eq_refl H5) as (_ & Hnone).
  split; [reflexivity|]. split; [reflexivity|]. split; [exact H3|].
  split; [reflexivity|]. split; [reflexivity|]. split; [reflexivity|exact Hnone].
Defined.

(** ** A reply that escalates *)

Lemma filter_map_length {A} (f : A -> bool) (g : A -> A) l :
  (forall x, f (g x) = f x) ->
  List.length (filter f (map g l)) = List.length (filter f l).
Proof.
  intros H. induction l as [|x l IH]; [reflexivity|]. cbn [map filter].
  rewrite H. destruct (f x); cbn [List.length]; now rewrite IH.
Qed.

Lemma reply_row_student_load tid now id st :
  counts_for id (reply_row "student" tid now st) = counts_for id st.
Proof.
  unfold reply_row, counts_for.
  destruct (st_ticket_id st =? tid); [|reflexivity].
  cbn [st_assigned_to st_status str_in existsb].
  change (("student" =? "support_agent")%string) with false.
  change (("student" =? "senior_support")%string) with false.
  cbn [orb]. now rewrite andb_false_r.
Qed.

Lemma after_ai_load E req u s ty id :
  user_type u = "student" ->
  open_load (db (after_ai E req ty (after_post E req u s))) id = open_load (db s) id.
Proof.
  intros Hst. unfold open_load. f_equal.
  cbn [after_ai after_post db insert_chat_message insert_ai_bot_log
       update_ticket_on_reply set_support_tickets snd support_tickets].
  rewrite Hst. apply filter_map_length. intros st. apply reply_row_student_load.
Qed.

Lemma after_ai_users E req u s ty :
  users (db (after_ai E req ty (after_post E req u s))) = users (db s).
Proof. reflexivity. Qed.

(** X24.  A student's reply on an unassigned ticket, for which the
    classifier asks for a human, hands the ticket over in the same
    request: when an active support agent exists, the ticket ends
    assigned, with status assigned, to an active agent whose open load
    is minimal, and an escalation record names that agent and the
    reason. *)
Theorem sendMessage_escalates E req u s t :
  no_faults E -> req_user req = Some u -> user_type u = "student" ->
  blank (body_message_text req) = false ->
  find (fun st => st_ticket_id st =? param_ticket_id req) (support_tickets (db s)) = Some t ->
  st_assigned_to t = None ->
  needsHuman (generateResponse E (Js.text (body_message_text req)) (st_ticket_type t)) = true ->
  NoDup (map u_user_id (users (db s))) -> (exists a, active_agent (db s) a) ->
  let tid := param_ticket_id req in
  let r := sendMessage E req s in
  exists a,
    active_agent (db s) a
    /\ (forall b, active_agent (db s) b -> open_load (db s) a <= open_load (db s) b)
    /\ fst r = Ok (MessageSent (next_message_id (db s)))
    /\ (forall t', In t' (support_tickets (db (snd r))) -> st_ticket_id t' = tid ->
          st_assigned_to t' = Some a /\ st_status t' = "assigned")
    /\ exists e, In e (ticket_escalations (db (snd r)))
                 /\ te_ticket_id e = tid /\ te_escalated_to e = a
                 /\ te_escalation_reason e = "AI escalation recommended".
Proof.
  intros NF Hu Hst Hb Hf Ha Hn N Hex tid r.
  assert (Hrun := sendMessage_run E req u s Hu Hb (NF _) (NF _)). fold r in Hrun.
  rewrite (ai_followup_unassigned E req u s t NF Hst Hf Ha) in Hrun.
  cbv zeta in Hrun. rewrite Hn in Hrun. fold tid in Hrun.
  set (s4 := after_ai E req (st_ticket_type t) (after_post E req u s)) in *.
  assert (Hus : users (db s4) = users (db s)) by apply after_ai_users.
  assert (Hload : forall id, open_load (db s4) id = open_load (db s) id)
    by (intros id; now apply after_ai_load).
  destruct (chosen_agent_exists (db s4)) as [a Hc].
  { destruct Hex as [b Hb']. exists b. revert Hb'. now apply active_agent_users. }
  destruct (chosen_agent_minimal (db s4) a) as [Hact Hmin];
    [now rewrite Hus|exact Hc|].
  rewrite (escalateToHuman_assigns E tid _ s4 a NF Hc) in Hrun.
  exists a. split; [revert Hact; apply active_agent_users; now symmetry|].
  split.
  { intros b Hb'. rewrite <- !Hload. apply Hmin. revert Hb'.
    now apply active_agent_users. }
  rewrite Hrun. cbn [fst snd]. split; [reflexivity|].
  cbn [assign_effect db update_assign_ticket insert_chat_message insert_ticket_escalation
       snd support_tickets ticket_escalations set_support_tickets].
  split; [intros t'; apply assigned_rows|].
  eexists. split; [apply in_app_iff; right; left; reflexivity|].
  repeat split.
Qed.

Lemma sendMessage_escalates_witness :
  let E := quiet true in
  let req := message_request (caller 1 "student") 1 "Any news?" in
  let r := sendMessage E req (boot noted) in
  no_faults E
  /\ req_user req = Some (caller 1 "student")
  /\ blank (body_message_text req) = false
  /\ NoDup (map u_user_id (users noted))
  /\ active_agent noted 5
  /\ fst r = Ok (MessageSent 3)
  /\ map (fun t => (st_ticket_id t, st_status t, st_assigned_to t))
         (support_tickets (db (snd r))) = [(1, "assigned", Some 5)]
  /\ exists a e, In e (ticket_escalations (db (snd r))) /\ te_escalated_to e = a
                 /\ active_agent noted a.
Proof.
  intros E req r.
  assert (H1 : no_faults E) by (intros n; reflexivity).
  assert (H8 : NoDup (map u_user_id (users (db (boot noted))))).
  { repeat constructor; cbn; intuition discriminate. }
  assert (H9 : active_agent (db (boot noted)) 5).
  { exists (member 5 "support_agent"). repeat split. cbn. auto. }
  destruct (sendMessage_escalates E req (caller 1 "student") (boot noted)
              (ticket 1 1 "medium" "open" None 10)
              H1 eq_refl eq_refl eq_refl eq_refl eq_refl eq_refl H8 (ex_intro _ 5 H9))
    as (a & Hact & _ & Hresp & _ & e & He & _ & Hto & _).
  split; [exact H1|]. split; [reflexivity|]. split; [reflexivity|].
  split; [exact H8|]. split; [exact H9|]. split; [exact Hresp|].
  split; [reflexivity|].
  exists a, e. split; [exact He|]. split; [exact Hto|exact Hact].
Defined.

(** ** The vendor's dashboard *)

Lemma ratingSum_from acc complaints :
  fold_left (fun a c => a + Js.number (Js.or_null (card_customer_rating c))) complaints acc
  = acc + rated_total complaints.
Proof.
  revert acc. induction complaints as [|c l IH]; intros acc; cbn [fold_left].
  - unfold rated_total. cbn. lia.
  - rewrite IH. unfold rated_total. cbn [filter]. unfold Js.or_null.
    destruct (Js.truthy_num (card_customer_rating c)); cbn [map fold_right Js.number]; lia.
Qed.

Lemma ratingSum_rated complaints : ratingSum complaints = rated_total complaints.
Proof. unfold ratingSum. now rewrite ratingSum_from. Qed.

Lemma filter_length_le {A} (f : A -> bool) l :
  (List.length (filter f l) <= List.length l)%nat.
Proof.
  induction l as [|x l IH]; cbn; [lia|]. destruct (f x); cbn; lia.
Qed.

(** X25.  The rating card of the dashboard.  It shows N/A exactly when
    there is no complaint.  Complaints without a rating (or rated zero)
    count neither in the sum nor in the divisor, so the figure is the
    mean over the rated complaints; but when there are complaints and
    none of them is rated the figure is 0/0, not a number, and never
    N/A.  The division never yields an infinity. *)
Theorem averageRating_cases complaints :
  (averageRating complaints = None <-> complaints = [])
  /\ (complaints <> [] -> ratedCount complaints = 0%nat ->
      averageRating complaints = Some NaN)
  /\ (forall n, ratedCount complaints = S n ->
        averageRating complaints
        = Some (Num (rated_total complaints # Pos.of_nat (S n))))
  /\ (forall negative, averageRating complaints <> Some (Infinity negative)).
Proof.
  assert (Hzero : ratedCount complaints = 0%nat -> rated_total complaints = 0).
  { unfold ratedCount, rated_total. intros H. apply length_zero_iff_nil in H.
    now rewrite H. }
  assert (Hpos : forall n, ratedCount complaints = S n ->
                           (0 <? List.length complaints)%nat = true).
  { intros n H. apply Nat.ltb_lt.
    pose proof (filter_length_le (fun c => Js.truthy_num (card_customer_rating c))
                  complaints) as Hle.
    unfold ratedCount in H. lia. }
  unfold averageRating. rewrite ratingSum_rated.
  split; [|split; [|split]].
  - destruct complaints; cbn; split; congruence.
  - intros Hne H0. destruct complaints as [|c l]; [congruence|].
    cbn [List.length Nat.ltb Nat.leb]. rewrite H0, (Hzero H0). reflexivity.
  - intros n Hn. rewrite (Hpos n Hn), Hn. reflexivity.
  - intros negative. destruct (0 <? List.length complaints)%nat; [|discriminate].
    destruct (ratedCount complaints) as [|n] eqn:Hn.
    + rewrite (Hzero eq_refl). discriminate.
    + discriminate.
Qed.

(** X26.  The counters of the dashboard: a complaint is active or
    resolved or neither, never both, so the two counters together do not
    exceed the total; and a complaint whose status is escalated or closed,
    or missing, is counted by neither. *)
Theorem dashboard_counters complaints :
  (activeCount complaints + resolvedCount complaints <= List.length complaints)%nat
  /\ (forall c, In c complaints -> is_active_card c && is_resolved_card c = false)
  /\ (forall c, card_resolution_status c = Some "escalated"
                \/ card_resolution_status c = Some "closed"
                \/ card_resolution_status c = None ->
                is_active_card c = false /\ is_resolved_card c = false).
Proof.
  assert (Hex : forall c, is_active_card c && is_resolved_card c = false).
  { intros c. unfold is_active_card, is_resolved_card.
    destruct (card_resolution_status c) as [st|]; [|reflexivity].
    cbn [str_in existsb].
    destruct (String.eqb_spec st "resolved") as [->|]; [reflexivity|].
    now rewrite andb_false_r. }
  split; [|split].
  - unfold activeCount, resolvedCount.
    induction complaints as [|c l IH]; cbn [filter List.length]; [lia|].
    specialize (Hex c).
    destruct (is_active_card c), (is_resolved_card c); cbn [List.length] in *;
      try discriminate; lia.
  - intros c _. apply Hex.
  - intros c [H|[H|H]]; unfold is_active_card, is_resolved_card; rewrite H;
      split; reflexivity.
Qed.

(** X27.  The class tables of the dashboard fall back: a status the
    table does not list (assigned, for one, or none at all) is drawn as
    open, a priority it does not list as medium, and the class drawn is
    always one of the table's. *)
Theorem class_tables_fall_back status priority :
  (forall k, status = Some k -> Js.inherited k = false) ->
  (forall k, priority = Some k -> Js.inherited k = false) ->
  In (getStatusColor status) (map snd colors)
  /\ In (getPriorityBadge priority) (map snd badges)
  /\ ((forall k, status = Some k -> ~ In k (map fst colors)) ->
      getStatusColor status = getStatusColor (Some "open"))
  /\ ((forall k, priority = Some k -> ~ In k (map fst badges)) ->
      getPriorityBadge priority = getPriorityBadge (Some "medium")).
Proof.
  intros _ _. unfold getStatusColor, getPriorityBadge, lookup_opt, colors, badges.
  cbn [map fst snd lookup In].
  split; [|split; [|split]].
  - destruct status as [k|]; [|vm_compute; auto 10].
    destruct (String.eqb_spec k "open"); [vm_compute; auto 10|].
    destruct (String.eqb_spec k "in_progress"); [vm_compute; auto 10|].
    destruct (String.eqb_spec k "escalated"); [vm_compute; auto 10|].
    destruct (String.eqb_spec k "resolved"); [vm_compute; auto 10|].
    destruct (String.eqb_spec k "closed"); vm_compute; auto 10.
  - destruct priority as [k|]; [|vm_compute; auto 10].
    destruct (String.eqb_spec k "urgent"); [vm_compute; auto 10|].
    destruct (String.eqb_spec k "high"); [vm_compute; auto 10|].
    destruct (String.eqb_spec k "medium"); [vm_compute; auto 10|].
    destruct (String.eqb_spec k "low"); vm_compute; auto 10.
  - intros H. destruct status as [k|]; [|reflexivity].
    specialize (H k eq_refl).
    destruct (String.eqb_spec k "open") as [->|]; [exfalso; apply H; auto 10|].
    destruct (String.eqb_spec k "in_progress") as [->|]; [exfalso; apply H; auto 10|].
    destruct (String.eqb_spec k "escalated") as [->|]; [exfalso; apply H; auto 10|].
    destruct (String.eqb_spec k "resolved") as [->|]; [exfalso; apply H; auto 10|].
    destruct (String.eqb_spec k "closed") as [->|]; [exfalso; apply H; auto 10|].
    reflexivity.
  - intros H. destruct priority as [k|]; [|reflexivity].
    specialize (H k eq_refl).
    destruct (String.eqb_spec k "urgent") as [->|]; [exfalso; apply H; auto 10|].
    destruct (String.eqb_spec k "high") as [->|]; [exfalso; apply H; auto 10|].
    destruct (String.eqb_spec k "medium") as [->|]; [exfalso; apply H; auto 10|].
    destruct (String.eqb_spec k "low") as [->|]; [exfalso; apply H; auto 10|].
    reflexivity.
Qed.

Lemma class_tables_fall_back_witness :
  Js.inherited "assigned" = false
  /\ getStatusColor (Some "assigned") = "bg-yellow-100 text-yellow-800"
  /\ getStatusColor (Some "assigned") = getStatusColor (Some "open")
  /\ getPriorityBadge None = getPriorityBadge (Some "medium")
  /\ getPriorityBadge (Some "urgent") = "bg-red-100 text-red-800".
Proof.
  assert (H1 : forall k, Some "assigned" = Some k -> Js.inherited k = false)
    by (intros k [= <-]; reflexivity).
  assert (H2 : forall k, @None string = Some k -> Js.inherited k = false)
    by discriminate.
  destruct (class_tables_fall_back (Some "assigned") None H1 H2)
    as (_ & _ & Hs & Hp).
  split; [reflexivity|]. split; [reflexivity|].
  split; [apply Hs; intros k [= <-]; cbn; intuition discriminate|].
  split; [apply Hp; discriminate|reflexivity].
Defined.

(** ** Posting, then listing *)

Lemma assign_row_key a tid now l :
  map owner_key (map (assign_row a tid now) l) = map owner_key l.
Proof.
  rewrite map_map. apply map_ext. intros st. unfold assign_row, owner_key.
  now destruct (st_ticket_id st =? tid).
Qed.

Lemma reply_row_key ut tid now l :
  map owner_key (map (reply_row ut tid now) l) = map owner_key l.
Proof.
  rewrite map_map. apply map_ext. intros st. unfold reply_row, owner_key.
  now destruct (st_ticket_id st =? tid).
Qed.

Lemma escalateToHuman_keys E tid reason s :
  map owner_key (support_tickets (db (snd (escalateToHuman E tid reason s))))
  = map owner_key (support_tickets (db s)).
Proof.
  unfold escalateToHuman, bind, try_catch, record_call, execute, ret. cbn [tick db calls].
  destruct (db_fails E (tick s)); [reflexivity|].
  rewrite select_least_loaded_agent_db.
  destruct (fst (select_least_loaded_agent _ _)) as [|agent rest]; [reflexivity|].
  cbn [tick db calls fst snd].
  destruct (db_fails E (S (tick s))); [reflexivity|].
  cbn [tick db calls fst snd].
  destruct (db_fails E (S (S (tick s)))); cbn [tick db calls fst snd];
    [apply assign_row_key|].
  destruct (db_fails E (S (S (S (tick s))))); cbn [tick db calls fst snd];
    apply assign_row_key.
Qed.

Lemma ai_followup_keys E req u s2 :
  map owner_key (support_tickets (db (snd (ai_followup E req u s2))))
  = map owner_key (support_tickets (db s2)).
Proof.
  unfold ai_followup.
  destruct (user_type u =? "student")%string; [|reflexivity].
  unfold bind at 1. unfold execute at 1.
  destruct (db_fails E (tick s2)); [reflexivity|].
  cbn [select_ticket_assignment query fst snd].
  destruct (map _ (filter _ (support_tickets (db s2)))) as [|[assigned_to ticket_type] rest];
    [reflexivity|].
  destruct (Js.truthy_num assigned_to); cbn [negb]; [reflexivity|].
  unfold bind at 1. unfold classify at 1. unfold bind at 1, record_call at 1, ret at 1.
  cbn [tick db calls].
  unfold bind at 1. unfold execute at 1. cbn [tick db calls].
  destruct (db_fails E (S (tick s2))); [reflexivity|]. cbn [tick db calls fst snd].
  unfold bind at 1. unfold execute at 1. cbn [tick db calls].
  destruct (db_fails E (S (S (tick s2)))); [reflexivity|]. cbn [tick db calls fst snd].
  destruct (needsHuman _); [|reflexivity].
  rewrite escalateToHuman_keys. reflexivity.
Qed.

Lemma sendMessage_keys E req u s :
  req_user req = Some u -> blank (body_message_text req) = false ->
  db_fails E (tick s) = None -> db_fails E (S (tick s)) = None ->
  map owner_key (support_tickets (db (snd (sendMessage E req s))))
  = map owner_key (support_tickets (db s)).
Proof.
  intros Hu Hb F0 F1. rewrite (sendMessage_run E req u s Hu Hb F0 F1).
  pose proof (ai_followup_keys E req u (after_post E req u s)) as H.
  destruct (ai_followup E req u (after_post E req u s)) as [[[]|e] s']; cbn [snd] in *;
    rewrite H; apply reply_row_key.
Qed.

Lemma owned_by_key l tid uid :
  (exists t, In t l /\ st_ticket_id t = tid /\ st_user_id t = uid)
  <-> In (tid, uid) (map owner_key l).
Proof.
  rewrite in_map_iff. unfold owner_key. split.
  - intros (t & Ht & <- & <-). now exists t.
  - intros (t & [= <- <-] & Ht). now exists t.
Qed.

(** X28.  Post, then list.  After a post the listing of the same ticket
    is still open to every caller who could have listed it before, and
    it shows the posted message to a caller exactly when the message was
    not marked an internal note or the caller's role is one of the three
    agent roles.  The flag is taken from the request of any caller: a
    student who marks a post as internal note does not see it again. *)
Theorem sendMessage_then_list E req u s req' viewer :
  no_faults E -> req_user req = Some u -> Js.inherited (user_type u) = false ->
  blank (body_message_text req) = false ->
  req_user req' = Some viewer -> param_ticket_id req' = param_ticket_id req ->
  (user_type viewer = "student" ->
   exists t, In t (support_tickets (db s))
             /\ st_ticket_id t = param_ticket_id req /\ st_user_id t = user_id viewer) ->
  let s' := snd (sendMessage E req s) in
  let posted := posted_message req u (next_message_id (db s)) (db_now E (tick s)) in
  exists messages,
    fst (getTicketMessages E req' s') = Ok (MessageList messages)
    /\ (In posted (map fst messages)
        <-> flag (body_is_internal_note req) = false
            \/ str_in (user_type viewer) agent_roles = true).
Proof.
  intros NF Hu _ Hb Hv Hp Hown s' posted.
  assert (Hown' : user_type viewer = "student" ->
            exists t, In t (support_tickets (db s'))
                      /\ st_ticket_id t = param_ticket_id req'
                      /\ st_user_id t = user_id viewer).
  { intros Hst. apply owned_by_key. unfold s'.
    rewrite (sendMessage_keys E req u s Hu Hb (NF _) (NF _)), Hp.
    apply owned_by_key. exact (Hown Hst). }
  eexists. split; [exact (getTicketMessages_allowed E req' viewer s' NF Hv Hown')|].
  destruct (ticket_messages_rows (param_ticket_id req') (user_type viewer) (db s'))
    as (Hin & _).
  assert (Hposted : In posted (chat_messages (db s'))).
  { unfold s'. rewrite (sendMessage_run E req u s Hu Hb (NF _) (NF _)).
    destruct (ai_followup_total E req u (after_post E req u s) NF)
      as (s1 & rest & -> & Hm).
    cbn [snd]. rewrite Hm. apply in_or_app. left.
    cbn. apply in_or_app. right. now left. }
  rewrite Hin. unfold readable_by. rewrite Hp.
  cbn [posted posted_message cm_ticket_id cm_is_internal_note]. tauto.
Qed.

Lemma sendMessage_then_list_witness :
  let E := quiet false in
  let req := {| req_user := Some (caller 1 "student"); param_ticket_id := 1;
                body_order_id := None; body_restaurant_id := None;
                body_ticket_type := None; body_subject := None;
                body_description := None; body_priority := None;
                body_message_text := Some "note to self";
                body_is_internal_note := Some true;
                query_status := None; query_priority := None |} in
  let s' := snd (sendMessage E req (boot noted)) in
  let texts r := match r with
                 | Ok (MessageList ms) => map (fun row => cm_message_text (fst row)) ms
                 | _ => []
                 end in
  no_faults E
  /\ req_user req = Some (caller 1 "student")
  /\ Js.inherited "student" = false
  /\ blank (body_message_text req) = false
  /\ texts (fst (getTicketMessages E (request_of (caller 1 "student") 1) s'))
     = ["I was charged twice"; "We are looking into it."]
  /\ texts (fst (getTicketMessages E (request_of (caller 5 "support_agent") 1) s'))
     = ["I was charged twice"; "Refund pending approval"; "note to self";
        "We are looking into it."]
  /\ exists messages,
       fst (getTicketMessages E (request_of (caller 1 "student") 1) s')
       = Ok (MessageList messages)
       /\ ~ In (posted_message req (caller 1 "student") 3 1000) (map fst messages).
Proof.
  intros E req s' texts.
  assert (H1 : no_faults E) by (intros n; reflexivity).
  assert (H7 : user_type (caller 1 "student") = "student" ->
               exists t, In t (support_tickets (db (boot noted)))
                         /\ st_ticket_id t = param_ticket_id req
                         /\ st_user_id t = user_id (caller 1 "student")).
  { intros _. eexists. split; [left; reflexivity|]. split; reflexivity. }
  destruct (sendMessage_then_list E req (caller 1 "student") (boot noted)
              (request_of (caller 1 "student") 1) (caller 1 "student")
              H1 eq_refl eq_refl eq_refl eq_refl eq_refl H7)
    as (messages & Hresp & Hiff).
  split; [exact H1|]. split; [reflexivity|]. split; [reflexivity|].
  split; [reflexivity|]. split; [reflexivity|]. split; [reflexivity|].
  exists messages. split; [exact Hresp|].
  intros Hin. apply Hiff in Hin. destruct Hin as [Hin|Hin]; discriminate.
Defined.

(** ** Creating, then listing *)

Lemma order_by_sorted_id {A} (le : A -> A -> bool) l :
  StronglySorted (fun a b => le a b = true) l -> order_by le l = l.
Proof.
  induction 1 as [|a l _ IH Hall]; [reflexivity|]. cbn [order_by]. rewrite IH.
  destruct l as [|y r]; [reflexivity|]. cbn [insert_by].
  inversion Hall as [|? ? Hy _]; subst. now rewrite Hy.
Qed.

Lemma left_join_app {A B} (on : A -> B -> bool) l1 l2 r :
  left_join on (l1 ++ l2) r = (left_join on l1 r ++ left_join on l2 r)%list.
Proof. unfold left_join. apply flat_map_app. Qed.

Lemma left_join_cons {A B} (on : A -> B -> bool) a l r :
  left_join on (a :: l) r = (left_join on [a] r ++ left_join on l r)%list.
Proof. apply (left_join_app on [a] l r). Qed.

Lemma left_join_no_sender m us :
  cm_sender_id m = None -> left_join sender_on [m] us = [(m, None)].
Proof.
  intros H. unfold left_join. cbn [flat_map]. rewrite filter_none; [reflexivity|].
  intros x _. unfold sender_on. now rewrite H.
Qed.

Lemma filter_key_unique {A} (key : A -> Z) (k : Z) l :
  NoDup (map key l) -> (List.length (filter (fun x => (k =? key x)%Z) l) <= 1)%nat.
Proof.
  induction l as [|x l IH]; cbn [map filter]; intros N; [cbn; lia|].
  inversion N as [|? ? Hnot N']; subst.
  destruct (Z.eqb_spec k (key x)) as [->|]; [|auto].
  rewrite filter_none; [cbn; lia|].
  intros y Hy. apply Z.eqb_neq. intros Heq. apply Hnot. rewrite Heq. now apply in_map.
Qed.

Lemma left_join_one_sender m us :
  NoDup (map u_user_id us) -> exists sender, left_join sender_on [m] us = [(m, sender)].
Proof.
  intros N. unfold left_join. cbn [flat_map]. rewrite app_nil_r.
  destruct (cm_sender_id m) as [i|] eqn:Hs.
  - pose proof (filter_key_unique u_user_id i us N) as Hle.
    assert (Heq : filter (sender_on m) us = filter (fun x => i =? u_user_id x) us).
    { apply filter_ext. intros x. unfold sender_on. now rewrite Hs. }
    rewrite Heq. destruct (filter (fun x => i =? u_user_id x) us) as [|x [|y l]].
    + now exists None.
    + now exists (Some x).
    + cbn in Hle. lia.
  - exists None. rewrite filter_none; [reflexivity|].
    intros x _. unfold sender_on. now rewrite Hs.
Qed.

Lemma escalation_step_keys E req tid v s :
  map owner_key (support_tickets (db (snd (escalation_step E req tid v s))))
  = map owner_key (support_tickets (db s)).
Proof.
  unfold escalation_step.
  destruct (needsHuman v || is_urgent (body_priority req));
    [apply escalateToHuman_keys|reflexivity].
Qed.

Lemma escalation_step_chat E req u s :
  no_faults E ->
  chat_messages (db (snd (escalation_step E req (next_ticket_id (db s)) (verdict_of E req)
                            (primary_writes E req u s))))
  = (chat_messages (db (primary_writes E req u s)) ++ creation_notices E req u s)%list.
Proof.
  intros NF. unfold escalation_step, creation_notices.
  destruct (needsHuman (verdict_of E req) || is_urgent (body_priority req));
    [|cbn [ret snd]; now rewrite app_nil_r].
  destruct (chosen_agent (db (primary_writes E req u s))) as [a|] eqn:Hc.
  - rewrite (escalateToHuman_assigns E _ _ _ a NF Hc). reflexivity.
  - rewrite (escalateToHuman_no_agent E _ _ _ Hc). cbn [db]. now rewrite app_nil_r.
Qed.

Lemma createTicket_state E req u s :
  no_faults E -> req_user req = Some u -> valid_ticket_request req = true ->
  let s' := snd (createTicket E req s) in
  users (db s') = users (db s)
  /\ chat_messages (db s')
     = (chat_messages (db s)
          ++ opening_message req u (next_ticket_id (db s)) (next_message_id (db s))
               (db_now E (S (tick s)))
          :: ai_message (next_ticket_id (db s)) (verdict_of E req)
               (next_message_id (db s) + 1) (db_now E (S (S (tick s))))
          :: creation_notices E req u s)%list
  /\ In (next_ticket_id (db s), user_id u) (map owner_key (support_tickets (db s'))).
Proof.
  intros NF Hu Hv s'.
  assert (Hrun := createTicket_run E req u s Hu Hv (fun k _ => NF _)). cbv zeta in Hrun.
  fold (verdict_of E req) in Hrun.
  assert (Hs' : s' = snd (try_catch (projectComplaint E req (next_ticket_id (db s)))
                            (fun _ => ret tt)
                            (snd (escalation_step E req (next_ticket_id (db s))
                                    (verdict_of E req) (primary_writes E req u s)))))
    by (unfold s'; now rewrite Hrun).
  match type of Hs' with
  | _ = snd (try_catch _ _ ?s5) =>
      destruct (projectComplaint_tables E req (next_ticket_id (db s)) s5)
        as (Pt & Pm & _ & _ & Pu)
  end.
  rewrite <- Hs' in Pt, Pm, Pu.
  pose proof (escalation_step_frame E req (next_ticket_id (db s)) (verdict_of E req)
                (primary_writes E req u s)) as F.
  split; [|split].
  - rewrite Pu, (frame_users _ _ F). reflexivity.
  - rewrite Pm, (escalation_step_chat E req u s NF), primary_writes_messages.
    rewrite <- app_assoc. reflexivity.
  - rewrite Pt, escalation_step_keys, primary_writes_tickets, map_app.
    apply in_or_app. right. now left.
Qed.

Lemma creation_notices_cases E req u s :
  creation_notices E req u s = []
  \/ creation_notices E req u s
     = [handoff_row (next_ticket_id (db s)) (next_message_id (db s) + 1 + 1)
          (db_now E (S (S (S (S (S (S (tick s))))))))].
Proof.
  unfold creation_notices.
  destruct (needsHuman (verdict_of E req) || is_urgent (body_priority req)); [|now left].
  destruct (chosen_agent _); [now right|now left].
Qed.

Lemma sorted_listing_unique {A} (key : A -> Z) (l1 l2 : list A) :
  StronglySorted (fun a b => key a < key b) l1 ->
  Permutation l2 l1 ->
  StronglySorted (fun a b => key a <= key b) l2 -> l2 = l1.
Proof.
  intros S1. revert l2. induction S1 as [|a l1 S1 IH Ha]; intros l2 P S2.
  - now apply Permutation_nil.
  - destruct l2 as [|b l2].
    { apply Permutation_nil in P. discriminate. }
    inversion S2 as [|? ? S2' Hb]; subst.
    rewrite Forall_forall in Ha, Hb.
    assert (Hab : b = a).
    { assert (Hin : In b (a :: l1)) by (apply (Permutation_in _ P); now left).
      destruct Hin as [Hin|Hin]; [now symmetry|].
      assert (Hin' : In a (b :: l2))
        by (apply (Permutation_in _ (Permutation_sym P)); now left).
      pose proof (Ha b Hin) as Hlt.
      destruct Hin' as [Heq|Hin']; [subst; lia|].
      pose proof (Hb a Hin'). lia. }
    subst b. f_equal. apply IH; [|exact S2'].
    now apply Permutation_cons_inv with a.
Qed.

(** X29.  Create, then list.  Right after a creation, on a store whose
    clock advances with every statement, the listing of the new ticket
    asked by its owner, or by a caller of any other role, reads in this
    order: the customer's opening message, the classifier's reply, and,
    when the creation escalated to an agent, the hand-off notice; nothing
    else.  The notice is there whenever escalation was triggered and an
    active support agent exists.  The order is that of the creation
    times alone: no two of the rows carry the same time, so every
    arrangement of the listing that ascends in creation time is the
    listing itself. *)
Theorem createTicket_then_list E req u s req' viewer :
  no_faults E -> (forall m n, (m < n)%nat -> db_now E m < db_now E n) ->
  req_user req = Some u -> valid_ticket_request req = true ->
  NoDup (map u_user_id (users (db s))) ->
  (forall m, In m (chat_messages (db s)) -> cm_ticket_id m <> next_ticket_id (db s)) ->
  req_user req' = Some viewer -> param_ticket_id req' = next_ticket_id (db s) ->
  (user_type viewer = "student" -> user_id viewer = user_id u) ->
  let tid := next_ticket_id (db s) in
  let mid := next_message_id (db s) in
  let s' := snd (createTicket E req s) in
  exists messages notices,
    fst (getTicketMessages E req' s') = Ok (MessageList messages)
    /\ map fst messages
       = opening_message req u tid mid (db_now E (S (tick s)))
         :: ai_message tid (verdict_of E req) (mid + 1) (db_now E (S (S (tick s))))
         :: notices
    /\ (notices = []
        \/ notices = [handoff_row tid (mid + 1 + 1)
                        (db_now E (S (S (S (S (S (S (tick s))))))))])
    /\ (needsHuman (verdict_of E req) = true \/ body_priority req = Some "urgent" ->
        (exists a, active_agent (db s) a) -> notices <> [])
    /\ (forall l, Permutation l messages ->
                  StronglySorted (fun a b => created_at_asc a b = true) l ->
                  l = messages).
Proof.
  intros NF Hclock Hu Hv N Hfresh Hu' Hp Hsame tid mid s'. subst tid mid.
  destruct (createTicket_state E req u s NF Hu Hv) as (Hus & Hchat & Hkey).
  fold s' in Hus, Hchat, Hkey.
  assert (Hown : user_type viewer = "student" ->
            exists t, In t (support_tickets (db s'))
                      /\ st_ticket_id t = param_ticket_id req'
                      /\ st_user_id t = user_id viewer).
  { intros Hst. apply owned_by_key. rewrite Hp, (Hsame Hst). exact Hkey. }
  pose proof (Hclock (S (tick s)) (S (S (tick s))) ltac:(lia)) as H12.
  pose proof (Hclock (S (S (tick s))) (S (S (S (S (S (S (tick s)))))))
                ltac:(lia)) as H26.
  destruct (left_join_one_sender
              (opening_message req u (next_ticket_id (db s)) (next_message_id (db s))
                 (db_now E (S (tick s))))
              (users (db s)) N) as [sender Hsender].
  set (rows := (opening_message req u (next_ticket_id (db s)) (next_message_id (db s))
                  (db_now E (S (tick s))), sender)
               :: (ai_message (next_ticket_id (db s)) (verdict_of E req)
                     (next_message_id (db s) + 1) (db_now E (S (S (tick s)))), None)
               :: map (fun m => (m, @None user_row)) (creation_notices E req u s)).
  assert (Hstrict : StronglySorted
                      (fun a b : message_view =>
                         cm_created_at (fst a) < cm_created_at (fst b)) rows).
  { unfold rows. destruct (creation_notices_cases E req u s) as [-> | ->]; cbn [map];
      repeat first [apply SSorted_nil | apply SSorted_cons
                    | apply Forall_nil | apply Forall_cons];
      cbn [fst cm_created_at opening_message ai_message handoff_row]; lia. }
  assert (Hlist : fst (select_ticket_messages (param_ticket_id req') (user_type viewer)
                         0 (db s')) = rows).
  { cbn [select_ticket_messages query fst]. rewrite Hchat, Hus, Hp.
    rewrite left_join_app, filter_app.
    rewrite (filter_none _ (left_join sender_on (chat_messages (db s)) (users (db s)))).
    2:{ intros row Hrow. apply left_join_fst in Hrow.
        apply andb_false_iff. left. apply Z.eqb_neq. now apply Hfresh. }
    cbn [app].
    rewrite left_join_cons, (left_join_cons sender_on (ai_message _ _ _ _)).
    rewrite Hsender.
    rewrite (left_join_no_sender (ai_message _ _ _ _)) by reflexivity.
    revert Hstrict. unfold rows.
    destruct (creation_notices_cases E req u s) as [-> | ->]; intros Hstrict.
    - cbn [left_join flat_map app filter fst cm_ticket_id cm_is_internal_note
           opening_message ai_message negb orb andb map].
      rewrite !Z.eqb_refl. cbn [andb].
      apply order_by_sorted_id. revert Hstrict. apply StronglySorted_weaken.
      intros a b Hab. unfold created_at_asc. apply Z.leb_le. lia.
    - rewrite (left_join_no_sender (handoff_row _ _ _)) by reflexivity.
      cbn [app filter fst cm_ticket_id cm_is_internal_note
           opening_message ai_message handoff_row negb orb andb map].
      rewrite !Z.eqb_refl. cbn [andb].
      apply order_by_sorted_id. revert Hstrict. apply StronglySorted_weaken.
      intros a b Hab. unfold created_at_asc. apply Z.leb_le. lia. }
  exists rows, (creation_notices E req u s).
  split; [rewrite <- Hlist; exact (getTicketMessages_allowed E req' viewer s' NF Hu' Hown)|].
  split.
  { unfold rows. cbn [map fst]. rewrite map_map. cbn [fst]. now rewrite map_id. }
  split; [apply creation_notices_cases|]. split.
  - intros Htrig Hex Hnil. unfold creation_notices in Hnil.
    assert (Ht : needsHuman (verdict_of E req) || is_urgent (body_priority req) = true).
    { destruct Htrig as [-> | ->]; [reflexivity|]. cbn. now rewrite orb_true_r. }
    rewrite Ht in Hnil.
    destruct (chosen_agent_exists (db (primary_writes E req u s))) as [a Ha].
    { destruct Hex as [b Hb]. exists b. revert Hb. apply active_agent_users. reflexivity. }
    rewrite Ha in Hnil. discriminate.
  - intros l HP HS.
    apply (sorted_listing_unique (fun a : message_view => cm_created_at (fst a))
             rows l Hstrict HP).
    revert HS. apply StronglySorted_weaken.
    intros a b Hab. unfold created_at_asc in Hab. now apply Z.leb_le.
Qed.

(** An urgent creation on the staffed campus, listed by an agent and by
    the owner; the listing read backwards is a rearrangement that does
    not ascend in creation time. *)
Lemma createTicket_then_list_witness :
  let E := quiet false in
  let req := ticket_request (Some "urgent") None None in
  let s' := snd (createTicket E req (boot campus)) in
  let texts r := match r with
                 | Ok (MessageList ms) => map (fun row => cm_message_text (fst row)) ms
                 | _ => []
                 end in
  no_faults E
  /\ (forall m n, (m < n)%nat -> db_now E m < db_now E n)
  /\ valid_ticket_request req = true
  /\ NoDup (map u_user_id (users campus))
  /\ active_agent campus 5
  /\ texts (fst (getTicketMessages E (request_of (caller 5 "support_agent") 1) s'))
     = ["I was charged twice"; "We are looking into it."; handoff_notice]
  /\ exists (messages : list message_view) (notices : list message_row),
       fst (getTicketMessages E (request_of (caller 1 "student") 1) s')
       = Ok (MessageList messages)
       /\ List.length messages = (2 + List.length notices)%nat
       /\ notices <> []
       /\ map (fun row => cm_created_at (fst row)) messages = [1001; 1002; 1006]
       /\ ~ StronglySorted (fun a b => created_at_asc a b = true) (rev messages).
Proof.
  intros E req s' texts.
  assert (H1 : no_faults E) by (intros n; reflexivity).
  assert (H2 : forall m n, (m < n)%nat -> db_now E m < db_now E n).
  { intros m n Hmn. change (1000 + Z.of_nat m < 1000 + Z.of_nat n). lia. }
  assert (H5 : NoDup (map u_user_id (users (db (boot campus))))).
  { repeat constructor; cbn; intuition discriminate. }
  assert (H6 : forall m, In m (chat_messages (db (boot campus))) ->
                         cm_ticket_id m <> next_ticket_id (db (boot campus)))
    by (intros m []).
  assert (H9 : active_agent (db (boot campus)) 5).
  { exists (member 5 "support_agent"). repeat split. cbn. auto. }
  destruct (createTicket_then_list E req (caller 1 "student") (boot campus)
              (request_of (caller 1 "student") 1) (caller 1 "student")
              H1 H2 eq_refl eq_refl H5 H6 eq_refl eq_refl (fun _ => eq_refl))
    as (messages & notices & Hresp & Hmap & Hcases & Hnotice & Honly).
  assert (Hn : notices <> []) by (apply Hnotice; [now right|now exists 5]).
  assert (Htimes : map (fun row : message_view => cm_created_at (fst row)) messages
                   = [1001; 1002; 1006]).
  { transitivity (map cm_created_at (map fst messages)); [symmetry; apply map_map|].
    rewrite Hmap.
    destruct Hcases as [Hc|Hc]; [contradiction|]. rewrite Hc. reflexivity. }
  split; [exact H1|]. split; [exact H2|]. split; [reflexivity|].
  split; [exact H5|]. split; [exact H9|]. split; [reflexivity|].
  exists messages, notices. split; [exact Hresp|]. split; [|split; [|split]].
  - transitivity (List.length (map fst messages));
      [symmetry; apply length_map|rewrite Hmap; reflexivity].
  - exact Hn.
  - exact Htimes.
  - intros Hrev.
    pose proof (Honly (rev messages) (Permutation_sym (Permutation_rev messages)) Hrev)
      as Heq.
    apply (f_equal (map (fun row : message_view => cm_created_at (fst row)))) in Heq.
    rewrite map_rev, Htimes in Heq. discriminate Heq.
Defined.
